(** * Enhanced comment processing of tbls: a shallow embedding and its properties

    The Go package [schema] parses database comments into [CommentData]
    records (JSON, YAML or the legacy [name|description] form), validates and
    sanitizes them, and annotates them with the object type.  This file
    embeds the record type, the parser registry, the three parsers, the
    validator and the processor, and states the properties of the
    specification against them.

    Conventions of the embedding.
    - A Go [string] is the list of its runes (code points), as
      [for _, r := range s] yields them; this is exact for valid UTF-8 text.
      [len(s)], a byte count, is [len_bytes].
    - A pointer that may be [nil] is an [option]; a result pair of a pointer
      and an [error] is a pair of options.
    - A nil slice or map and an empty one are the same value: the code reads
      them through [len], [range] and indexing only, and guards every write
      to a nil map.
    - [range] over a map visits the entries in an unspecified order.  Loops
      whose result depends on that order take the order as an argument
      ([MapRange]); loops that do not are written with map operations. *)

From Stdlib Require Import ZArith List String Ascii Lia Sorted.
From Stdlib Require Import Floats.SpecFloat.
From stdpp Require Import base decidable option list numbers countable gmap.

#[local] Set Warnings "-register-all".

Local Open Scope Z_scope.

(** ** Go strings *)

Abbreviation rune := Z (only parsing).
Abbreviation gostring := (list Z) (only parsing).

Module utf8.

(** [utf8.RuneLen] for the runes of valid text. *)
Definition RuneLen (r : rune) : Z :=
  if r <? 0x80 then 1 else if r <? 0x800 then 2 else if r <? 0x10000 then 3 else 4.

(** Decoding of the bytes of a source literal. *)
Fixpoint decode (bs : list Z) : gostring :=
  match bs with
  | [] => []
  | b0 :: t0 =>
    if b0 <? 0x80 then b0 :: decode t0
    else match t0 with
    | [] => [0xFFFD]
    | b1 :: t1 =>
      if b0 <? 0xE0 then ((b0 - 0xC0) * 64 + (b1 - 0x80)) :: decode t1
      else match t1 with
      | [] => [0xFFFD]
      | b2 :: t2 =>
        if b0 <? 0xF0
        then ((b0 - 0xE0) * 4096 + (b1 - 0x80) * 64 + (b2 - 0x80)) :: decode t2
        else match t2 with
        | [] => [0xFFFD]
        | b3 :: t3 =>
          ((b0 - 0xF0) * 262144 + (b1 - 0x80) * 4096 + (b2 - 0x80) * 64 + (b3 - 0x80))
            :: decode t3
        end
      end
    end
  end.

(** [utf8.RuneCountInString]. *)
Definition RuneCountInString (s : gostring) : Z := Z.of_nat (length s).

End utf8.

(** A string literal of the source, as a Go string. *)
Definition str (s : string) : gostring :=
  utf8.decode (map (fun a => Z.of_N (N_of_ascii a)) (list_ascii_of_string s)).

(** [len(s)]: the length of [s] in bytes. *)
Definition len_bytes (s : gostring) : Z :=
  fold_right (fun r n => utf8.RuneLen r + n) 0 s.

Definition is_empty_string (s : gostring) : bool :=
  match s with [] => true | _ => false end.

Definition string_eqb (a b : gostring) : bool := bool_decide (a = b).

Module unicode.

(** [unicode.IsSpace]: the Latin-1 cases and the [White_Space] property
    above Latin-1. *)
Definition IsSpace (r : rune) : bool :=
  if r <=? 0xFF
  then (9 <=? r) && (r <=? 13) || (r =? 0x20) || (r =? 0x85) || (r =? 0xA0)
  else (r =? 0x1680) || (0x2000 <=? r) && (r <=? 0x200a)
       || (r =? 0x2028) || (r =? 0x2029) || (r =? 0x202f) || (r =? 0x205f)
       || (r =? 0x3000).

(** The Latin-1 half of [unicode.IsPrint] (the [pp] bit of the
    [properties] table): ASCII 0x20..0x7E, and 0xA1..0xFF without the soft
    hyphen 0xAD. *)
Definition IsPrintLatin1 (r : rune) : bool :=
  (0x20 <=? r) && (r <=? 0x7E) || (0xA1 <=? r) && (r <=? 0xAC)
  || (0xAE <=? r) && (r <=? 0xFF).

(** The ASCII halves of [unicode.ToUpper] and [unicode.ToLower]. *)
Definition ToUpperASCII (r : rune) : rune :=
  if (0x61 <=? r) && (r <=? 0x7A) then r - 0x20 else r.
Definition ToLowerASCII (r : rune) : rune :=
  if (0x41 <=? r) && (r <=? 0x5A) then r + 0x20 else r.

End unicode.

Module strings.

Fixpoint HasPrefix (s prefix : gostring) : bool :=
  match prefix, s with
  | [], _ => true
  | p :: prefix', c :: s' => (c =? p) && HasPrefix s' prefix'
  | _ :: _, [] => false
  end.

Fixpoint Contains (s substr : gostring) : bool :=
  HasPrefix s substr ||
  match s with
  | [] => false
  | _ :: s' => Contains s' substr
  end.

Fixpoint TrimLeftSpace (s : gostring) : gostring :=
  match s with
  | [] => []
  | r :: s' => if unicode.IsSpace r then TrimLeftSpace s' else s
  end.

Fixpoint TrimRightSpace (s : gostring) : gostring :=
  match s with
  | [] => []
  | r :: s' =>
    match TrimRightSpace s' with
    | [] => if unicode.IsSpace r then [] else [r]
    | kept => r :: kept
    end
  end.

(** [strings.TrimSpace]: all leading and trailing white space, as defined
    by Unicode, removed. *)
Definition TrimSpace (s : gostring) : gostring :=
  TrimRightSpace (TrimLeftSpace s).

(** [strings.Split] for a non-empty separator: [skip] counts the runes of
    a separator that is being stepped over, [cur] is the piece under
    construction, reversed. *)
Fixpoint split_loop (sep s : gostring) (skip : nat) (cur : gostring)
  : list gostring :=
  match s with
  | [] => [rev cur]
  | c :: s' =>
    match skip with
    | S k => split_loop sep s' k cur
    | O =>
      if HasPrefix s sep
      then rev cur :: split_loop sep s' (length sep - 1)%nat []
      else split_loop sep s' O (c :: cur)
    end
  end.

Definition Split (s sep : gostring) : list gostring :=
  match sep with
  | [] => map (fun r => [r]) s
  | _ => split_loop sep s O []
  end.

End strings.

(** ** CommentData (comment_data.go) *)

Record CommentData := mkCommentData {
  LogicalName : gostring;
  Description : gostring;
  Tags : list gostring;
  Metadata : gmap gostring gostring;
  Priority : Z;
  Deprecated : bool;
  Source : gostring;
}.

(** The composite literal [&CommentData{Source: comment}]. *)
Definition CommentData_with_source (comment : gostring) : CommentData :=
  {| LogicalName := []; Description := []; Tags := []; Metadata := ∅;
     Priority := 0; Deprecated := false; Source := comment |}.

(** The composite literal [&CommentData{}]. *)
Definition CommentData_zero : CommentData := CommentData_with_source [].

Definition set_LogicalName (v : gostring) (cd : CommentData) : CommentData :=
  {| LogicalName := v; Description := Description cd; Tags := Tags cd;
     Metadata := Metadata cd; Priority := Priority cd;
     Deprecated := Deprecated cd; Source := Source cd |}.
Definition set_Description (v : gostring) (cd : CommentData) : CommentData :=
  {| LogicalName := LogicalName cd; Description := v; Tags := Tags cd;
     Metadata := Metadata cd; Priority := Priority cd;
     Deprecated := Deprecated cd; Source := Source cd |}.
Definition set_Tags (v : list gostring) (cd : CommentData) : CommentData :=
  {| LogicalName := LogicalName cd; Description := Description cd; Tags := v;
     Metadata := Metadata cd; Priority := Priority cd;
     Deprecated := Deprecated cd; Source := Source cd |}.
Definition set_Metadata (v : gmap gostring gostring) (cd : CommentData) : CommentData :=
  {| LogicalName := LogicalName cd; Description := Description cd; Tags := Tags cd;
     Metadata := v; Priority := Priority cd;
     Deprecated := Deprecated cd; Source := Source cd |}.
Definition set_Priority (v : Z) (cd : CommentData) : CommentData :=
  {| LogicalName := LogicalName cd; Description := Description cd; Tags := Tags cd;
     Metadata := Metadata cd; Priority := v;
     Deprecated := Deprecated cd; Source := Source cd |}.
Definition set_Deprecated (v : bool) (cd : CommentData) : CommentData :=
  {| LogicalName := LogicalName cd; Description := Description cd; Tags := Tags cd;
     Metadata := Metadata cd; Priority := Priority cd;
     Deprecated := v; Source := Source cd |}.
Definition set_Source (v : gostring) (cd : CommentData) : CommentData :=
  {| LogicalName := LogicalName cd; Description := Description cd; Tags := Tags cd;
     Metadata := Metadata cd; Priority := Priority cd;
     Deprecated := Deprecated cd; Source := v |}.

(** [IsEmpty], on a pointer. *)
Definition IsEmpty (cd : option CommentData) : bool :=
  match cd with
  | None => true
  | Some cd =>
    is_empty_string (LogicalName cd) && is_empty_string (Description cd)
    && (length (Tags cd) =? 0)%nat && (size (Metadata cd) =? 0)%nat
  end.

(** [Clone]: a field-by-field copy; tags and metadata are copied when they
    are not empty and left nil otherwise. *)
Definition Clone_value (cd : CommentData) : CommentData :=
  {| LogicalName := LogicalName cd;
     Description := Description cd;
     Tags := if (0 <? length (Tags cd))%nat then Tags cd else [];
     Metadata := if (0 <? size (Metadata cd))%nat then Metadata cd else ∅;
     Priority := Priority cd;
     Deprecated := Deprecated cd;
     Source := Source cd |}.

Definition Clone (cd : option CommentData) : option CommentData :=
  match cd with
  | None => None
  | Some cd => Some (Clone_value cd)
  end.

(** The tag loop of [Merge]: [tagSet] holds the tags seen so far. *)
Definition merge_tag_step (st : list gostring * gset gostring) (tag : gostring)
  : list gostring * gset gostring :=
  let '(tags, tagSet) := st in
  if decide (tag ∈ tagSet) then (tags, tagSet)
  else (tags ++ [tag], {[tag]} ∪ tagSet).

Definition merge_tags (mine other : list gostring) : list gostring :=
  if (0 <? length other)%nat
  then fst (foldl merge_tag_step (mine, list_to_set mine) other)
  else mine.

(** The metadata loop of [Merge] inserts the entries of [other] whose key is
    absent; the keys of a map are distinct, so the visiting order does not
    matter and the loop is the left-biased union. *)
Definition merge_metadata (mine other : gmap gostring gostring)
  : gmap gostring gostring :=
  if (0 <? size other)%nat then mine ∪ other else mine.

Definition Merge (cd other : option CommentData) : option CommentData :=
  match cd, other with
  | None, None => None
  | None, Some _ => Clone other
  | Some _, None => Clone cd
  | Some this, Some other =>
    let merged := Clone_value this in
    let merged :=
      if is_empty_string (LogicalName merged) && negb (is_empty_string (LogicalName other))
      then set_LogicalName (LogicalName other) merged else merged in
    let merged :=
      if is_empty_string (Description merged) && negb (is_empty_string (Description other))
      then set_Description (Description other) merged else merged in
    let merged := set_Tags (merge_tags (Tags merged) (Tags other)) merged in
    let merged := set_Metadata (merge_metadata (Metadata merged) (Metadata other)) merged in
    Some merged
  end.

(** ** Errors (comment_parser.go)

    Formatted text is kept as its format and arguments. *)

Inductive FmtArg :=
| ArgInt (n : Z)
| ArgString (s : gostring)
| ArgStrings (l : list gostring)
| ArgMap (m : gmap gostring gostring)
| ArgTypeOf (typ : string).

Record Text := Sprintf { format : string; args : list FmtArg }.

Definition literal (s : string) : Text := Sprintf s [].

Inductive error :=
| errors_New (text : string)
| fmt_Errorf (format : string) (args : list FmtArg) (wrapped : option error)
| CommentParseError (ParserName Comment : gostring) (Reason : string) (Cause : option error)
| CommentValidationError (Field Value Reason : Text) (Cause : option error)
| library_error (package : string) (detail : gostring).

Definition NewCommentParseError (parserName comment : gostring) (reason : string)
  (cause : option error) : error :=
  CommentParseError parserName comment reason cause.

Definition NewCommentValidationError (field value reason : Text)
  (cause : option error) : error :=
  CommentValidationError field value reason cause.

Definition ErrInvalidCommentFormat : error := errors_New "invalid comment format".
Definition ErrUnsupportedFormat : error := errors_New "unsupported comment format".
Definition ErrCommentTooLong : error := errors_New "comment too long".
Definition ErrLogicalNameTooLong : error := errors_New "logical name too long".
Definition ErrDescriptionTooLong : error := errors_New "description too long".
Definition ErrInvalidCharacters : error := errors_New "invalid characters".
Definition ErrJSONTooDeep : error := errors_New "JSON structure too deep".
Definition ErrYAMLParseError : error := errors_New "YAML parse error".

(** [Unwrap] of the two error types, and of [fmt.Errorf] with [%w]. *)
Definition Unwrap (e : error) : option error :=
  match e with
  | fmt_Errorf _ _ w => w
  | CommentParseError _ _ _ c => c
  | CommentValidationError _ _ _ c => c
  | _ => None
  end.

(** ** The parser interface and the registry (comment_parser.go) *)

Module CommentParser.

(** A value of the interface [CommentParser]: its four methods. *)
Record t := Build {
  ParseComment : gostring -> gostring -> option CommentData * option error;
  CanParse : gostring -> bool;
  Priority : Z;
  Name : gostring;
}.

End CommentParser.

Record DefaultParserRegistry := { parsers : list CommentParser.t }.

Definition NewDefaultParserRegistry : DefaultParserRegistry := {| parsers := [] |}.

(** The loop of [RegisterParser]: the new parser goes before the first
    registered parser of strictly larger priority, and at the end when there
    is none. *)
Fixpoint insert_parser (parser : CommentParser.t) (ps : list CommentParser.t)
  : list CommentParser.t :=
  match ps with
  | [] => [parser]
  | p :: rest =>
    if CommentParser.Priority parser <? CommentParser.Priority p
    then parser :: p :: rest
    else p :: insert_parser parser rest
  end.

Definition RegisterParser (r : DefaultParserRegistry) (parser : option CommentParser.t)
  : DefaultParserRegistry :=
  match parser with
  | None => r
  | Some parser => {| parsers := insert_parser parser (parsers r) |}
  end.


(** The loop of [ParseWithFallback] over the remaining parsers, with the
    current [lastError]. *)
Fixpoint fallback_loop (ps : list CommentParser.t) (comment delimiter : gostring)
  (lastError : option error) : option CommentData * option error :=
  match ps with
  | [] =>
    match lastError with
    | Some e =>
      (None, Some (fmt_Errorf "all parsers failed to parse comment: %w" [] (Some e)))
    | None =>
      (None, Some (NewCommentParseError (str "registry") comment
                     "no suitable parser found" (Some ErrUnsupportedFormat)))
    end
  | parser :: rest =>
    if CommentParser.CanParse parser comment then
      match CommentParser.ParseComment parser comment delimiter with
      | (Some result, None) => (Some (set_Source comment result), None)
      | (_, err) => fallback_loop rest comment delimiter err
      end
    else fallback_loop rest comment delimiter lastError
  end.

Definition ParseWithFallback (r : DefaultParserRegistry) (comment delimiter : gostring)
  : option CommentData * option error :=
  if is_empty_string comment then (Some (CommentData_with_source comment), None)
  else fallback_loop (parsers r) comment delimiter None.


Definition Count (r : DefaultParserRegistry) : Z := Z.of_nat (length (parsers r)).

Definition HasParser (r : DefaultParserRegistry) (name : gostring) : bool :=
  existsb (fun parser => string_eqb (CommentParser.Name parser) name) (parsers r).

(** ** LegacyParser (legacy_parser.go) *)

Module LegacyParser.

Record t := Build { name : gostring; priority : Z }.

Definition New : t := {| name := str "legacy"; priority := 1000 |}.

Definition Name (p : t) : gostring := name p.
Definition Priority (p : t) : Z := priority p.
Definition SetPriority (p : t) (prio : Z) : t := {| name := name p; priority := prio |}.

Definition CanParse (p : t) (comment : gostring) : bool := true.

(** The loop of [normalizeWhitespace]. *)
Fixpoint normalizeWhitespace_loop (s : gostring) (prevIsSpace : bool) : gostring :=
  match s with
  | [] => []
  | r :: rest =>
    let isSpace := unicode.IsSpace r in
    (if isSpace then (if prevIsSpace then [] else [0x20]) else [r])
      ++ normalizeWhitespace_loop rest isSpace
  end.

Definition normalizeWhitespace (s : gostring) : gostring :=
  strings.TrimSpace (normalizeWhitespace_loop s false).

Definition normalizeComment (comment : gostring) : gostring :=
  normalizeWhitespace (strings.TrimSpace comment).

(** The loop of [splitWithEscape] from position [i] on: [s] is [s[i:]],
    [skip] counts the runes of a delimiter being stepped over
    ([i += len(delimiter)]), [current] is the builder, reversed. *)
Fixpoint splitWithEscape_loop (delimiter s : gostring) (skip : nat) (escaped : bool)
  (current : gostring) : list gostring :=
  match s with
  | [] => [rev current]
  | c :: rest =>
    match skip with
    | S k => splitWithEscape_loop delimiter rest k escaped current
    | O =>
      if escaped then splitWithEscape_loop delimiter rest O false (c :: current)
      else if (c =? 0x5C) && negb (is_empty_string rest) && strings.HasPrefix rest delimiter
      then splitWithEscape_loop delimiter rest O true current
      else if strings.HasPrefix s delimiter
      then rev current
             :: splitWithEscape_loop delimiter rest (length delimiter - 1)%nat false []
      else splitWithEscape_loop delimiter rest O false (c :: current)
    end
  end.

Definition splitWithEscape (s delimiter : gostring) : list gostring :=
  if is_empty_string delimiter || is_empty_string s then [s]
  else splitWithEscape_loop delimiter s O false [].

Definition ParseComment (p : t) (comment delimiter : gostring)
  : option CommentData * option error :=
  if is_empty_string comment then (Some (CommentData_with_source comment), None)
  else
    let delimiter := if is_empty_string delimiter then str "|" else delimiter in
    let normalizedComment := normalizeComment comment in
    let parts := splitWithEscape normalizedComment delimiter in
    let result := CommentData_with_source comment in
    let result :=
      match parts with
      | part0 :: _ => set_LogicalName (strings.TrimSpace part0) result
      | [] => result
      end in
    let result :=
      match parts with
      | _ :: part1 :: _ => set_Description (strings.TrimSpace part1) result
      | _ => result
      end in
    (Some result, None).

(** A [*LegacyParser] as a value of the interface. *)
Definition as_parser (p : t) : CommentParser.t :=
  {| CommentParser.ParseComment := ParseComment p;
     CommentParser.CanParse := CanParse p;
     CommentParser.Priority := Priority p;
     CommentParser.Name := Name p |}.

End LegacyParser.

(** ** Dynamic values and the Go libraries

    What [json.Unmarshal] and [yaml.Unmarshal] store in an [interface{}].  A
    [map[string]interface{}] is the list of its entries, with distinct
    keys. *)

Inductive GoValue :=
| VNil
| VBool (b : bool)
| VInt (n : Z)
| VFloat64 (f : spec_float)
| VString (s : gostring)
| VStrings (l : list gostring)
| VSlice (l : list GoValue)
| VMap (m : list (gostring * GoValue)).

(** [data[key]] with its [exists] flag. *)
Fixpoint map_index (data : list (gostring * GoValue)) (key : gostring) : option GoValue :=
  match data with
  | [] => None
  | (k, v) :: rest => if string_eqb k key then Some v else map_index rest key
  end.

(** The dynamic type, as [%T] prints it. *)
Definition type_name (v : GoValue) : string :=
  match v with
  | VNil => "<nil>"
  | VBool _ => "bool"
  | VInt _ => "int"
  | VFloat64 _ => "float64"
  | VString _ => "string"
  | VStrings _ => "[]string"
  | VSlice _ => "[]interface {}"
  | VMap _ => "map[string]interface {}"
  end.

(** The conversion [int(v)] of a [float64]: the fraction is discarded
    (truncation towards zero).  For NaN, the infinities and values outside
    the range of [int] the language leaves the result to the implementation;
    amd64 gives the least [int64]. *)
Definition int_of_float64 (f : spec_float) : Z :=
  match f with
  | S754_zero _ => 0
  | S754_finite s m e =>
    let magnitude := if 0 <=? e then Z.pos m * 2 ^ e else Z.pos m / 2 ^ (- e) in
    let v := if s then - magnitude else magnitude in
    if (- 2 ^ 63 <=? v) && (v <? 2 ^ 63) then v else - 2 ^ 63
  | _ => - 2 ^ 63
  end.

(** The parts of the Go libraries that the package calls and that are not
    spelled out here: the Unicode tables above Latin-1, regular expressions,
    the two decoders and the [%v] verb.  The embedding is parametric in
    them. *)
Class GoLibrary := {
  (** [unicode.In(r, unicode.PrintRanges...)], used by [unicode.IsPrint]
      above Latin-1: the categories L, M, N, P and S. *)
  unicode_PrintRanges : rune -> bool;
  (** [unicode.To(unicode.UpperCase, r)] and [unicode.To(unicode.LowerCase, r)],
      used above ASCII. *)
  unicode_To_UpperCase : rune -> rune;
  unicode_To_LowerCase : rune -> rune;
  (** [regexp.MatchString(pattern, s)], also the [MatchString] of the
      compiled pattern. *)
  regexp_MatchString : gostring -> gostring -> bool;
  (** [json.Unmarshal([]byte(s), &data)] with [data] an [interface{}]. *)
  json_Unmarshal : gostring -> error + GoValue;
  (** [yaml.Unmarshal([]byte(s), &data)] with [data] an [interface{}]. *)
  yaml_Unmarshal : gostring -> error + GoValue;
  (** [fmt.Sprintf("%v", value)]. *)
  fmt_Sprint : GoValue -> gostring;
}.

Module html.

(** [html.EscapeString]: the five characters less-than, greater-than,
    ampersand, apostrophe and double quote. *)
Definition escape_rune (r : rune) : gostring :=
  if r =? 0x26 then str "&amp;"
  else if r =? 0x27 then str "&#39;"
  else if r =? 0x3C then str "&lt;"
  else if r =? 0x3E then str "&gt;"
  else if r =? 0x22 then [0x26; 0x23; 0x33; 0x34; 0x3B]
  else [r].

Definition EscapeString (s : gostring) : gostring := flat_map escape_rune s.

End html.

Module fmt.

Definition is_digit (r : rune) : bool := (0x30 <=? r) && (r <=? 0x39).

Fixpoint take_while (f : rune -> bool) (s : gostring) : gostring :=
  match s with
  | [] => []
  | r :: rest => if f r then r :: take_while f rest else []
  end.

Definition digits_value (digits : gostring) : Z :=
  fold_left (fun n d => 10 * n + (d - 0x30)) digits 0.

(** The sign that the scanner accepts first, and the input after it. *)
Definition has_minus (s : gostring) : bool :=
  match s with
  | r :: _ => r =? 0x2D
  | [] => false
  end.
Definition after_sign (s : gostring) : gostring :=
  match s with
  | r :: t => if (r =? 0x2B) || (r =? 0x2D) then t else s
  | [] => s
  end.

(** [fmt.Sscanf(s, "%d", &result)] with [result] an [int], on input that
    does not start with white space (the caller trims): an optional sign,
    then the longest run of decimal digits is the token, which
    [strconv.ParseInt(token, 10, 64)] converts; what follows the token is
    left unread.  On success the count of scanned items is 1. *)
Definition Sscanf_d (s : gostring) : error + Z :=
  let token := take_while is_digit (after_sign s) in
  if is_empty_string token then inl (library_error "fmt" (str "expected integer"))
  else
    let v := if has_minus s then - digits_value token else digits_value token in
    if (- 2 ^ 63 <=? v) && (v <? 2 ^ 63) then inr v
    else inl (library_error "strconv" (str "value out of range")).

End fmt.

Section WithLibrary.

Context {L : GoLibrary}.

(** [unicode.IsPrint]. *)
Definition unicode_IsPrint (r : rune) : bool :=
  if r <=? 0xFF then unicode.IsPrintLatin1 r else unicode_PrintRanges r.

(** [unicode.ToUpper] and [unicode.ToLower]. *)
Definition unicode_ToUpper (r : rune) : rune :=
  if r <=? 0x7F then unicode.ToUpperASCII r else unicode_To_UpperCase r.
Definition unicode_ToLower (r : rune) : rune :=
  if r <=? 0x7F then unicode.ToLowerASCII r else unicode_To_LowerCase r.

(** [strings.ToUpper] and [strings.ToLower]. *)
Definition strings_ToUpper (s : gostring) : gostring := map unicode_ToUpper s.
Definition strings_ToLower (s : gostring) : gostring := map unicode_ToLower s.

(** [comment[0] == c] and [comment[len(comment)-1] == c] for an ASCII [c]. *)
Definition first_byte_is (c : Z) (s : gostring) : bool :=
  match s with
  | r :: _ => r =? c
  | [] => false
  end.
Definition last_byte_is (c : Z) (s : gostring) : bool :=
  match rev s with
  | r :: _ => r =? c
  | [] => false
  end.

(** ** JSONParser (json_parser.go) *)

Record JSONParser := {
  json_name : gostring;
  json_priority : Z;
  json_maxDepth : Z;
  json_maxSize : Z;
}.

Definition NewJSONParser : JSONParser :=
  {| json_name := str "json"; json_priority := 10; json_maxDepth := 5;
     json_maxSize := 8192 |}.

Definition NewJSONParserWithLimits (maxDepth maxSize : Z) : JSONParser :=
  {| json_name := json_name NewJSONParser; json_priority := json_priority NewJSONParser;
     json_maxDepth := maxDepth; json_maxSize := maxSize |}.

Definition JSONParser_SetPriority (p : JSONParser) (priority : Z) : JSONParser :=
  {| json_name := json_name p; json_priority := priority;
     json_maxDepth := json_maxDepth p; json_maxSize := json_maxSize p |}.

Definition JSONParser_CanParse (p : JSONParser) (comment : gostring) : bool :=
  if is_empty_string comment then false
  else if json_maxSize p <? len_bytes comment then false
  else
    let comment := strings.TrimSpace comment in
    if len_bytes comment <? 2 then false
    else
      let hasValidBraces :=
        first_byte_is 0x7B comment && last_byte_is 0x7D comment
        || first_byte_is 0x5B comment && last_byte_is 0x5D comment in
      if negb hasValidBraces then false
      else match json_Unmarshal comment with
           | inr _ => true
           | inl _ => false
           end.

(** [getDepth], the same function in both structured parsers. *)
Fixpoint getDepth (data : GoValue) : Z :=
  match data with
  | VMap m =>
    (fix over (entries : list (gostring * GoValue)) : Z :=
       match entries with
       | [] => 0
       | (_, value) :: rest => Z.max (getDepth value) (over rest)
       end) m + 1
  | VSlice l =>
    (fix over (items : list GoValue) : Z :=
       match items with
       | [] => 0
       | value :: rest => Z.max (getDepth value) (over rest)
       end) l + 1
  | _ => 1
  end.

(** The key loops of [convertMapToCommentData]: the first key whose value
    is a non-empty string. *)
Fixpoint first_string_field (keys : list gostring) (data : list (gostring * GoValue))
  : gostring :=
  match keys with
  | [] => []
  | key :: rest =>
    match map_index data key with
    | Some (VString s) =>
      if negb (is_empty_string s) then s else first_string_field rest data
    | _ => first_string_field rest data
    end
  end.

Definition item_to_string (item : GoValue) : gostring :=
  match item with
  | VString s => s
  | _ => fmt_Sprint item
  end.

Definition JSONParser_convertToStringSlice (value : GoValue) : option (list gostring) * option error :=
  match value with
  | VSlice v => (Some (map item_to_string v), None)
  | VStrings v => (Some v, None)
  | VString v => (Some [v], None)
  | _ => (None, Some (fmt_Errorf "cannot convert %T to string slice"
                        [ArgTypeOf (type_name value)] None))
  end.

(** The metadata loop: every key outside [excludeKeys]. *)
Definition metadata_of (excludeKeys : list gostring) (data : list (gostring * GoValue))
  : gmap gostring gostring :=
  foldl (fun m '(key, value) =>
           if bool_decide (key ∈ excludeKeys) then m
           else <[key := item_to_string value]> m) ∅ data.

Definition json_logicalNameKeys : list gostring :=
  [str "name"; str "logical_name"; str "logicalName"; str "title"; str "label"].
Definition json_descriptionKeys : list gostring :=
  [str "description"; str "desc"; str "comment"; str "note"; str "summary"].
Definition json_excludeKeys : list gostring :=
  json_logicalNameKeys ++ json_descriptionKeys
    ++ [str "tags"; str "priority"; str "deprecated"].

Definition JSONParser_convertMapToCommentData (data : list (gostring * GoValue))
  : option CommentData * option error :=
  let result := CommentData_zero in
  let result := set_LogicalName (first_string_field json_logicalNameKeys data) result in
  let result := set_Description (first_string_field json_descriptionKeys data) result in
  let result :=
    match map_index data (str "tags") with
    | Some value =>
      match JSONParser_convertToStringSlice value with
      | (Some tags, None) => set_Tags tags result
      | _ => result
      end
    | None => result
    end in
  let result :=
    match map_index data (str "priority") with
    | Some (VFloat64 num) => set_Priority (int_of_float64 num) result
    | _ => result
    end in
  let result :=
    match map_index data (str "deprecated") with
    | Some (VBool deprecated) => set_Deprecated deprecated result
    | _ => result
    end in
  let result := set_Metadata (metadata_of json_excludeKeys data) result in
  (Some result, None).

Definition JSONParser_convertToCommentData (data : GoValue)
  : option CommentData * option error :=
  match data with
  | VMap v => JSONParser_convertMapToCommentData v
  | VSlice (VMap mapData :: _) => JSONParser_convertMapToCommentData mapData
  | _ => (Some CommentData_zero, None)
  end.

Definition JSONParser_ParseComment (p : JSONParser) (comment delimiter : gostring)
  : option CommentData * option error :=
  if is_empty_string comment then (Some (CommentData_with_source comment), None)
  else
    let comment := strings.TrimSpace comment in
    if json_maxSize p <? len_bytes comment
    then (None, Some (NewCommentParseError (json_name p) comment "comment too large"
                        (Some ErrCommentTooLong)))
    else if negb (JSONParser_CanParse p comment)
    then (None, Some (NewCommentParseError (json_name p) comment "not a valid JSON format"
                        (Some ErrInvalidCommentFormat)))
    else
      match json_Unmarshal comment with
      | inl err =>
        (None, Some (NewCommentParseError (json_name p) comment "JSON unmarshal failed"
                       (Some err)))
      | inr rawData =>
        if json_maxDepth p <? getDepth rawData
        then (None, Some (NewCommentParseError (json_name p) comment
                            "JSON structure too deep" (Some ErrJSONTooDeep)))
        else
          match JSONParser_convertToCommentData rawData with
          | (_, Some err) =>
            (None, Some (NewCommentParseError (json_name p) comment
                           "failed to convert to CommentData" (Some err)))
          | (None, None) => (None, None)
          | (Some result, None) => (Some (set_Source comment result), None)
          end
      end.

(** A [*JSONParser] as a value of the interface. *)
Definition JSONParser_as_parser (p : JSONParser) : CommentParser.t :=
  {| CommentParser.ParseComment := JSONParser_ParseComment p;
     CommentParser.CanParse := JSONParser_CanParse p;
     CommentParser.Priority := json_priority p;
     CommentParser.Name := json_name p |}.

(** ** YAMLParser (yaml_parser.go) *)

Record YAMLParser := {
  yaml_name : gostring;
  yaml_priority : Z;
  yaml_maxDepth : Z;
  yaml_maxSize : Z;
}.

Definition NewYAMLParser : YAMLParser :=
  {| yaml_name := str "yaml"; yaml_priority := 15; yaml_maxDepth := 5;
     yaml_maxSize := 8192 |}.

Definition NewYAMLParserWithLimits (maxDepth maxSize : Z) : YAMLParser :=
  {| yaml_name := yaml_name NewYAMLParser; yaml_priority := yaml_priority NewYAMLParser;
     yaml_maxDepth := maxDepth; yaml_maxSize := maxSize |}.

Definition YAMLParser_SetPriority (p : YAMLParser) (priority : Z) : YAMLParser :=
  {| yaml_name := yaml_name p; yaml_priority := priority;
     yaml_maxDepth := yaml_maxDepth p; yaml_maxSize := yaml_maxSize p |}.

Definition yamlPatterns : list gostring :=
  [str "^\s*\w+\s*:\s*.+";
   str "^\s*-\s+\w+\s*:\s*.+";
   str "^\s*\w+\s*:\s*$";
   str "^\s*-\s+.*";
   str "^\s*\|\s*$";
   str "^\s*>\s*$"].

Definition looksLikeYAML (comment : gostring) : bool :=
  existsb (fun line =>
             let line := strings.TrimSpace line in
             if is_empty_string line || strings.HasPrefix line (str "#") then false
             else existsb (fun pattern => regexp_MatchString pattern line) yamlPatterns)
          (strings.Split comment [0x0A]).

Definition YAMLParser_CanParse (p : YAMLParser) (comment : gostring) : bool :=
  if is_empty_string comment then false
  else if yaml_maxSize p <? len_bytes comment then false
  else
    let comment := strings.TrimSpace comment in
    if len_bytes comment =? 0 then false
    else if looksLikeYAML comment
    then match yaml_Unmarshal comment with
         | inr _ => true
         | inl _ => false
         end
    else false.

(** [parseIntFromString]. *)
Definition parseIntFromString (s : gostring) : Z * option error :=
  let s := strings.TrimSpace s in
  if is_empty_string s then (0, Some (fmt_Errorf "empty string" [] None))
  else if strings.Contains s (str ".")
  then (0, Some (fmt_Errorf "contains decimal point" [] None))
  else
    match fmt.Sscanf_d s with
    | inl err => (0, Some err)
    | inr result => (result, None)
    end.

Definition YAMLParser_convertToStringSlice (value : GoValue)
  : option (list gostring) * option error :=
  match value with
  | VSlice v => (Some (map item_to_string v), None)
  | VStrings v => (Some v, None)
  | VString v =>
    if strings.Contains v (str ",")
    then (Some (map strings.TrimSpace (strings.Split v (str ","))), None)
    else (Some [v], None)
  | _ => (None, Some (fmt_Errorf "cannot convert %T to string slice"
                        [ArgTypeOf (type_name value)] None))
  end.

Definition yaml_logicalNameKeys : list gostring :=
  [str "name"; str "logical_name"; str "logicalName"; str "title"; str "label";
   str "display_name"].
Definition yaml_descriptionKeys : list gostring :=
  [str "description"; str "desc"; str "comment"; str "note"; str "summary";
   str "details"].
Definition yaml_excludeKeys : list gostring :=
  yaml_logicalNameKeys ++ yaml_descriptionKeys
    ++ [str "tags"; str "priority"; str "deprecated"].

(** The priority switch of [convertMapToCommentData]. *)
Definition yaml_priority_of (value : GoValue) (current : Z) : Z :=
  match value with
  | VInt v => v
  | VFloat64 v => int_of_float64 v
  | VString v =>
    match parseIntFromString v with
    | (priority, None) => priority
    | (_, Some _) => current
    end
  | _ => current
  end.

(** The deprecated switch of [convertMapToCommentData]. *)
Definition yaml_deprecated_of (value : GoValue) (current : bool) : bool :=
  match value with
  | VBool v => v
  | VString v =>
    string_eqb (strings_ToLower v) (str "true") || string_eqb v (str "1")
    || string_eqb (strings_ToLower v) (str "yes")
  | _ => current
  end.

Definition YAMLParser_convertMapToCommentData (data : list (gostring * GoValue))
  : option CommentData * option error :=
  let result := CommentData_zero in
  let result := set_LogicalName (first_string_field yaml_logicalNameKeys data) result in
  let result := set_Description (first_string_field yaml_descriptionKeys data) result in
  let result :=
    match map_index data (str "tags") with
    | Some value =>
      match YAMLParser_convertToStringSlice value with
      | (Some tags, None) => set_Tags tags result
      | _ => result
      end
    | None => result
    end in
  let result :=
    match map_index data (str "priority") with
    | Some value => set_Priority (yaml_priority_of value (Priority result)) result
    | None => result
    end in
  let result :=
    match map_index data (str "deprecated") with
    | Some value => set_Deprecated (yaml_deprecated_of value (Deprecated result)) result
    | None => result
    end in
  let result := set_Metadata (metadata_of yaml_excludeKeys data) result in
  (Some result, None).

Definition YAMLParser_convertToCommentData (data : GoValue)
  : option CommentData * option error :=
  match data with
  | VMap v => YAMLParser_convertMapToCommentData v
  | VSlice (VMap mapData :: _) => YAMLParser_convertMapToCommentData mapData
  | VString v => (Some (set_Description v CommentData_zero), None)
  | _ => (Some CommentData_zero, None)
  end.

Definition YAMLParser_ParseComment (p : YAMLParser) (comment delimiter : gostring)
  : option CommentData * option error :=
  if is_empty_string comment then (Some (CommentData_with_source comment), None)
  else
    let comment := strings.TrimSpace comment in
    if yaml_maxSize p <? len_bytes comment
    then (None, Some (NewCommentParseError (yaml_name p) comment "comment too large"
                        (Some ErrCommentTooLong)))
    else if negb (YAMLParser_CanParse p comment)
    then (None, Some (NewCommentParseError (yaml_name p) comment "not a valid YAML format"
                        (Some ErrInvalidCommentFormat)))
    else
      match yaml_Unmarshal comment with
      | inl err =>
        (None, Some (NewCommentParseError (yaml_name p) comment "YAML unmarshal failed"
                       (Some err)))
      | inr rawData =>
        if yaml_maxDepth p <? getDepth rawData
        then (None, Some (NewCommentParseError (yaml_name p) comment
                            "YAML structure too deep" (Some ErrYAMLParseError)))
        else
          match YAMLParser_convertToCommentData rawData with
          | (_, Some err) =>
            (None, Some (NewCommentParseError (yaml_name p) comment
                           "failed to convert to CommentData" (Some err)))
          | (None, None) => (None, None)
          | (Some result, None) => (Some (set_Source comment result), None)
          end
      end.

(** A [*YAMLParser] as a value of the interface. *)
Definition YAMLParser_as_parser (p : YAMLParser) : CommentParser.t :=
  {| CommentParser.ParseComment := YAMLParser_ParseComment p;
     CommentParser.CanParse := YAMLParser_CanParse p;
     CommentParser.Priority := yaml_priority p;
     CommentParser.Name := yaml_name p |}.

End WithLibrary.

(** ** The validator (comment_validator.go) *)

Record ValidationConfig := {
  MaxLogicalNameLength : Z;
  MaxDescriptionLength : Z;
  MaxTagCount : Z;
  MaxTagLength : Z;
  MaxMetadataCount : Z;
  MaxMetadataKeyLength : Z;
  MaxMetadataValueLength : Z;
  AllowedCharPattern : gostring;
  ForbiddenWords : list gostring;
  EnableHTMLEscape : bool;
  EnableSQLInjectionCheck : bool;
}.

(** A compiled [*regexp.Regexp], by its [MatchString]. *)
Definition Regexp := gostring -> bool.

Record DefaultCommentValidator := {
  config : ValidationConfig;
  allowedCharRegex : option Regexp;
  sqlInjectionRegex : option Regexp;
}.

(** The order in which one [range] statement visits the entries of a map;
    it is some arrangement of the entries. *)
Definition MapRange := gmap gostring gostring -> list (gostring * gostring).

Definition MapRange_ok (o : MapRange) : Prop :=
  forall m, o m ≡ₚ map_to_list m.

Definition DefaultValidationConfig : ValidationConfig :=
  {| MaxLogicalNameLength := 100;
     MaxDescriptionLength := 1000;
     MaxTagCount := 20;
     MaxTagLength := 50;
     MaxMetadataCount := 50;
     MaxMetadataKeyLength := 100;
     MaxMetadataValueLength := 500;
     AllowedCharPattern := str "^[\p{L}\p{N}\p{P}\p{S}\p{Zs}]+$";
     ForbiddenWords :=
       [str "DROP"; str "DELETE"; str "INSERT"; str "UPDATE"; str "EXEC"; str "SCRIPT"];
     EnableHTMLEscape := true;
     EnableSQLInjectionCheck := true |}.

Definition StrictValidationConfig : ValidationConfig :=
  {| MaxLogicalNameLength := 50;
     MaxDescriptionLength := 500;
     MaxTagCount := 10;
     MaxTagLength := 30;
     MaxMetadataCount := 20;
     MaxMetadataKeyLength := 50;
     MaxMetadataValueLength := 200;
     AllowedCharPattern :=
       str "^[\p{L}\p{N}\p{Zs}\-_.,()[\]{}:;'" ++ [0x22] ++ str "!?]+$";
     ForbiddenWords :=
       [str "DROP"; str "DELETE"; str "INSERT"; str "UPDATE"; str "EXEC"; str "SCRIPT";
        str "UNION"; str "SELECT"; str "FROM"; str "WHERE"];
     EnableHTMLEscape := true;
     EnableSQLInjectionCheck := true |}.

Definition PermissiveValidationConfig : ValidationConfig :=
  {| MaxLogicalNameLength := 200;
     MaxDescriptionLength := 2000;
     MaxTagCount := 50;
     MaxTagLength := 100;
     MaxMetadataCount := 100;
     MaxMetadataKeyLength := 200;
     MaxMetadataValueLength := 1000;
     AllowedCharPattern := [];
     ForbiddenWords := [];
     EnableHTMLEscape := false;
     EnableSQLInjectionCheck := false |}.

Definition sqlPattern : gostring :=
  str "(?i)(union\s+select|or\s+1\s*=\s*1|and\s+1\s*=\s*1|'|\-\-|\/\*|\*\/|xp_|sp_|exec|execute|drop\s+table|delete\s+from|insert\s+into|update\s+set)".

(** The class [\s] of the regular expressions: tab, newline, form feed,
    carriage return and space. *)
Definition is_re_space (r : rune) : bool :=
  (r =? 9) || (r =? 10) || (r =? 12) || (r =? 13) || (r =? 32).

(** [regexp.MustCompile(`\s+`).ReplaceAllString(text, " ")]: [inRun] holds
    inside a run of [\s] that has been replaced already. *)
Fixpoint replace_space_runs (s : gostring) (inRun : bool) : gostring :=
  match s with
  | [] => []
  | r :: rest =>
    if is_re_space r
    then (if inRun then [] else [0x20]) ++ replace_space_runs rest true
    else r :: replace_space_runs rest false
  end.

(** [if err != nil { return err }], then the rest. *)
Definition and_then (err : option error) (rest : option error) : option error :=
  match err with
  | Some e => Some e
  | None => rest
  end.

Section Validator.

Context {L : GoLibrary}.

Definition NewDefaultCommentValidatorWithConfig (cfg : ValidationConfig)
  : DefaultCommentValidator :=
  {| config := cfg;
     allowedCharRegex :=
       if negb (is_empty_string (AllowedCharPattern cfg))
       then Some (regexp_MatchString (AllowedCharPattern cfg)) else None;
     sqlInjectionRegex :=
       if EnableSQLInjectionCheck cfg
       then Some (regexp_MatchString sqlPattern) else None |}.

Definition NewDefaultCommentValidator : DefaultCommentValidator :=
  NewDefaultCommentValidatorWithConfig DefaultValidationConfig.

Variable v : DefaultCommentValidator.

Definition validateCharPattern (text : gostring) (field : Text) : option error :=
  match allowedCharRegex v with
  | None => None
  | Some re =>
    if is_empty_string text then None
    else if negb (re text)
    then Some (NewCommentValidationError field (Sprintf "%s" [ArgString text])
                 (literal "contains invalid characters") (Some ErrInvalidCharacters))
    else None
  end.

(** The word loop of [validateForbiddenWords]. *)
Fixpoint forbidden_word_loop (upperText text : gostring) (field : Text)
  (words : list gostring) : option error :=
  match words with
  | [] => None
  | word :: rest =>
    if strings.Contains upperText (strings_ToUpper word)
    then Some (NewCommentValidationError field (Sprintf "%s" [ArgString text])
                 (Sprintf "contains forbidden word: %s" [ArgString word])
                 (Some ErrInvalidCharacters))
    else forbidden_word_loop upperText text field rest
  end.

Definition validateForbiddenWords (text : gostring) (field : Text) : option error :=
  if (length (ForbiddenWords (config v)) =? 0)%nat || is_empty_string text then None
  else forbidden_word_loop (strings_ToUpper text) text field (ForbiddenWords (config v)).

Definition validateSQLInjection (text : gostring) (field : Text) : option error :=
  if negb (EnableSQLInjectionCheck (config v)) then None
  else match sqlInjectionRegex v with
       | None => None
       | Some re =>
         if is_empty_string text then None
         else if re text
         then Some (NewCommentValidationError field (Sprintf "%s" [ArgString text])
                      (literal "potentially contains SQL injection patterns")
                      (Some ErrInvalidCharacters))
         else None
       end.

Definition validateLogicalName (logicalName : gostring) : option error :=
  if is_empty_string logicalName then None
  else if MaxLogicalNameLength (config v) <? utf8.RuneCountInString logicalName
  then Some (NewCommentValidationError (literal "logical_name")
               (Sprintf "%s" [ArgString logicalName])
               (Sprintf "logical name too long (max: %d)"
                  [ArgInt (MaxLogicalNameLength (config v))])
               (Some ErrLogicalNameTooLong))
  else
    and_then (validateCharPattern logicalName (literal "logical_name"))
   (and_then (validateForbiddenWords logicalName (literal "logical_name"))
             (validateSQLInjection logicalName (literal "logical_name"))).

Definition validateDescription (description : gostring) : option error :=
  if is_empty_string description then None
  else if MaxDescriptionLength (config v) <? utf8.RuneCountInString description
  then Some (NewCommentValidationError (literal "description")
               (Sprintf "%s" [ArgString description])
               (Sprintf "description too long (max: %d)"
                  [ArgInt (MaxDescriptionLength (config v))])
               (Some ErrDescriptionTooLong))
  else
    and_then (validateCharPattern description (literal "description"))
   (and_then (validateForbiddenWords description (literal "description"))
             (validateSQLInjection description (literal "description"))).

(** The tag loop of [validateTags], from index [i] on. *)
Fixpoint validateTags_loop (i : Z) (tags : list gostring) : option error :=
  match tags with
  | [] => None
  | tag :: rest =>
    if is_empty_string tag
    then Some (NewCommentValidationError (literal "tags") (Sprintf "%s" [ArgString tag])
                 (Sprintf "empty tag at index %d" [ArgInt i]) None)
    else if MaxTagLength (config v) <? utf8.RuneCountInString tag
    then Some (NewCommentValidationError (literal "tags") (Sprintf "%s" [ArgString tag])
                 (Sprintf "tag too long at index %d (max: %d)"
                    [ArgInt i; ArgInt (MaxTagLength (config v))]) None)
    else
      let field := Sprintf "tags[%d]" [ArgInt i] in
      and_then (validateCharPattern tag field)
     (and_then (validateForbiddenWords tag field)
     (and_then (validateSQLInjection tag field)
               (validateTags_loop (i + 1) rest)))
  end.

Definition validateTags (tags : list gostring) : option error :=
  if (length tags =? 0)%nat then None
  else if MaxTagCount (config v) <? Z.of_nat (length tags)
  then Some (NewCommentValidationError (literal "tags") (Sprintf "%v" [ArgStrings tags])
               (Sprintf "too many tags (max: %d)" [ArgInt (MaxTagCount (config v))]) None)
  else validateTags_loop 0 tags.

(** The entry loop of [validateMetadata], over the entries in the order of
    the [range]. *)
Fixpoint validateMetadata_loop (entries : list (gostring * gostring)) : option error :=
  match entries with
  | [] => None
  | (key, value) :: rest =>
    if is_empty_string key
    then Some (NewCommentValidationError (literal "metadata") (Sprintf "%s" [ArgString key])
                 (literal "empty metadata key") None)
    else if MaxMetadataKeyLength (config v) <? utf8.RuneCountInString key
    then Some (NewCommentValidationError (literal "metadata") (Sprintf "%s" [ArgString key])
                 (Sprintf "metadata key too long (max: %d)"
                    [ArgInt (MaxMetadataKeyLength (config v))]) None)
    else if MaxMetadataValueLength (config v) <? utf8.RuneCountInString value
    then Some (NewCommentValidationError (literal "metadata") (Sprintf "%s" [ArgString value])
                 (Sprintf "metadata value too long for key '%s' (max: %d)"
                    [ArgString key; ArgInt (MaxMetadataValueLength (config v))]) None)
    else
      let keyField := Sprintf "metadata[%s].key" [ArgString key] in
      let valueField := Sprintf "metadata[%s].value" [ArgString key] in
      and_then (validateCharPattern key keyField)
     (and_then (validateCharPattern value valueField)
     (and_then (validateForbiddenWords key keyField)
     (and_then (validateForbiddenWords value valueField)
     (and_then (validateSQLInjection key keyField)
     (and_then (validateSQLInjection value valueField)
               (validateMetadata_loop rest))))))
  end.

Definition validateMetadata (o : MapRange) (metadata : gmap gostring gostring)
  : option error :=
  if (size metadata =? 0)%nat then None
  else if MaxMetadataCount (config v) <? Z.of_nat (size metadata)
  then Some (NewCommentValidationError (literal "metadata") (Sprintf "%v" [ArgMap metadata])
               (Sprintf "too many metadata entries (max: %d)"
                  [ArgInt (MaxMetadataCount (config v))]) None)
  else validateMetadata_loop (o metadata).

Definition Validate (o : MapRange) (data : option CommentData) : option error :=
  match data with
  | None => Some (NewCommentValidationError (literal "data") (literal "")
                    (literal "CommentData is nil") None)
  | Some data =>
    and_then (validateLogicalName (LogicalName data))
   (and_then (validateDescription (Description data))
   (and_then (validateTags (Tags data))
             (validateMetadata o (Metadata data))))
  end.

(** [removeControlChars]. *)
Definition removeControlChars (text : gostring) : gostring :=
  List.filter (fun r => unicode_IsPrint r || (r =? 9) || (r =? 10) || (r =? 13)) text.

Definition sanitizeString (text : gostring) : gostring :=
  if is_empty_string text then text
  else
    let text := strings.TrimSpace text in
    let text := removeControlChars text in
    let text := if EnableHTMLEscape (config v) then html.EscapeString text else text in
    replace_space_runs text false.

(** The tag loop of [Sanitize]. *)
Definition sanitize_tags (tags : list gostring) : list gostring :=
  List.filter (fun tag => negb (is_empty_string tag)) (map sanitizeString tags).

(** The metadata loop of [Sanitize], over the entries in the order of the
    [range]: a later entry overwrites an earlier one with the same
    sanitized key. *)
Definition sanitize_metadata (entries : list (gostring * gostring))
  : gmap gostring gostring :=
  foldl (fun sanitizedMetadata '(key, value) =>
           let sanitizedKey := sanitizeString key in
           let sanitizedValue := sanitizeString value in
           if negb (is_empty_string sanitizedKey) && negb (is_empty_string sanitizedValue)
           then <[sanitizedKey := sanitizedValue]> sanitizedMetadata
           else sanitizedMetadata) ∅ entries.

Definition Sanitize_value (o : MapRange) (data : CommentData) : CommentData :=
  let sanitized := Clone_value data in
  let sanitized := set_LogicalName (sanitizeString (LogicalName sanitized)) sanitized in
  let sanitized := set_Description (sanitizeString (Description sanitized)) sanitized in
  let sanitized :=
    if (0 <? length (Tags sanitized))%nat
    then set_Tags (sanitize_tags (Tags sanitized)) sanitized else sanitized in
  let sanitized :=
    if (0 <? size (Metadata sanitized))%nat
    then set_Metadata (sanitize_metadata (o (Metadata sanitized))) sanitized
    else sanitized in
  sanitized.

Definition Sanitize (o : MapRange) (data : option CommentData) : option CommentData :=
  match data with
  | None => None
  | Some data => Some (Sanitize_value o data)
  end.

(** [ValidateAndSanitize]; [o1] is the order of the [range] in [Sanitize],
    [o2] of the one in [Validate]. *)
Definition ValidateAndSanitize (o1 o2 : MapRange) (data : option CommentData)
  : option CommentData * option error :=
  let sanitized := Sanitize o1 data in
  match Validate o2 sanitized with
  | Some err => (None, Some err)
  | None => (sanitized, None)
  end.

End Validator.

(** ** The processor (enhanced_comment_processor.go) *)

Definition ObjectTypeTable : gostring := str "table".
Definition ObjectTypeColumn : gostring := str "column".
Definition ObjectTypeIndex : gostring := str "index".
Definition ObjectTypeView : gostring := str "view".
Definition ObjectTypeConstraint : gostring := str "constraint".
Definition ObjectTypeTrigger : gostring := str "trigger".
Definition ObjectTypeFunction : gostring := str "function".
Definition ObjectTypeEnum : gostring := str "enum".

Record ProcessingConfig := {
  EnableValidation : bool;
  EnableSanitization : bool;
  DefaultDelimiter : gostring;
  FallbackToLegacy : bool;
  StrictMode : bool;
  ProcessingTimeout : Z;
}.

Definition DefaultProcessingConfig : ProcessingConfig :=
  {| EnableValidation := true;
     EnableSanitization := true;
     DefaultDelimiter := str "|";
     FallbackToLegacy := true;
     StrictMode := false;
     ProcessingTimeout := 1000 |}.

Definition set_StrictMode (b : bool) (c : ProcessingConfig) : ProcessingConfig :=
  {| EnableValidation := EnableValidation c;
     EnableSanitization := EnableSanitization c;
     DefaultDelimiter := DefaultDelimiter c;
     FallbackToLegacy := FallbackToLegacy c;
     StrictMode := b;
     ProcessingTimeout := ProcessingTimeout c |}.

Record EnhancedCommentProcessor := {
  registry : DefaultParserRegistry;
  validator : option DefaultCommentValidator;
  pconfig : ProcessingConfig;
}.

(** The interface [EnhancedCommentConfigurator]: the values its methods
    return. *)
Record EnhancedCommentConfigurator := {
  IsEnhancedCommentEnabled : bool;
  IsEnhancedCommentJSONEnabled : bool;
  IsEnhancedCommentYAMLEnabled : bool;
  EnhancedCommentPreferredFormat : gostring;
  IsEnhancedCommentValidationEnabled : bool;
  IsEnhancedCommentSanitizationEnabled : bool;
  EnhancedCommentSecurityLevel : gostring;
  IsEnhancedCommentStrictMode : bool;
  EnhancedCommentProcessingTimeout : Z;
  IsEnhancedCommentObjectTypeEnabled : gostring -> bool;
  LogicalNameDelimiter : gostring;
}.

(** Which case of the [select] in [ProcessComment] is taken: the worker's
    result arrives, or the timer fires first. *)
Inductive SelectCase := result_received | timer_fired.

(** What one call of [ProcessCommentWithValidation] leaves to the runtime:
    the case of the [select] and the orders of the three [range] statements
    over metadata (in [ValidateAndSanitize]: [Sanitize], then [Validate];
    and the [Sanitize] after a failed validation or without validation). *)
Record Schedule := {
  select_case : SelectCase;
  range_sanitize : MapRange;
  range_validate : MapRange;
  range_sanitize_again : MapRange;
}.

Definition Schedule_ok (s : Schedule) : Prop :=
  MapRange_ok (range_sanitize s) /\ MapRange_ok (range_validate s)
  /\ MapRange_ok (range_sanitize_again s).

Section Processor.

Context {L : GoLibrary}.

Definition registerDefaultParsers (r : DefaultParserRegistry) : DefaultParserRegistry :=
  let r := RegisterParser r (Some (JSONParser_as_parser NewJSONParser)) in
  RegisterParser r (Some (LegacyParser.as_parser LegacyParser.New)).

Definition NewEnhancedCommentProcessor : EnhancedCommentProcessor :=
  {| registry := registerDefaultParsers NewDefaultParserRegistry;
     validator := Some NewDefaultCommentValidator;
     pconfig := DefaultProcessingConfig |}.

Definition NewEnhancedCommentProcessorWithConfig (cfg : ProcessingConfig)
  : EnhancedCommentProcessor :=
  {| registry := registerDefaultParsers NewDefaultParserRegistry;
     validator := Some NewDefaultCommentValidator;
     pconfig := cfg |}.

Definition register_json (enabled : bool) (priority : Z) (r : DefaultParserRegistry)
  : DefaultParserRegistry :=
  if enabled
  then RegisterParser r (Some (JSONParser_as_parser (JSONParser_SetPriority NewJSONParser priority)))
  else r.

Definition register_yaml (enabled : bool) (priority : Z) (r : DefaultParserRegistry)
  : DefaultParserRegistry :=
  if enabled
  then RegisterParser r (Some (YAMLParser_as_parser (YAMLParser_SetPriority NewYAMLParser priority)))
  else r.

Definition register_legacy (priority : Z) (r : DefaultParserRegistry)
  : DefaultParserRegistry :=
  RegisterParser r (Some (LegacyParser.as_parser
                            (LegacyParser.SetPriority LegacyParser.New priority))).

Definition registerParsersFromConfig (r : DefaultParserRegistry)
  (cfg : EnhancedCommentConfigurator) : DefaultParserRegistry :=
  let preferredFormat := EnhancedCommentPreferredFormat cfg in
  if string_eqb preferredFormat (str "json") then
    let r := register_json (IsEnhancedCommentJSONEnabled cfg) 5 r in
    let r := register_yaml (IsEnhancedCommentYAMLEnabled cfg) 15 r in
    register_legacy 20 r
  else if string_eqb preferredFormat (str "yaml") then
    let r := register_yaml (IsEnhancedCommentYAMLEnabled cfg) 5 r in
    let r := register_json (IsEnhancedCommentJSONEnabled cfg) 10 r in
    register_legacy 20 r
  else if string_eqb preferredFormat (str "legacy") then
    register_legacy 5 r
  else
    let r := register_json (IsEnhancedCommentJSONEnabled cfg) 10 r in
    let r := register_yaml (IsEnhancedCommentYAMLEnabled cfg) 15 r in
    register_legacy 20 r.

Definition set_html_sql (html sql : bool) (c : ValidationConfig) : ValidationConfig :=
  {| MaxLogicalNameLength := MaxLogicalNameLength c;
     MaxDescriptionLength := MaxDescriptionLength c;
     MaxTagCount := MaxTagCount c;
     MaxTagLength := MaxTagLength c;
     MaxMetadataCount := MaxMetadataCount c;
     MaxMetadataKeyLength := MaxMetadataKeyLength c;
     MaxMetadataValueLength := MaxMetadataValueLength c;
     AllowedCharPattern := AllowedCharPattern c;
     ForbiddenWords := ForbiddenWords c;
     EnableHTMLEscape := html;
     EnableSQLInjectionCheck := sql |}.

Definition createValidatorFromConfig (cfg : EnhancedCommentConfigurator)
  : DefaultCommentValidator :=
  if negb (IsEnhancedCommentValidationEnabled cfg) then NewDefaultCommentValidator
  else
    let validationConfig :=
      if string_eqb (EnhancedCommentSecurityLevel cfg) (str "strict")
      then StrictValidationConfig
      else if string_eqb (EnhancedCommentSecurityLevel cfg) (str "permissive")
      then PermissiveValidationConfig
      else DefaultValidationConfig in
    NewDefaultCommentValidatorWithConfig
      (set_html_sql (IsEnhancedCommentSanitizationEnabled cfg)
                    (IsEnhancedCommentValidationEnabled cfg) validationConfig).

Definition NewEnhancedCommentProcessorFromConfig (cfg : EnhancedCommentConfigurator)
  : EnhancedCommentProcessor :=
  if negb (IsEnhancedCommentEnabled cfg) then NewEnhancedCommentProcessor
  else
    {| registry := registerParsersFromConfig NewDefaultParserRegistry cfg;
       validator := Some (createValidatorFromConfig cfg);
       pconfig :=
         {| EnableValidation := IsEnhancedCommentValidationEnabled cfg;
            EnableSanitization := IsEnhancedCommentSanitizationEnabled cfg;
            DefaultDelimiter := LogicalNameDelimiter cfg;
            FallbackToLegacy := true;
            StrictMode := IsEnhancedCommentStrictMode cfg;
            ProcessingTimeout := EnhancedCommentProcessingTimeout cfg |} |}.

Variable p : EnhancedCommentProcessor.

(** [processCommentInternal].  [ParseWithFallback] returns a record or an
    error, never neither (lemma [ParseWithFallback_total]); the last case
    stands for the nil dereference the code would run into. *)
Definition processCommentInternal (comment delimiter objectType : gostring)
  : option CommentData * option error :=
  match ParseWithFallback (registry p) comment delimiter with
  | (_, Some err) =>
    if StrictMode (pconfig p)
    then (None, Some (fmt_Errorf "failed to parse comment: %w" [] (Some err)))
    else (Some (CommentData_with_source comment), None)
  | (Some result, None) =>
    (Some (set_Metadata (<[str "object_type" := objectType]> (Metadata result)) result), None)
  | (None, None) => (None, None)
  end.

(** [ProcessComment]: the worker runs [processCommentInternal]; the
    [select] takes its result or the timer. *)
Definition ProcessComment (sel : SelectCase) (comment delimiter objectType : gostring)
  : option CommentData * option error :=
  if is_empty_string comment then (Some (CommentData_with_source comment), None)
  else
    let delimiter :=
      if is_empty_string delimiter then DefaultDelimiter (pconfig p) else delimiter in
    match sel with
    | result_received => processCommentInternal comment delimiter objectType
    | timer_fired =>
      (None, Some (fmt_Errorf "comment processing timeout after %d ms"
                     [ArgInt (ProcessingTimeout (pconfig p))] None))
    end.

Definition ProcessCommentWithValidation (s : Schedule)
  (comment delimiter objectType : gostring) : option CommentData * option error :=
  match ProcessComment (select_case s) comment delimiter objectType with
  | (_, Some err) => (None, Some err)
  | (result, None) =>
    match validator p with
    | Some v =>
      if EnableValidation (pconfig p) then
        if EnableSanitization (pconfig p) then
          match ValidateAndSanitize v (range_sanitize s) (range_validate s) result with
          | (_, Some err) =>
            if StrictMode (pconfig p)
            then (None, Some (fmt_Errorf "validation failed: %w" [] (Some err)))
            else (Sanitize v (range_sanitize_again s) result, None)
          | (validated, None) => (validated, None)
          end
        else
          match Validate v (range_validate s) result with
          | Some err =>
            if StrictMode (pconfig p)
            then (None, Some (fmt_Errorf "validation failed: %w" [] (Some err)))
            else (result, None)
          | None => (result, None)
          end
      else if EnableSanitization (pconfig p)
      then (Sanitize v (range_sanitize_again s) result, None)
      else (result, None)
    | None => (result, None)
    end
  end.

End Processor.

(** ** A sample library

    A small stand-in for the Go libraries, to run examples on.  It is exact
    where the examples below use it: on Latin-1 and Japanese text (the
    ranges of [sample_PrintRanges] are CJK punctuation, kana, the unified
    ideographs and the full-width forms, all of them letters, marks,
    numbers, punctuation or symbols), on the JSON texts of an empty object
    and an empty array, and on the [%v] form of strings, booleans, integers
    and nil.  No example evaluates its regular expressions or its YAML
    decoder.  The general results hold for every [GoLibrary]. *)

Definition sample_PrintRanges (r : rune) : bool :=
  (0x3001 <=? r) && (r <=? 0x303F)
  || (0x3041 <=? r) && (r <=? 0x3096)
  || (0x3099 <=? r) && (r <=? 0x309F)
  || (0x30A0 <=? r) && (r <=? 0x30FF)
  || (0x4E00 <=? r) && (r <=? 0x9FFF)
  || (0xFF01 <=? r) && (r <=? 0xFF5E).

Definition sample_json_Unmarshal (s : gostring) : error + GoValue :=
  if string_eqb s (str "{}") then inr (VMap [])
  else if string_eqb s (str "[]") then inr (VSlice [])
  else inl (library_error "json" (str "outside the sample")).

Definition sample_yaml_Unmarshal (s : gostring) : error + GoValue :=
  inl (library_error "yaml" (str "outside the sample")).

Fixpoint decimal_digits (fuel : nat) (n : Z) (acc : gostring) : gostring :=
  match fuel with
  | O => acc
  | S fuel' =>
    if n <? 10 then (0x30 + n) :: acc
    else decimal_digits fuel' (n / 10) ((0x30 + n mod 10) :: acc)
  end.

Definition sample_fmt_Sprint (value : GoValue) : gostring :=
  match value with
  | VNil => str "<nil>"
  | VBool true => str "true"
  | VBool false => str "false"
  | VInt n =>
    if n <? 0 then 0x2D :: decimal_digits 20 (- n) [] else decimal_digits 20 n []
  | VString s => s
  | _ => str (type_name value)
  end.

#[export] Instance sample_library : GoLibrary :=
  {| unicode_PrintRanges := sample_PrintRanges;
     unicode_To_UpperCase := fun r => r;
     unicode_To_LowerCase := fun r => r;
     regexp_MatchString := fun _ _ => false;
     json_Unmarshal := sample_json_Unmarshal;
     yaml_Unmarshal := sample_yaml_Unmarshal;
     fmt_Sprint := sample_fmt_Sprint |}.

(** ** Vocabulary of the properties *)

(** The fields that the tests of the parsers compare. *)
Definition legacy_fields (comment delimiter : gostring) : option (gostring * gostring) :=
  match LegacyParser.ParseComment LegacyParser.New comment delimiter with
  | (Some d, None) => Some (LogicalName d, Description d)
  | _ => None
  end.

Definition converted_fields (result : option CommentData * option error)
  : option (gostring * list gostring * Z * bool) :=
  match result with
  | (Some d, None) => Some (LogicalName d, Tags d, Priority d, Deprecated d)
  | _ => None
  end.

(** The first occurrence of every element, in order. *)
Fixpoint first_occurrences (l : list gostring) : list gostring :=
  match l with
  | [] => []
  | x :: l' => x :: List.filter (fun y => negb (string_eqb y x)) (first_occurrences l')
  end.

(** The tags of [b] that are not among those of [a]. *)
Definition tags_not_in (a b : list gostring) : list gostring :=
  List.filter (fun t => negb (bool_decide (t ∈ a))) b.

(** The rule the specification gives for every scalar field of a merge:
    the value of [a] unless it is empty or zero, and then the value of [b]. *)
Definition scalar_fallback_rule (a b m : CommentData) : Prop :=
  LogicalName m = (if is_empty_string (LogicalName a) then LogicalName b else LogicalName a)
  /\ Description m = (if is_empty_string (Description a) then Description b else Description a)
  /\ Priority m = (if Priority a =? 0 then Priority b else Priority a)
  /\ Deprecated m = (if Deprecated a then true else Deprecated b).

Definition merge_sample_a : CommentData := CommentData_zero.
Definition merge_sample_b : CommentData :=
  set_Deprecated true (set_Priority 5 CommentData_zero).

(** The registries that [RegisterParser] builds from the empty one. *)
Inductive registered : DefaultParserRegistry -> Prop :=
| registered_new : registered NewDefaultParserRegistry
| registered_add r parser : registered r -> registered (RegisterParser r parser).

Definition priority_le (p q : CommentParser.t) : Prop :=
  CommentParser.Priority p <= CommentParser.Priority q.

(** The parsers whose [CanParse] accepts the comment, in registry order:
    the ones [ParseWithFallback] may call. *)
Definition attempted (r : DefaultParserRegistry) (comment : gostring)
  : list CommentParser.t :=
  List.filter (fun p => CommentParser.CanParse p comment) (parsers r).

(** A parser call that makes [ParseWithFallback] return: no error and a
    record. *)
Definition succeeds (comment delimiter : gostring) (p : CommentParser.t) : Prop :=
  exists d, CommentParser.ParseComment p comment delimiter = (Some d, None).

Definition errored (comment delimiter : gostring) (p : CommentParser.t) : Prop :=
  is_Some (snd (CommentParser.ParseComment p comment delimiter)).

(** The way [ParseWithFallback] reports the final [lastError]. *)
Definition report_failure (comment : gostring) (lastError : option error) : error :=
  match lastError with
  | Some e => fmt_Errorf "all parsers failed to parse comment: %w" [] (Some e)
  | None => NewCommentParseError (str "registry") comment "no suitable parser found"
              (Some ErrUnsupportedFormat)
  end.

(** The value of [lastError] after calling every parser of [l]. *)
Definition last_error (comment delimiter : gostring) (l : list CommentParser.t)
  (lastError : option error) : option error :=
  fold_left (fun _ p => snd (CommentParser.ParseComment p comment delimiter)) l lastError.

(** A registry to try the contract on: a parser that accepts every text and
    fails, one that accepts none, and the legacy parser. *)
Definition failing_parser : CommentParser.t :=
  {| CommentParser.ParseComment := fun _ _ => (None, Some ErrInvalidCommentFormat);
     CommentParser.CanParse := fun _ => true;
     CommentParser.Priority := 10;
     CommentParser.Name := str "failing" |}.

Definition rejecting_parser : CommentParser.t :=
  {| CommentParser.ParseComment := fun _ _ => (None, Some ErrInvalidCommentFormat);
     CommentParser.CanParse := fun _ => false;
     CommentParser.Priority := 15;
     CommentParser.Name := str "rejecting" |}.

Definition sample_registry : DefaultParserRegistry :=
  RegisterParser
    (RegisterParser
       (RegisterParser NewDefaultParserRegistry
          (Some (LegacyParser.as_parser LegacyParser.New)))
       (Some rejecting_parser))
    (Some failing_parser).

Definition legacy_registered (r : DefaultParserRegistry) : Prop :=
  exists lp, LegacyParser.as_parser lp ∈ parsers r.

(** The default processor in strict mode, on a text that looks like JSON
    and is not: the legacy parser takes it. *)
Definition strict_default_processor : EnhancedCommentProcessor :=
  NewEnhancedCommentProcessorWithConfig (L := sample_library)
    (set_StrictMode true DefaultProcessingConfig).

Definition sample_configurator (preferred : gostring) (json yaml : bool)
  : EnhancedCommentConfigurator :=
  {| IsEnhancedCommentEnabled := true;
     IsEnhancedCommentJSONEnabled := json;
     IsEnhancedCommentYAMLEnabled := yaml;
     EnhancedCommentPreferredFormat := preferred;
     IsEnhancedCommentValidationEnabled := true;
     IsEnhancedCommentSanitizationEnabled := true;
     EnhancedCommentSecurityLevel := str "default";
     IsEnhancedCommentStrictMode := false;
     EnhancedCommentProcessingTimeout := 1000;
     IsEnhancedCommentObjectTypeEnabled := fun _ => true;
     LogicalNameDelimiter := str "|" |}.

(** 1.5, -2.75 and 5.0 as [float64] values: mantissa times a power of two. *)
Definition float64_1_5 : spec_float := S754_finite false 6755399441055744 (-52).
Definition float64_minus_2_75 : spec_float := S754_finite true 6192449487634432 (-51).
Definition float64_5_0 : spec_float := S754_finite false 5629499534213120 (-50).

Inductive ParserVariant :=
| VariantJSON (p : JSONParser)
| VariantYAML (p : YAMLParser)
| VariantLegacy (p : LegacyParser.t).

Definition head_not_space (s : gostring) : Prop :=
  match s with
  | r :: _ => unicode.IsSpace r = false
  | [] => True
  end.

Definition last_not_space (s : gostring) : Prop :=
  forall r, last s = Some r -> unicode.IsSpace r = false.

Definition html_special (r : rune) : bool :=
  (r =? 0x26) || (r =? 0x27) || (r =? 0x3C) || (r =? 0x3E) || (r =? 0x22).

(** The entries in the order of [map_to_list]: one possible [range]. *)
Definition canonical_range : MapRange := fun m => map_to_list m.

Definition html_sample : CommentData := set_LogicalName (str "a&b") CommentData_zero.

Definition clean_sample : CommentData :=
  {| LogicalName := str "  User   name ";
     Description := str "line one
line two";
     Tags := [str "a  b"; str "   "; str "c"];
     Metadata := {[ str " owner " := str "team  A" ]};
     Priority := 2;
     Deprecated := false;
     Source := str "raw" |}.

Definition object_type_key : gostring := str "object_type".

(** The delimiter that [ProcessComment] passes on. *)
Definition effective_delimiter (p : EnhancedCommentProcessor) (delimiter : gostring)
  : gostring :=
  if is_empty_string delimiter then DefaultDelimiter (pconfig p) else delimiter.

(** A schedule in which the worker answers before the timer and the maps
    are visited in the order of [map_to_list]. *)
Definition prompt_schedule : Schedule :=
  {| select_case := result_received;
     range_sanitize := canonical_range;
     range_validate := canonical_range;
     range_sanitize_again := canonical_range |}.

(** The default processor with a validator of the permissive profile. *)
Definition permissive_processor : EnhancedCommentProcessor :=
  {| registry := registry (NewEnhancedCommentProcessor (L := sample_library));
     validator := Some (NewDefaultCommentValidatorWithConfig (L := sample_library)
                          PermissiveValidationConfig);
     pconfig := DefaultProcessingConfig |}.

(** A lenient processor whose only parser fails on every text. *)
Definition failing_processor : EnhancedCommentProcessor :=
  {| registry := RegisterParser NewDefaultParserRegistry (Some failing_parser);
     validator := Some (NewDefaultCommentValidatorWithConfig (L := sample_library)
                          PermissiveValidationConfig);
     pconfig := DefaultProcessingConfig |}.

(** The same processor with [StrictMode] set to [b]. *)
Definition with_StrictMode (b : bool) (p : EnhancedCommentProcessor)
  : EnhancedCommentProcessor :=
  {| registry := registry p;
     validator := validator p;
     pconfig := set_StrictMode b (pconfig p) |}.

(** The record that [processCommentInternal] returns for a parsed record:
    the record before validation. *)
Definition annotated (parsed : CommentData) (objectType : gostring) : CommentData :=
  set_Metadata (<[str "object_type" := objectType]> (Metadata parsed)) parsed.

Definition is_parse_failure (e : error) : Prop :=
  exists cause, e = fmt_Errorf "failed to parse comment: %w" [] (Some cause).

Definition is_validation_failure (e : error) : Prop :=
  exists cause, e = fmt_Errorf "validation failed: %w" [] (Some cause).

(** A logical name of 101 letters: one more than the default profile
    allows. *)
Definition long_name : gostring := List.repeat 0x61 101.

Section Vocabulary.

Context {L : GoLibrary}.

Definition json_at (priority : Z) : CommentParser.t :=
  JSONParser_as_parser (JSONParser_SetPriority NewJSONParser priority).
Definition yaml_at (priority : Z) : CommentParser.t :=
  YAMLParser_as_parser (YAMLParser_SetPriority NewYAMLParser priority).
Definition legacy_at (priority : Z) : CommentParser.t :=
  LegacyParser.as_parser (LegacyParser.SetPriority LegacyParser.New priority).

Definition when (enabled : bool) (parser : CommentParser.t) : list CommentParser.t :=
  if enabled then [parser] else [].

Definition variant_parser (v : ParserVariant) : CommentParser.t :=
  match v with
  | VariantJSON p => JSONParser_as_parser p
  | VariantYAML p => YAMLParser_as_parser p
  | VariantLegacy p => LegacyParser.as_parser p
  end.

(** What each parser stores in [Source]: the structured parsers overwrite
    their [comment] parameter with the trimmed text before they use it. *)
Definition stored_source (v : ParserVariant) (text : gostring) : gostring :=
  match v with
  | VariantLegacy _ => text
  | _ => strings.TrimSpace text
  end.

Variable v : DefaultCommentValidator.

(** A rune that [removeControlChars] keeps, or white space. *)
Definition clean_rune (r : rune) : Prop :=
  unicode_IsPrint r = true \/ unicode.IsSpace r = true.

(** Text without control characters and, when HTML escaping is on, without
    the five characters that it escapes. *)
Definition clean_string (s : gostring) : Prop :=
  Forall clean_rune s
  /\ (EnableHTMLEscape (config v) = true -> Forall (fun r => html_special r = false) s).

(** What [sanitizeString] returns on clean text. *)
Definition sanitized_string (s : gostring) : Prop :=
  head_not_space s /\ last_not_space s
  /\ Forall (fun r => unicode_IsPrint r = true) s
  /\ (EnableHTMLEscape (config v) = true -> Forall (fun r => html_special r = false) s)
  /\ replace_space_runs s false = s.

(** A record whose strings are all clean. *)
Definition clean_record (r : CommentData) : Prop :=
  clean_string (LogicalName r)
  /\ clean_string (Description r)
  /\ Forall (clean_string) (Tags r)
  /\ (forall k x, Metadata r !! k = Some x -> clean_string k /\ clean_string x).

(** One step of the metadata loop of [Sanitize]. *)
Definition sanitize_entry (m : gmap gostring gostring) (entry : gostring * gostring)
  : gmap gostring gostring :=
  let '(key, value) := entry in
  if negb (is_empty_string (sanitizeString v key))
     && negb (is_empty_string (sanitizeString v value))
  then <[sanitizeString v key := sanitizeString v value]> m
  else m.

End Vocabulary.

(** * More of the package

    The functions of the same files that the properties of the
    specification do not reach, and the driver configuration. *)

(** ** More of the registry (comment_parser.go) *)

(** [GetParser]: the first registered parser of that name, or nil. *)
Definition GetParser (r : DefaultParserRegistry) (name : gostring)
  : option CommentParser.t :=
  List.find (fun parser => string_eqb (CommentParser.Name parser) name) (parsers r).

(** ** More of CommentData (comment_data.go) *)

Definition GetLogicalNameOrFallback (cd : option CommentData) (fallback : gostring)
  : gostring :=
  match cd with
  | Some cd => if negb (is_empty_string (LogicalName cd)) then LogicalName cd else fallback
  | None => fallback
  end.

Definition GetDescriptionOrFallback (cd : option CommentData) (fallback : gostring)
  : gostring :=
  match cd with
  | Some cd => if negb (is_empty_string (Description cd)) then Description cd else fallback
  | None => fallback
  end.

Definition HasTag (cd : option CommentData) (tag : gostring) : bool :=
  match cd with
  | None => false
  | Some cd =>
    if (length (Tags cd) =? 0)%nat then false
    else existsb (fun t => string_eqb t tag) (Tags cd)
  end.

(** [GetMetadata]: the value and the [exists] flag. *)
Definition GetMetadata (cd : option CommentData) (key : gostring) : gostring * bool :=
  match cd with
  | None => ([], false)
  | Some cd =>
    match Metadata cd !! key with
    | Some value => (value, true)
    | None => ([], false)
    end
  end.

(** [SetMetadata] writes through the pointer: the record after the call. *)
Definition SetMetadata (cd : option CommentData) (key value : gostring)
  : option CommentData :=
  match cd with
  | None => None
  | Some cd => Some (set_Metadata (<[key := value]> (Metadata cd)) cd)
  end.

(** ** The helpers of legacy_parser.go *)

Module SplitCommentParts.

(** The two fields of [SplitCommentParts] that [LegacyCommentSplitter]
    fills. *)
Record t := Build { LogicalName : gostring; Comment : gostring }.

End SplitCommentParts.

Definition LegacyCommentSplitter (comment delimiter : gostring) : SplitCommentParts.t :=
  match LegacyParser.ParseComment LegacyParser.New comment delimiter with
  | (Some data, None) =>
    {| SplitCommentParts.LogicalName := LogicalName data;
       SplitCommentParts.Comment := Description data |}
  | _ => {| SplitCommentParts.LogicalName := []; SplitCommentParts.Comment := [] |}
  end.

Definition EnhancedSplitComment (comment delimiter : gostring) : option CommentData :=
  match LegacyParser.ParseComment LegacyParser.New comment delimiter with
  | (_, Some _) => Some (CommentData_with_source comment)
  | (data, None) => data
  end.

Definition ExtractLogicalNameEnhanced (comment delimiter physicalName : gostring)
  (fallbackToName : bool) : gostring :=
  match EnhancedSplitComment comment delimiter with
  | Some data =>
    if negb (is_empty_string (LogicalName data)) then LogicalName data
    else if fallbackToName then physicalName else []
  | None => if fallbackToName then physicalName else []
  end.

Definition ExtractCleanCommentEnhanced (comment delimiter : gostring) : gostring :=
  match EnhancedSplitComment comment delimiter with
  | Some data => if negb (is_empty_string (Description data)) then Description data else []
  | None => []
  end.

(** Text whose white space is single U+0020 characters: every white-space
    rune is a space and none follows another; [prevIsSpace] tells whether
    the rune before the text is white space. *)
Fixpoint single_spaced (s : gostring) (prevIsSpace : bool) : bool :=
  match s with
  | [] => true
  | r :: rest =>
    if unicode.IsSpace r
    then (r =? 0x20) && negb prevIsSpace && single_spaced rest true
    else single_spaced rest false
  end.

(** The runes that are not white space, in order. *)
Definition non_space (s : gostring) : gostring :=
  List.filter (fun r => negb (unicode.IsSpace r)) s.



(** The entries of a mapping whose value is not a non-empty string at one
    of the keys: the keys that the name and description loops pass over. *)
Definition no_text_at (data : list (gostring * GoValue)) (key : gostring) : Prop :=
  forall s, map_index data key = Some (VString s) -> s = [].

(** ** More of the processor (enhanced_comment_processor.go) *)

(** [IsValidationError]: a type assertion of [err] to a pointer to
    [CommentValidationError]; it looks at the error itself and not at what
    it wraps. *)
Definition IsValidationError (err : option error) : bool :=
  match err with
  | Some (CommentValidationError _ _ _ _) => true
  | _ => false
  end.

Module CommentInput.

Record t := Build {
  Comment : gostring;
  Delimiter : gostring;
  ObjectType : gostring;
}.

End CommentInput.

Record ProcessingStats := {
  TotalProcessed : Z;
  SuccessCount : Z;
  ErrorCount : Z;
  ValidationErrors : Z;
  ParsingErrors : Z;
  ProcessingTime : Z;
}.

(** The statistics after one more result of the loop of
    [ProcessCommentsWithStats]. *)
Definition count_result (stats : ProcessingStats) (err : option error) : ProcessingStats :=
  match err with
  | Some _ =>
    if IsValidationError err
    then {| TotalProcessed := TotalProcessed stats;
            SuccessCount := SuccessCount stats;
            ErrorCount := ErrorCount stats + 1;
            ValidationErrors := ValidationErrors stats + 1;
            ParsingErrors := ParsingErrors stats;
            ProcessingTime := ProcessingTime stats |}
    else {| TotalProcessed := TotalProcessed stats;
            SuccessCount := SuccessCount stats;
            ErrorCount := ErrorCount stats + 1;
            ValidationErrors := ValidationErrors stats;
            ParsingErrors := ParsingErrors stats + 1;
            ProcessingTime := ProcessingTime stats |}
  | None =>
    {| TotalProcessed := TotalProcessed stats;
       SuccessCount := SuccessCount stats + 1;
       ErrorCount := ErrorCount stats;
       ValidationErrors := ValidationErrors stats;
       ParsingErrors := ParsingErrors stats;
       ProcessingTime := ProcessingTime stats |}
  end.

Section ProcessorMethods.

Context {L : GoLibrary}.


(** The loop of [ProcessMultipleComments] and [ProcessCommentsWithStats]
    from index [i] on: the result and the error of every call.  [schedules]
    gives what the runtime decides in the call for each index. *)
Fixpoint process_each (p : EnhancedCommentProcessor) (schedules : nat -> Schedule)
  (i : nat) (comments : list CommentInput.t)
  : list (option CommentData * option error) :=
  match comments with
  | [] => []
  | input :: rest =>
    ProcessCommentWithValidation p (schedules i) (CommentInput.Comment input)
      (CommentInput.Delimiter input) (CommentInput.ObjectType input)
      :: process_each p schedules (S i) rest
  end.

Definition ProcessMultipleComments (p : EnhancedCommentProcessor)
  (schedules : nat -> Schedule) (comments : list CommentInput.t)
  : list (option CommentData) * list (option error) :=
  let outcomes := process_each p schedules O comments in
  (map fst outcomes, map snd outcomes).

(** [ProcessCommentsWithStats]; [elapsed] is what [time.Since(startTime)]
    returns at the end. *)
Definition ProcessCommentsWithStats (p : EnhancedCommentProcessor)
  (schedules : nat -> Schedule) (elapsed : Z) (comments : list CommentInput.t)
  : list (option CommentData) * ProcessingStats :=
  let outcomes := process_each p schedules O comments in
  let stats :=
    foldl count_result
      {| TotalProcessed := Z.of_nat (length comments);
         SuccessCount := 0; ErrorCount := 0; ValidationErrors := 0;
         ParsingErrors := 0; ProcessingTime := 0 |}
      (map snd outcomes) in
  (map fst outcomes,
   {| TotalProcessed := TotalProcessed stats;
      SuccessCount := SuccessCount stats;
      ErrorCount := ErrorCount stats;
      ValidationErrors := ValidationErrors stats;
      ParsingErrors := ParsingErrors stats;
      ProcessingTime := elapsed |}).

(** [ProcessCommentForObject].  [ProcessCommentWithValidation] returns a
    record or an error; with neither, the code would dereference nil, which
    the last case stands for. *)
Definition ProcessCommentForObject (p : EnhancedCommentProcessor) (s : Schedule)
  (comment delimiter objectType objectName : gostring)
  : option CommentData * option error :=
  match ProcessCommentWithValidation p s comment delimiter objectType with
  | (_, Some err) => (None, Some err)
  | (Some result, None) =>
    (Some (set_Metadata (<[str "object_name" := objectName]> (Metadata result)) result),
     None)
  | (None, None) => (None, None)
  end.

Definition ProcessTableComment (p : EnhancedCommentProcessor) (s : Schedule)
  (comment delimiter tableName : gostring) : option CommentData * option error :=
  ProcessCommentForObject p s comment delimiter ObjectTypeTable tableName.



End ProcessorMethods.

(** ** Vocabulary of the further properties *)

(** The three text checks of the validator accept the text, whatever the
    field named in the error message. *)
Definition text_accepted `{L : GoLibrary} (v : DefaultCommentValidator) (text : gostring)
  : Prop :=
  forall field,
    validateCharPattern v text field = None
    /\ validateForbiddenWords v text field = None
    /\ validateSQLInjection v text field = None.

(** The entries in the reverse of the order of [map_to_list]: another
    possible [range]. *)
Definition reverse_range : MapRange := fun m => reverse (map_to_list m).

(** The characters that [html.EscapeString] never leaves behind. *)
Definition html_markup (r : rune) : bool :=
  (r =? 0x27) || (r =? 0x3C) || (r =? 0x3E) || (r =? 0x22).

(** An error of the validator: a [CommentValidationError] whose cause is
    nil or one of three sentinels. *)
Definition validator_error (e : error) : Prop :=
  IsValidationError (Some e) = true
  /\ Unwrap e ∈ [None; Some ErrLogicalNameTooLong; Some ErrDescriptionTooLong;
                 Some ErrInvalidCharacters].

(** A validator of the permissive profile, and a record with a logical
    name that is too long for the default profile. *)
Definition permissive_validator : DefaultCommentValidator :=
  NewDefaultCommentValidatorWithConfig (L := sample_library) PermissiveValidationConfig.

Definition long_name_record : CommentData := set_LogicalName long_name CommentData_zero.

(** The three errors that the processor itself makes. *)
Definition is_timeout (e : error) : Prop :=
  exists ms, e = fmt_Errorf "comment processing timeout after %d ms" [ArgInt ms] None.

Definition processor_error (e : error) : Prop :=
  is_timeout e \/ is_parse_failure e \/ is_validation_failure e.

(** A schedule in which the timer fires before the worker answers. *)
Definition late_schedule : Schedule :=
  {| select_case := timer_fired;
     range_sanitize := canonical_range;
     range_validate := canonical_range;
     range_sanitize_again := canonical_range |}.

(** The number of nil entries of a result slice. *)
Definition count_nil (results : list (option CommentData)) : Z :=
  Z.of_nat (length (List.filter (fun r => bool_decide (r = None)) results)).

(** No occurrence of the delimiter starts inside [a] when [a] is followed
    by [rest]. *)
Definition delimiter_free (a rest delimiter : gostring) : Prop :=
  forall pre x, a = pre ++ x -> x <> [] -> strings.HasPrefix (x ++ rest) delimiter = false.

(** [text] put in front of the first part. *)
Definition prepend_first (text : gostring) (parts : list gostring) : list gostring :=
  match parts with
  | [] => []
  | first :: others => (text ++ first) :: others
  end.

(** ** Driver configuration (enhanced_comment_driver_adapter.go,
    enhanced_comment_driver_examples.go) *)

(** The adapter keeps the pointer it was given: its processor and its own
    [config] field are the same [*ProcessingConfig]. *)
Module EnhancedCommentDriverAdapter.
Record t := {
  processor : EnhancedCommentProcessor;
  config : ProcessingConfig;
}.
End EnhancedCommentDriverAdapter.

(** [ProcessingConfig] is a pointer: [None] is nil. *)
Module DriverEnhancedCommentConfiguration.
Record t := {
  DriverName : gostring;
  EnableEnhancedComments : bool;
  ProcessingConfig : option ProcessingConfig;
  CompatibilityMode : bool;
  CustomDelimiter : gostring;
  ErrorHandling : gostring;
}.
End DriverEnhancedCommentConfiguration.

Definition set_EnableValidation (b : bool) (c : ProcessingConfig) : ProcessingConfig :=
  {| EnableValidation := b;
     EnableSanitization := EnableSanitization c;
     DefaultDelimiter := DefaultDelimiter c;
     FallbackToLegacy := FallbackToLegacy c;
     StrictMode := StrictMode c;
     ProcessingTimeout := ProcessingTimeout c |}.

Definition set_EnableSanitization (b : bool) (c : ProcessingConfig) : ProcessingConfig :=
  {| EnableValidation := EnableValidation c;
     EnableSanitization := b;
     DefaultDelimiter := DefaultDelimiter c;
     FallbackToLegacy := FallbackToLegacy c;
     StrictMode := StrictMode c;
     ProcessingTimeout := ProcessingTimeout c |}.

Definition set_DefaultDelimiter (d : gostring) (c : ProcessingConfig) : ProcessingConfig :=
  {| EnableValidation := EnableValidation c;
     EnableSanitization := EnableSanitization c;
     DefaultDelimiter := d;
     FallbackToLegacy := FallbackToLegacy c;
     StrictMode := StrictMode c;
     ProcessingTimeout := ProcessingTimeout c |}.

(** The composite literals of [NewDriverConfiguration] name no
    [ProcessingTimeout]: the field has Go's zero value. *)
Definition NewDriverConfiguration (driverName : gostring)
  : DriverEnhancedCommentConfiguration.t :=
  let processing :=
    if string_eqb driverName (str "sqlite") then
      {| EnableValidation := true;
         EnableSanitization := true;
         DefaultDelimiter := str "|";
         FallbackToLegacy := true;
         StrictMode := false;
         ProcessingTimeout := 0 |}
    else if string_eqb driverName (str "postgres") then
      {| EnableValidation := true;
         EnableSanitization := false;
         DefaultDelimiter := str "|";
         FallbackToLegacy := true;
         StrictMode := false;
         ProcessingTimeout := 0 |}
    else if string_eqb driverName (str "mysql") then
      {| EnableValidation := true;
         EnableSanitization := true;
         DefaultDelimiter := str "|";
         FallbackToLegacy := true;
         StrictMode := false;
         ProcessingTimeout := 0 |}
    else
      {| EnableValidation := true;
         EnableSanitization := false;
         DefaultDelimiter := str "|";
         FallbackToLegacy := true;
         StrictMode := false;
         ProcessingTimeout := 0 |} in
  {| DriverEnhancedCommentConfiguration.DriverName := driverName;
     DriverEnhancedCommentConfiguration.EnableEnhancedComments := true;
     DriverEnhancedCommentConfiguration.ProcessingConfig := Some processing;
     DriverEnhancedCommentConfiguration.CompatibilityMode := true;
     DriverEnhancedCommentConfiguration.CustomDelimiter := str "|";
     DriverEnhancedCommentConfiguration.ErrorHandling := str "permissive" |}.

Definition set_ProcessingConfig (p : option ProcessingConfig)
  (c : DriverEnhancedCommentConfiguration.t) : DriverEnhancedCommentConfiguration.t :=
  {| DriverEnhancedCommentConfiguration.DriverName :=
       DriverEnhancedCommentConfiguration.DriverName c;
     DriverEnhancedCommentConfiguration.EnableEnhancedComments :=
       DriverEnhancedCommentConfiguration.EnableEnhancedComments c;
     DriverEnhancedCommentConfiguration.ProcessingConfig := p;
     DriverEnhancedCommentConfiguration.CompatibilityMode :=
       DriverEnhancedCommentConfiguration.CompatibilityMode c;
     DriverEnhancedCommentConfiguration.CustomDelimiter :=
       DriverEnhancedCommentConfiguration.CustomDelimiter c;
     DriverEnhancedCommentConfiguration.ErrorHandling :=
       DriverEnhancedCommentConfiguration.ErrorHandling c |}.

(** The use case sets fields of the configuration and of the
    [ProcessingConfig] it points to; [NewDriverConfiguration] never leaves
    that pointer nil. *)
Definition GetRecommendedConfiguration (driverName useCase : gostring)
  : DriverEnhancedCommentConfiguration.t :=
  let config := NewDriverConfiguration driverName in
  let adjust (sanitization : bool) (handling : gostring) (compatibility : bool) :=
    {| DriverEnhancedCommentConfiguration.DriverName :=
         DriverEnhancedCommentConfiguration.DriverName config;
       DriverEnhancedCommentConfiguration.EnableEnhancedComments :=
         DriverEnhancedCommentConfiguration.EnableEnhancedComments config;
       DriverEnhancedCommentConfiguration.ProcessingConfig :=
         option_map (fun p => set_EnableSanitization sanitization (set_EnableValidation true p))
           (DriverEnhancedCommentConfiguration.ProcessingConfig config);
       DriverEnhancedCommentConfiguration.CompatibilityMode := compatibility;
       DriverEnhancedCommentConfiguration.CustomDelimiter :=
         DriverEnhancedCommentConfiguration.CustomDelimiter config;
       DriverEnhancedCommentConfiguration.ErrorHandling := handling |} in
  if string_eqb useCase (str "production") then adjust true (str "permissive") true
  else if string_eqb useCase (str "development") then adjust false (str "strict") false
  else if string_eqb useCase (str "testing") then adjust false (str "strict") false
  else config.

(** The issues, in the order they are appended. *)
Definition ValidateConfiguration (config : DriverEnhancedCommentConfiguration.t)
  : list Text :=
  let issues := [] in
  let issues :=
    if is_empty_string (DriverEnhancedCommentConfiguration.DriverName config)
    then issues ++ [literal "Driver name is required"] else issues in
  match DriverEnhancedCommentConfiguration.ProcessingConfig config with
  | None => issues ++ [literal "Processing config is required"]
  | Some processing =>
      let issues :=
        if is_empty_string (DriverEnhancedCommentConfiguration.CustomDelimiter config)
        then issues ++ [literal "Custom delimiter cannot be empty"] else issues in
      let handling := DriverEnhancedCommentConfiguration.ErrorHandling config in
      let issues :=
        if negb (string_eqb handling (str "strict"))
           && negb (string_eqb handling (str "permissive"))
           && negb (string_eqb handling (str "silent"))
        then issues ++ [Sprintf "Invalid error handling mode: %s" [ArgString handling]]
        else issues in
      if string_eqb (DriverEnhancedCommentConfiguration.DriverName config) (str "sqlite") then
        if StrictMode processing
        then issues ++ [literal "SQLite driver should not use strict mode due to limited comment support"]
        else issues
      else if string_eqb (DriverEnhancedCommentConfiguration.DriverName config) (str "mysql") then
        if negb (EnableSanitization processing)
        then issues ++ [literal "MySQL driver should enable sanitization for character encoding safety"]
        else issues
      else issues
  end.

Section DriverAdapter.

Context {L : GoLibrary}.

Definition NewEnhancedCommentDriverAdapter (config : option ProcessingConfig)
  : EnhancedCommentDriverAdapter.t :=
  let config :=
    match config with
    | None =>
        {| EnableValidation := true;
           EnableSanitization := false;
           DefaultDelimiter := str "|";
           FallbackToLegacy := true;
           StrictMode := false;
           ProcessingTimeout := 1000 |}
    | Some config => config
    end in
  {| EnhancedCommentDriverAdapter.processor := NewEnhancedCommentProcessorWithConfig config;
     EnhancedCommentDriverAdapter.config := config |}.

(** [ApplyConfiguration] writes through [config.ProcessingConfig]: the result
    is the configuration after the call and the adapter returned (nil when
    enhanced comments are off); [None] is the nil dereference of a
    configuration without [ProcessingConfig]. *)
Definition ApplyConfiguration (config : DriverEnhancedCommentConfiguration.t)
  : option (DriverEnhancedCommentConfiguration.t * option EnhancedCommentDriverAdapter.t) :=
  if negb (DriverEnhancedCommentConfiguration.EnableEnhancedComments config)
  then Some (config, None)
  else
    let write (f : ProcessingConfig -> ProcessingConfig)
        (c : option DriverEnhancedCommentConfiguration.t) :=
      match c with
      | None => None
      | Some c =>
          match DriverEnhancedCommentConfiguration.ProcessingConfig c with
          | None => None
          | Some p => Some (set_ProcessingConfig (Some (f p)) c)
          end
      end in
    let c := Some config in
    let c :=
      if negb (is_empty_string (DriverEnhancedCommentConfiguration.CustomDelimiter config))
      then write (set_DefaultDelimiter
                    (DriverEnhancedCommentConfiguration.CustomDelimiter config)) c
      else c in
    let handling := DriverEnhancedCommentConfiguration.ErrorHandling config in
    let c :=
      if string_eqb handling (str "strict") then write (set_StrictMode true) c
      else if string_eqb handling (str "permissive") then write (set_StrictMode false) c
      else if string_eqb handling (str "silent") then write (set_StrictMode false) c
      else c in
    match c with
    | None => None
    | Some c =>
        Some (c, Some (NewEnhancedCommentDriverAdapter
                         (DriverEnhancedCommentConfiguration.ProcessingConfig c)))
    end.

End DriverAdapter.

(** *** Vocabulary of the driver-configuration properties *)

(** The use cases that ask for strict error handling. *)
Definition strict_use_case (useCase : gostring) : Prop :=
  useCase = str "development" \/ useCase = str "testing".

(** * Properties *)

(** ** The model on the tests of the repository

    The tables of the package's own tests, evaluated on the embedding. *)

(** Scenarios 3 and 4 of the specification. *)
Example legacy_scenario_3 :
  LegacyParser.ParseComment LegacyParser.New (str "論理名|説明文") (str "|")
  = (Some (set_Description (str "説明文")
            (set_LogicalName (str "論理名") (CommentData_with_source (str "論理名|説明文")))),
     None).
Proof. vm_compute. reflexivity. Qed.

Example legacy_scenario_4 :
  LegacyParser.ParseComment LegacyParser.New (str "論理名\|エスケープ|説明") (str "|")
  = (Some (set_Description (str "説明")
            (set_LogicalName (str "論理名|エスケープ")
               (CommentData_with_source (str "論理名\|エスケープ|説明")))),
     None).
Proof. vm_compute. reflexivity. Qed.

(** [TestLegacyParser_splitWithEscape]. *)
Example test_splitWithEscape :
  LegacyParser.splitWithEscape (str "a|b|c") (str "|") = [str "a"; str "b"; str "c"]
  /\ LegacyParser.splitWithEscape (str "a\|b|c") (str "|") = [str "a|b"; str "c"]
  /\ LegacyParser.splitWithEscape (str "a\|b\|c|d") (str "|") = [str "a|b|c"; str "d"]
  /\ LegacyParser.splitWithEscape (str "a::b::c") (str "::") = [str "a"; str "b"; str "c"]
  /\ LegacyParser.splitWithEscape (str "a\::b::c") (str "::") = [str "a::b"; str "c"]
  /\ LegacyParser.splitWithEscape (str "abc") (str "|") = [str "abc"]
  /\ LegacyParser.splitWithEscape [] (str "|") = [[]]
  /\ LegacyParser.splitWithEscape (str "a||b") (str "|") = [str "a"; []; str "b"].
Proof. repeat split; reflexivity. Qed.

(** [TestLegacyParser_normalizeWhitespace]; the last text has a full-width
    space and the two before it a tab and a newline. *)
Example test_normalizeWhitespace :
  LegacyParser.normalizeWhitespace (str "通常の文字列") = str "通常の文字列"
  /\ LegacyParser.normalizeWhitespace (str "  前後の空白  ") = str "前後の空白"
  /\ LegacyParser.normalizeWhitespace (str "連続  する   空白") = str "連続 する 空白"
  /\ LegacyParser.normalizeWhitespace (str "タブ" ++ [9] ++ str "文字") = str "タブ 文字"
  /\ LegacyParser.normalizeWhitespace (str "混合" ++ [9; 0x20; 10] ++ str "空白")
     = str "混合 空白"
  /\ LegacyParser.normalizeWhitespace (str "全角　空白") = str "全角 空白".
Proof. repeat split; reflexivity. Qed.

(** [TestLegacyParser_ParseComment]: the logical name and the description. *)
Example test_legacy_ParseComment :
  legacy_fields [] (str "|") = Some ([], [])
  /\ legacy_fields (str "論理名のみ") (str "|") = Some (str "論理名のみ", [])
  /\ legacy_fields (str "  論理名  |  説明文  ") (str "|") = Some (str "論理名", str "説明文")
  /\ legacy_fields (str "論理名   複数空白|説明   複数   空白") (str "|")
     = Some (str "論理名 複数空白", str "説明 複数 空白")
  /\ legacy_fields (str "論理名::説明文") (str "::") = Some (str "論理名", str "説明文")
  /\ legacy_fields (str "論理名|説明|追加情報") (str "|") = Some (str "論理名", str "説明").
Proof. repeat split; vm_compute; reflexivity. Qed.

(** [TestDefaultCommentValidator_sanitizeString] and
    [TestControlCharacterRemoval]. *)
Example test_sanitizeString :
  let v := NewDefaultCommentValidator (L := sample_library) in
  sanitizeString v [] = []
  /\ sanitizeString v (str "  テスト  ") = str "テスト"
  /\ sanitizeString v (str "テスト   文字列") = str "テスト 文字列"
  /\ sanitizeString v (str "<script>") = str "&lt;script&gt;"
  /\ sanitizeString v (str "テスト" ++ [0] ++ str "文字列") = str "テスト文字列"
  /\ sanitizeString v (str "行1" ++ [10] ++ str "行2" ++ [9] ++ str "列") = str "行1 行2 列"
  /\ removeControlChars (str "テスト" ++ [0; 1; 2] ++ str "文字列") = str "テスト文字列"
  /\ removeControlChars (str "行1" ++ [10] ++ str "行2" ++ [9] ++ str "列")
     = str "行1" ++ [10] ++ str "行2" ++ [9] ++ str "列".
Proof. repeat split; vm_compute; reflexivity. Qed.

(** [TestDefaultCommentValidator_Sanitize]: HTML escaping, empty tags,
    empty metadata. *)
Example test_Sanitize :
  let v := NewDefaultCommentValidator (L := sample_library) in
  Sanitize v canonical_range None = None
  /\ Sanitize v canonical_range
       (Some (set_Description (str "A & B")
                (set_LogicalName (str "<script>alert('test')</script>") CommentData_zero)))
     = Some (set_Description (str "A &amp; B")
               (set_LogicalName (str "&lt;script&gt;alert(&#39;test&#39;)&lt;/script&gt;")
                  CommentData_zero))
  /\ Sanitize v canonical_range
       (Some (set_Tags [str "有効"; []; str "タグ"; str "  "] CommentData_zero))
     = Some (set_Tags [str "有効"; str "タグ"] CommentData_zero)
  /\ Sanitize v canonical_range
       (Some (set_Metadata
                (<[str "valid_key" := str "valid_value"]>
                   (<[[] := str "empty_key"]>
                      (<[str "empty_value" := []]>
                         (<[str "  spaces  " := str "  spaces  "]> ∅))))
                CommentData_zero))
     = Some (set_Metadata
               (<[str "valid_key" := str "valid_value"]> (<[str "spaces" := str "spaces"]> ∅))
               CommentData_zero).
Proof. repeat split; vm_compute; reflexivity. Qed.

(** The parsed mappings of [TestYAMLParser_ParseComment] and
    [TestJSONParser_ParseComment], converted. *)
Example test_convertMapToCommentData :
  converted_fields
    (YAMLParser_convertMapToCommentData (L := sample_library)
       [(str "name", VString (str "テスト")); (str "priority", VString (str "10"))])
  = Some (str "テスト", [], 10, false)
  /\ converted_fields
       (YAMLParser_convertMapToCommentData (L := sample_library)
          [(str "name", VString (str "テスト"));
           (str "tags", VString (str "タグ1, タグ2, タグ3"))])
     = Some (str "テスト", [str "タグ1"; str "タグ2"; str "タグ3"], 0, false)
  /\ converted_fields
       (YAMLParser_convertMapToCommentData (L := sample_library)
          [(str "name", VString (str "テスト")); (str "deprecated", VString (str "true"))])
     = Some (str "テスト", [], 0, true)
  /\ converted_fields
       (YAMLParser_convertMapToCommentData (L := sample_library)
          [(str "name", VString (str "商品名"));
           (str "tags", VSlice [VString (str "重要"); VString (str "公開")]);
           (str "priority", VInt 5); (str "deprecated", VBool true)])
     = Some (str "商品名", [str "重要"; str "公開"], 5, true)
  /\ converted_fields
       (JSONParser_convertMapToCommentData (L := sample_library)
          [(str "name", VString (str "商品名"));
           (str "tags", VSlice [VString (str "重要"); VString (str "公開")]);
           (str "priority", VFloat64 float64_5_0); (str "deprecated", VBool true)])
     = Some (str "商品名", [str "重要"; str "公開"], 5, true).
Proof. repeat split; vm_compute; reflexivity. Qed.

(** [parseIntFromString] stops at the first character that is not a digit:
    what follows the number is not looked at. *)
Example parseIntFromString_prefix :
  parseIntFromString (str "12abc") = (12, None)
  /\ parseIntFromString (str "1_000") = (1, None)
  /\ fst (parseIntFromString (str "1.5")) = 0
  /\ fst (parseIntFromString (str "abc")) = 0.
Proof. repeat split; reflexivity. Qed.

(** ** Merge *)

Lemma Clone_value_id cd : Clone_value cd = cd.
Proof.
  destruct cd as [ln d tags md pr dep src]. unfold Clone_value; simpl.
  f_equal.
  - destruct tags; reflexivity.
  - destruct (0 <? size md)%nat eqn:E; [reflexivity|].
    apply Nat.ltb_ge in E. symmetry. apply map_size_empty_iff. lia.
Qed.

Lemma filter_filter_comm {A} (f g : A -> bool) l :
  List.filter f (List.filter g l) = List.filter g (List.filter f l).
Proof.
  induction l as [|x l IH]; simpl; [reflexivity|].
  destruct (f x) eqn:Ef, (g x) eqn:Eg; simpl; rewrite ?Ef, ?Eg, IH; reflexivity.
Qed.

Lemma filter_all_true {A} (f : A -> bool) l :
  (forall x, In x l -> f x = true) -> List.filter f l = l.
Proof.
  induction l as [|x l IH]; simpl; intros H; [reflexivity|].
  rewrite (H x) by auto. f_equal. apply IH. auto.
Qed.

Lemma In_first_occurrences x l : In x (first_occurrences l) -> In x l.
Proof.
  induction l as [|y l IH]; simpl; [tauto|].
  intros [->|H]; [auto|]. apply filter_In in H. tauto.
Qed.

Lemma filter_first_occurrences f l :
  List.filter f (first_occurrences l) = first_occurrences (List.filter f l).
Proof.
  induction l as [|x l IH]; simpl; [reflexivity|].
  destruct (f x) eqn:Ef; simpl; rewrite filter_filter_comm, IH; [reflexivity|].
  apply filter_all_true. intros y Hy.
  apply In_first_occurrences, filter_In in Hy. destruct Hy as [_ Hy].
  unfold string_eqb. case_bool_decide; [subst; congruence|reflexivity].
Qed.

Lemma filter_filter_and {A} (f g : A -> bool) l :
  List.filter f (List.filter g l) = List.filter (fun x => g x && f x) l.
Proof.
  induction l as [|x l IH]; simpl; [reflexivity|].
  destruct (g x); simpl; [destruct (f x)|]; rewrite IH; reflexivity.
Qed.

Lemma merge_tag_loop (other acc : list gostring) (seen : gset gostring) :
  (forall x, x ∈ seen <-> x ∈ acc) ->
  fst (foldl merge_tag_step (acc, seen) other)
  = acc ++ first_occurrences (tags_not_in acc other).
Proof.
  revert acc seen. induction other as [|t other IH]; intros acc seen Hseen; simpl.
  - rewrite app_nil_r. reflexivity.
  - destruct (decide (t ∈ seen)) as [Hin|Hnin].
    + rewrite (IH acc seen Hseen). unfold tags_not_in; simpl.
      rewrite bool_decide_eq_true_2 by (apply Hseen; exact Hin). reflexivity.
    + rewrite (IH (acc ++ [t]) ({[t]} ∪ seen)).
      2:{ intros x. rewrite elem_of_union, elem_of_singleton, elem_of_app, list_elem_of_singleton.
          rewrite Hseen. tauto. }
      unfold tags_not_in; simpl.
      rewrite bool_decide_eq_false_2 by (rewrite <- Hseen; exact Hnin). simpl.
      rewrite <- app_assoc. simpl. do 2 f_equal.
      rewrite filter_first_occurrences, filter_filter_and. f_equal.
      apply filter_ext. intros y. unfold string_eqb.
      repeat case_bool_decide; simpl; try reflexivity; exfalso.
      all: set_solver.
Qed.

Lemma merge_tags_spec (mine other : list gostring) :
  merge_tags mine other = mine ++ first_occurrences (tags_not_in mine other).
Proof.
  unfold merge_tags. destruct other as [|t other].
  - simpl. rewrite app_nil_r. reflexivity.
  - change (0 <? length (t :: other))%nat with true. cbv iota.
    apply merge_tag_loop. intros x. apply elem_of_list_to_set.
Qed.

Lemma merge_metadata_spec (mine other : gmap gostring gostring) :
  merge_metadata mine other = mine ∪ other.
Proof.
  unfold merge_metadata. destruct (0 <? size other)%nat eqn:E; [reflexivity|].
  apply Nat.ltb_ge in E.
  assert (other = ∅) as -> by (apply map_size_empty_iff; lia).
  rewrite (right_id_L ∅ (∪)). reflexivity.
Qed.

Lemma first_occurrences_app (a b : list gostring) :
  List.NoDup a ->
  first_occurrences (a ++ b) = a ++ first_occurrences (tags_not_in a b).
Proof.
  revert b. induction a as [|x a IH]; intros b Hnd; simpl.
  - unfold tags_not_in. f_equal. symmetry. apply filter_all_true.
    intros y _. rewrite bool_decide_eq_false_2 by apply not_elem_of_nil. reflexivity.
  - inversion Hnd as [|x' a' Hx Hnd']; subst. f_equal.
    rewrite (IH b Hnd'), List.filter_app. f_equal.
    + apply filter_all_true. intros y Hy. unfold string_eqb.
      case_bool_decide; [subst; contradiction|reflexivity].
    + rewrite filter_first_occurrences. unfold tags_not_in.
      rewrite filter_filter_and. f_equal. apply filter_ext. intros y.
      unfold string_eqb. repeat case_bool_decide; simpl; try reflexivity; exfalso; set_solver.
Qed.

(** C6, as the specification states it, fails: [Merge] never takes the
    priority (nor the deprecation flag) of the other record.  Here [a] has
    priority 0 and [b] has priority 5, and the merge keeps 0. *)
Lemma Merge_priority_not_filled :
  exists m, Merge (Some merge_sample_a) (Some merge_sample_b) = Some m
            /\ Priority m = 0 /\ Deprecated m = false
            /\ ~ scalar_fallback_rule merge_sample_a merge_sample_b m.
Proof.
  eexists. split; [reflexivity|]. split; [reflexivity|]. split; [reflexivity|].
  intros (_ & _ & H & _). vm_compute in H. discriminate H.
Qed.

(** C6, amended.  For all records [a] and [b], [Merge a b] takes the
    logical name and the description of [a] when non-empty and otherwise
    those of [b]; the priority, the deprecation flag and the source are
    always those of [a]; its tags are the tags of [a] followed by the first
    occurrences of the tags of [b] that are not tags of [a] (which is the
    deduplicated concatenation when the tags of [a] are distinct); and its
    metadata are those of [a], with each key of [b] added only where [a]
    has no such key. *)
Theorem Merge_fallback (a b : CommentData) :
  exists m, Merge (Some a) (Some b) = Some m
    /\ LogicalName m
       = (if is_empty_string (LogicalName a) then LogicalName b else LogicalName a)
    /\ Description m
       = (if is_empty_string (Description a) then Description b else Description a)
    /\ Priority m = Priority a
    /\ Deprecated m = Deprecated a
    /\ Source m = Source a
    /\ Tags m = Tags a ++ first_occurrences (tags_not_in (Tags a) (Tags b))
    /\ (List.NoDup (Tags a) -> Tags m = first_occurrences (Tags a ++ Tags b))
    /\ forall k, Metadata m !! k
                 = match Metadata a !! k with
                   | Some v => Some v
                   | None => Metadata b !! k
                   end.
Proof.
  eexists. split; [reflexivity|]. rewrite Clone_value_id.
  destruct a as [ln d tags md pr dep src], b as [ln' d' tags' md' pr' dep' src']; simpl.
  assert (Htags : merge_tags tags tags' = tags ++ first_occurrences (tags_not_in tags tags'))
    by apply merge_tags_spec.
  assert (Hmd : forall k, merge_metadata md md' !! k
                         = match md !! k with Some v => Some v | None => md' !! k end).
  { intros k. rewrite merge_metadata_spec, lookup_union.
    destruct (md !! k), (md' !! k); reflexivity. }
  destruct ln, ln', d, d'; cbn;
    (repeat split; try reflexivity; try exact Htags; try exact Hmd;
     intros Hnd; rewrite first_occurrences_app by exact Hnd; exact Htags).
Qed.

(** ** The registry *)

Lemma Forall_insert_parser (P : CommentParser.t -> Prop) parser ps :
  P parser -> Forall P ps -> Forall P (insert_parser parser ps).
Proof.
  intros Hp. induction 1 as [|q ps Hq Hps IH]; simpl.
  - repeat constructor. exact Hp.
  - destruct (_ <? _); repeat constructor; assumption.
Qed.

Lemma insert_parser_sorted parser ps :
  StronglySorted priority_le ps -> StronglySorted priority_le (insert_parser parser ps).
Proof.
  induction 1 as [|q ps Hs IH Hq]; simpl.
  - repeat constructor.
  - destruct (Z.ltb_spec (CommentParser.Priority parser) (CommentParser.Priority q)).
    + constructor; [constructor; assumption|].
      constructor; [unfold priority_le; lia|].
      eapply Forall_impl; [exact Hq|]. unfold priority_le. intros; simpl in *; lia.
    + constructor; [exact IH|].
      apply Forall_insert_parser; [unfold priority_le; lia|exact Hq].
Qed.

Lemma registered_sorted r : registered r -> StronglySorted priority_le (parsers r).
Proof.
  induction 1 as [|r [parser|] Hr IH]; simpl.
  - constructor.
  - apply insert_parser_sorted. exact IH.
  - exact IH.
Qed.

Lemma insert_parser_elem parser ps q :
  q ∈ insert_parser parser ps <-> q = parser \/ q ∈ ps.
Proof.
  induction ps as [|p ps IH]; simpl.
  - rewrite list_elem_of_singleton. set_solver.
  - destruct (_ <? _).
    + rewrite elem_of_cons. tauto.
    + rewrite !elem_of_cons, IH. tauto.
Qed.

Lemma fallback_loop_attempted ps comment delimiter lastError :
  fallback_loop ps comment delimiter lastError
  = fallback_loop (List.filter (fun p => CommentParser.CanParse p comment) ps)
      comment delimiter lastError.
Proof.
  revert lastError. induction ps as [|p ps IH]; intros lastError; simpl; [reflexivity|].
  destruct (CommentParser.CanParse p comment) eqn:E; simpl; rewrite ?E.
  - destruct (CommentParser.ParseComment p comment delimiter) as [[d|] [e|]];
      try reflexivity; apply IH.
  - apply IH.
Qed.

Lemma fallback_loop_first_success pre p post d comment delimiter lastError :
  Forall (fun q => CommentParser.CanParse q comment = true) (pre ++ p :: post) ->
  Forall (fun q => ~ succeeds comment delimiter q) pre ->
  CommentParser.ParseComment p comment delimiter = (Some d, None) ->
  fallback_loop (pre ++ p :: post) comment delimiter lastError
  = (Some (set_Source comment d), None).
Proof.
  intros Hcan Hpre Hp. revert lastError.
  induction pre as [|q pre IH]; intros lastError; simpl in *.
  - inversion Hcan as [|? ? Hc _]; subst. rewrite Hc, Hp. reflexivity.
  - inversion Hcan as [|? ? Hc Hcan']; subst.
    inversion Hpre as [|? ? Hq Hpre']; subst. rewrite Hc.
    destruct (CommentParser.ParseComment q comment delimiter) as [[dq|] [e|]] eqn:E;
      try (apply IH; assumption).
    exfalso. apply Hq. exists dq. exact E.
Qed.

Lemma fallback_loop_all_errored l comment delimiter lastError :
  Forall (fun q => CommentParser.CanParse q comment = true) l ->
  Forall (errored comment delimiter) l ->
  fallback_loop l comment delimiter lastError
  = (None, Some (report_failure comment (last_error comment delimiter l lastError))).
Proof.
  intros Hcan Herr. revert lastError.
  induction l as [|q l IH]; intros lastError; simpl.
  - destruct lastError; reflexivity.
  - inversion Hcan as [|? ? Hc Hcan']; subst.
    inversion Herr as [|? ? [e He] Herr']; subst. rewrite Hc.
    unfold last_error in *. simpl.
    destruct (CommentParser.ParseComment q comment delimiter) as [[dq|] [e'|]];
      simpl in *; try discriminate; apply IH; assumption.
Qed.

Lemma last_error_last comment delimiter l q lastError :
  last l = Some q ->
  last_error comment delimiter l lastError
  = snd (CommentParser.ParseComment q comment delimiter).
Proof.
  revert lastError. induction l as [|p l IH]; intros lastError Hlast; [discriminate|].
  destruct l as [|p' l].
  - simpl in Hlast. injection Hlast as ->. reflexivity.
  - unfold last_error in *. simpl in *. apply (IH lastError). exact Hlast.
Qed.

Lemma attempted_can_parse r comment :
  Forall (fun q => CommentParser.CanParse q comment = true) (attempted r comment).
Proof.
  unfold attempted. apply List.Forall_forall. intros q Hq.
  apply filter_In in Hq. tauto.
Qed.

(** [ParseWithFallback] returns a record or an error, and never both. *)
Lemma fallback_loop_total ps comment delimiter lastError :
  (exists d, fallback_loop ps comment delimiter lastError = (Some d, None))
  \/ (exists e, fallback_loop ps comment delimiter lastError = (None, Some e)).
Proof.
  revert lastError. induction ps as [|p ps IH]; intros lastError; simpl.
  - right. destruct lastError; eauto.
  - destruct (CommentParser.CanParse p comment); [|apply IH].
    destruct (CommentParser.ParseComment p comment delimiter) as [[d|] [e|]];
      try apply IH.
    left. eauto.
Qed.

Lemma ParseWithFallback_total r comment delimiter :
  (exists d, ParseWithFallback r comment delimiter = (Some d, None))
  \/ (exists e, ParseWithFallback r comment delimiter = (None, Some e)).
Proof.
  unfold ParseWithFallback. destruct (is_empty_string comment); [left; eauto|].
  apply fallback_loop_total.
Qed.

(** C1.  In a registry built by [RegisterParser] the parsers stand in
    ascending order of priority, and [ParseWithFallback] goes through them
    in that order, calling those whose [CanParse] accepts the text
    ([attempted]).  On empty text it returns an empty record and no error.
    On non-empty text: the first attempted parser that succeeds decides the
    result, which is its record, field by field, except that [Source] is
    the text given; when some parser was attempted and every attempted
    parser returned an error, the result is the error of the last attempted
    parser, wrapped by [fmt.Errorf] with [%w]; when no parser accepts the
    text, the result is a [CommentParseError] of the parser name
    [registry], for that text, whose cause is the sentinel
    [ErrUnsupportedFormat]. *)
Theorem ParseWithFallback_contract (r : DefaultParserRegistry)
  (comment delimiter : gostring) :
  registered r ->
  StronglySorted priority_le (parsers r)
  /\ (comment = [] ->
      ParseWithFallback r comment delimiter
      = (Some {| LogicalName := []; Description := []; Tags := []; Metadata := ∅;
                 Priority := 0; Deprecated := false; Source := [] |}, None)
      /\ IsEmpty (fst (ParseWithFallback r comment delimiter)) = true)
  /\ (comment <> [] ->
      (forall pre p post d,
          attempted r comment = pre ++ p :: post ->
          Forall (fun q => ~ succeeds comment delimiter q) pre ->
          CommentParser.ParseComment p comment delimiter = (Some d, None) ->
          ParseWithFallback r comment delimiter
          = (Some {| LogicalName := LogicalName d; Description := Description d;
                     Tags := Tags d; Metadata := Metadata d; Priority := Priority d;
                     Deprecated := Deprecated d; Source := comment |}, None)
          /\ exists result,
               fst (ParseWithFallback r comment delimiter) = Some result
               /\ Source result = comment)
      /\ (forall q,
          last (attempted r comment) = Some q ->
          Forall (errored comment delimiter) (attempted r comment) ->
          exists e,
            snd (CommentParser.ParseComment q comment delimiter) = Some e
            /\ ParseWithFallback r comment delimiter
               = (None, Some (fmt_Errorf "all parsers failed to parse comment: %w" []
                                (Some e)))
            /\ (Unwrap <$> snd (ParseWithFallback r comment delimiter)) = Some (Some e))
      /\ (attempted r comment = [] ->
          ParseWithFallback r comment delimiter
          = (None, Some (CommentParseError (str "registry") comment
                           "no suitable parser found"
                           (Some (errors_New "unsupported comment format"))))
          /\ (Unwrap <$> snd (ParseWithFallback r comment delimiter))
             = Some (Some ErrUnsupportedFormat))).
Proof.
  intros Hreg. split; [apply registered_sorted; exact Hreg|]. split.
  - intros ->. split; reflexivity.
  - intros Hne. unfold ParseWithFallback.
    destruct comment as [|c comment]; [contradiction|]. cbn [is_empty_string].
    rewrite fallback_loop_attempted. fold (attempted r (c :: comment)).
    pose proof (attempted_can_parse r (c :: comment)) as Hcan.
    split; [|split].
    + intros pre p post d Hsplit Hpre Hp. rewrite Hsplit in *.
      rewrite (fallback_loop_first_success pre p post d) by assumption.
      split; [reflexivity|]. eexists. split; reflexivity.
    + intros q Hlast Herr.
      rewrite fallback_loop_all_errored by assumption.
      rewrite (last_error_last _ _ _ q) by exact Hlast.
      assert (Hq : errored (c :: comment) delimiter q).
      { eapply List.Forall_forall; [exact Herr|].
        apply list_elem_of_In, last_Some_elem_of. exact Hlast. }
      destruct Hq as [e He]. exists e. split; [exact He|]. rewrite He.
      split; reflexivity.
    + intros ->. split; reflexivity.
Qed.

Lemma ParseWithFallback_contract_witness :
  registered sample_registry
  /\ map CommentParser.Priority (parsers sample_registry) = [10; 15; 1000]
  /\ ParseWithFallback sample_registry (str "x|y") (str "|")
     = (Some {| LogicalName := str "x"; Description := str "y"; Tags := [];
                Metadata := ∅; Priority := 0; Deprecated := false;
                Source := str "x|y" |}, None)
  /\ ParseWithFallback NewDefaultParserRegistry (str "x|y") (str "|")
     = (None, Some (CommentParseError (str "registry") (str "x|y")
                      "no suitable parser found"
                      (Some (errors_New "unsupported comment format")))).
Proof.
  assert (Hreg : registered sample_registry)
    by (apply registered_add, registered_add, registered_add, registered_new).
  split; [exact Hreg|]. split; [reflexivity|]. split.
  - destruct (ParseWithFallback_contract sample_registry (str "x|y") (str "|") Hreg)
      as (_ & _ & H).
    destruct H as (Hfirst & _ & _); [discriminate|].
    destruct (Hfirst [failing_parser] (LegacyParser.as_parser LegacyParser.New) []
                {| LogicalName := str "x"; Description := str "y"; Tags := [];
                   Metadata := ∅; Priority := 0; Deprecated := false;
                   Source := str "x|y" |}) as [H _].
    + reflexivity.
    + constructor; [|constructor]. intros [d Hd]. discriminate Hd.
    + reflexivity.
    + exact H.
  - destruct (ParseWithFallback_contract NewDefaultParserRegistry (str "x|y") (str "|")
                registered_new) as (_ & _ & H).
    destruct H as (_ & _ & Hnone); [discriminate|].
    destruct Hnone as [H _]; [reflexivity|]. exact H.
Defined.

(** ** The legacy parser as the universal fallback *)

Lemma LegacyParser_ParseComment_ok lp comment delimiter :
  exists d, LegacyParser.ParseComment lp comment delimiter = (Some d, None)
            /\ Source d = comment.
Proof.
  unfold LegacyParser.ParseComment. destruct (is_empty_string comment).
  - eexists. split; reflexivity.
  - eexists. split; [reflexivity|].
    destruct (LegacyParser.splitWithEscape _ _) as [|? [|? ?]]; reflexivity.
Qed.

Lemma fallback_loop_with_success ps p comment delimiter lastError :
  p ∈ ps ->
  CommentParser.CanParse p comment = true ->
  succeeds comment delimiter p ->
  exists d, fallback_loop ps comment delimiter lastError = (Some d, None)
            /\ Source d = comment.
Proof.
  intros Hin Hcan [dp Hp]. revert lastError.
  induction ps as [|q ps IH]; intros lastError; [inversion Hin|].
  simpl. apply elem_of_cons in Hin. destruct Hin as [<-|Hin].
  - rewrite Hcan, Hp. eexists. split; reflexivity.
  - destruct (CommentParser.CanParse q comment); [|apply IH; exact Hin].
    destruct (CommentParser.ParseComment q comment delimiter) as [[d|] [e|]];
      try (apply IH; exact Hin).
    eexists. split; reflexivity.
Qed.

Lemma legacy_registered_insert r parser :
  legacy_registered r -> legacy_registered (RegisterParser r parser).
Proof.
  intros [lp Hlp]. exists lp. destruct parser as [parser|]; [|exact Hlp].
  simpl. apply insert_parser_elem. right. exact Hlp.
Qed.

Lemma register_legacy_registered prio r : legacy_registered (register_legacy prio r).
Proof.
  eexists. unfold register_legacy. simpl. apply insert_parser_elem. left. reflexivity.
Qed.

Section DefaultRegistries.

Context {L : GoLibrary}.

Lemma registerDefaultParsers_legacy r : legacy_registered (registerDefaultParsers r).
Proof.
  eexists. unfold registerDefaultParsers. simpl. apply insert_parser_elem. left. reflexivity.
Qed.

Lemma registerParsersFromConfig_legacy r cfg :
  legacy_registered (registerParsersFromConfig r cfg).
Proof.
  unfold registerParsersFromConfig.
  repeat destruct (string_eqb _ _); apply register_legacy_registered.
Qed.

(** Every constructor of the processor registers a legacy parser. *)
Lemma constructors_register_legacy :
  legacy_registered (registry NewEnhancedCommentProcessor)
  /\ (forall cfg, legacy_registered (registry (NewEnhancedCommentProcessorWithConfig cfg)))
  /\ (forall cfg, legacy_registered (registry (NewEnhancedCommentProcessorFromConfig cfg))).
Proof.
  split; [apply registerDefaultParsers_legacy|].
  split; intros cfg; [apply registerDefaultParsers_legacy|].
  unfold NewEnhancedCommentProcessorFromConfig.
  destruct (negb _); [apply registerDefaultParsers_legacy|].
  apply registerParsersFromConfig_legacy.
Qed.

(** C10.  When a legacy parser is in the registry of a processor, as it is
    after each of the three constructors, [ParseWithFallback] returns a
    record and no error on every text, and so does
    [processCommentInternal], also in strict mode: the branch that reports
    a parse failure is not taken. *)
Theorem legacy_fallback_never_fails (p : EnhancedCommentProcessor)
  (comment delimiter objectType : gostring) :
  legacy_registered (registry p) ->
  (exists d, ParseWithFallback (registry p) comment delimiter = (Some d, None)
             /\ Source d = comment)
  /\ (exists d, processCommentInternal p comment delimiter objectType = (Some d, None))
  /\ (forall e, processCommentInternal p comment delimiter objectType
                <> (None, Some (fmt_Errorf "failed to parse comment: %w" [] (Some e))))
  /\ legacy_registered (registry NewEnhancedCommentProcessor)
  /\ (forall cfg, legacy_registered (registry (NewEnhancedCommentProcessorWithConfig cfg)))
  /\ (forall cfg, legacy_registered (registry (NewEnhancedCommentProcessorFromConfig cfg))).
Proof.
  intros [lp Hlp].
  assert (H : exists d, ParseWithFallback (registry p) comment delimiter = (Some d, None)
                        /\ Source d = comment).
  { unfold ParseWithFallback. destruct (is_empty_string comment).
    - eexists. split; reflexivity.
    - apply (fallback_loop_with_success _ (LegacyParser.as_parser lp)).
      + exact Hlp.
      + reflexivity.
      + destruct (LegacyParser_ParseComment_ok lp comment delimiter) as (d & Hd & _).
        exists d. exact Hd. }
  split; [exact H|]. destruct H as (d & Hd & _).
  unfold processCommentInternal. rewrite Hd.
  split; [eexists; reflexivity|]. split; [intros e; discriminate|].
  apply constructors_register_legacy.
Qed.

End DefaultRegistries.

Lemma legacy_fallback_never_fails_witness :
  legacy_registered (registry strict_default_processor)
  /\ exists d, processCommentInternal strict_default_processor
                 (str "{unclosed") (str "|") ObjectTypeColumn = (Some d, None).
Proof.
  assert (H : legacy_registered (registry strict_default_processor)).
  { exists LegacyParser.New. simpl. right. left. }
  split; [exact H|].
  destruct (legacy_fallback_never_fails (L := sample_library) strict_default_processor
              (str "{unclosed") (str "|") ObjectTypeColumn H) as (_ & H2 & _).
  exact H2.
Defined.

(** ** Registration from a configuration *)

Section Registration.

Context {L : GoLibrary}.

(** C7.  With enhanced comments enabled, the processor built from a
    configuration has these parsers, in this order: for the preferred
    format [legacy], the legacy parser alone (at priority 5); for [json],
    JSON at priority 5 and YAML at 15, each if enabled, then the legacy
    parser at 20; for [yaml], YAML at 5 and JSON at 10, each if enabled,
    then the legacy parser at 20; for every other value ([auto] or
    unknown), JSON at 10 and YAML at 15, each if enabled, then the legacy
    parser at 20.  The second part gives the names and the priority numbers
    that the registered parsers answer with. *)
Theorem registerParsersFromConfig_contract (cfg : EnhancedCommentConfigurator) :
  IsEnhancedCommentEnabled cfg = true ->
  let json := IsEnhancedCommentJSONEnabled cfg in
  let yaml := IsEnhancedCommentYAMLEnabled cfg in
  let preferred := EnhancedCommentPreferredFormat cfg in
  let registry_parsers := parsers (registry (NewEnhancedCommentProcessorFromConfig cfg)) in
  registry_parsers
  = (if string_eqb preferred (str "json")
     then when json (json_at 5) ++ when yaml (yaml_at 15) ++ [legacy_at 20]
     else if string_eqb preferred (str "yaml")
     then when yaml (yaml_at 5) ++ when json (json_at 10) ++ [legacy_at 20]
     else if string_eqb preferred (str "legacy")
     then [legacy_at 5]
     else when json (json_at 10) ++ when yaml (yaml_at 15) ++ [legacy_at 20])
  /\ map (fun q => (CommentParser.Name q, CommentParser.Priority q)) registry_parsers
     = (if string_eqb preferred (str "json")
        then (if json then [(str "json", 5)] else [])
             ++ (if yaml then [(str "yaml", 15)] else []) ++ [(str "legacy", 20)]
        else if string_eqb preferred (str "yaml")
        then (if yaml then [(str "yaml", 5)] else [])
             ++ (if json then [(str "json", 10)] else []) ++ [(str "legacy", 20)]
        else if string_eqb preferred (str "legacy")
        then [(str "legacy", 5)]
        else (if json then [(str "json", 10)] else [])
             ++ (if yaml then [(str "yaml", 15)] else []) ++ [(str "legacy", 20)])
  /\ (preferred = str "legacy" ->
      map CommentParser.Name registry_parsers = [str "legacy"])
  /\ (preferred <> str "legacy" ->
      last registry_parsers = Some (legacy_at 20)
      /\ (CommentParser.Name <$> last registry_parsers) = Some (str "legacy")
      /\ (CommentParser.Priority <$> last registry_parsers) = Some 20
      /\ Forall (fun q => CommentParser.Priority q <= 20) registry_parsers).
Proof.
  intros Hen json yaml preferred registry_parsers. subst registry_parsers.
  unfold NewEnhancedCommentProcessorFromConfig. rewrite Hen. cbn [negb registry].
  unfold registerParsersFromConfig. fold preferred json yaml.
  split; [|split; [|split]].
  - repeat destruct (string_eqb preferred _); destruct json, yaml; reflexivity.
  - repeat destruct (string_eqb preferred _); destruct json, yaml; reflexivity.
  - intros ->. reflexivity.
  - intros Hne.
    assert (Hlegacy : string_eqb preferred (str "legacy") = false)
      by (unfold string_eqb; apply bool_decide_eq_false_2; exact Hne).
    rewrite !Hlegacy.
    repeat destruct (string_eqb preferred _); destruct json, yaml;
      (split; [reflexivity|split; [reflexivity|split; [reflexivity|]]];
       repeat constructor; cbn; lia).
Qed.

End Registration.

Lemma registerParsersFromConfig_contract_witness :
  IsEnhancedCommentEnabled (sample_configurator (str "yaml") true true) = true
  /\ map (fun q => (CommentParser.Name q, CommentParser.Priority q))
       (parsers (registry (NewEnhancedCommentProcessorFromConfig (L := sample_library)
                             (sample_configurator (str "yaml") true true))))
     = [(str "yaml", 5); (str "json", 10); (str "legacy", 20)]
  /\ map (fun q => (CommentParser.Name q, CommentParser.Priority q))
       (parsers (registry (NewEnhancedCommentProcessorFromConfig (L := sample_library)
                             (sample_configurator (str "json") true true))))
     = [(str "json", 5); (str "yaml", 15); (str "legacy", 20)]
  /\ map (fun q => (CommentParser.Name q, CommentParser.Priority q))
       (parsers (registry (NewEnhancedCommentProcessorFromConfig (L := sample_library)
                             (sample_configurator (str "auto") true false))))
     = [(str "json", 10); (str "legacy", 20)]
  /\ map (fun q => (CommentParser.Name q, CommentParser.Priority q))
       (parsers (registry (NewEnhancedCommentProcessorFromConfig (L := sample_library)
                             (sample_configurator (str "legacy") true true))))
     = [(str "legacy", 5)].
Proof.
  split; [reflexivity|].
  split; [|split; [|split]].
  - destruct (registerParsersFromConfig_contract (L := sample_library)
                (sample_configurator (str "yaml") true true) eq_refl) as (_ & H & _).
    exact H.
  - destruct (registerParsersFromConfig_contract (L := sample_library)
                (sample_configurator (str "json") true true) eq_refl) as (_ & H & _).
    exact H.
  - destruct (registerParsersFromConfig_contract (L := sample_library)
                (sample_configurator (str "auto") true false) eq_refl) as (_ & H & _).
    exact H.
  - destruct (registerParsersFromConfig_contract (L := sample_library)
                (sample_configurator (str "legacy") true true) eq_refl) as (_ & H & _).
    exact H.
Defined.

(** ** The priority field of the YAML parser *)

Example float64_samples :
  2 * 6755399441055744 = 3 * 2 ^ 52
  /\ 4 * 6192449487634432 = 11 * 2 ^ 51
  /\ 5629499534213120 = 5 * 2 ^ 50
  /\ int_of_float64 float64_1_5 = 1
  /\ int_of_float64 float64_minus_2_75 = -2
  /\ int_of_float64 float64_5_0 = 5.
Proof. repeat split; reflexivity. Qed.

(** [int(v)] discards the fraction: for a finite value within the range of
    [int] the result is the integer part, towards zero. *)
Lemma int_of_float64_truncates s m e :
  let whole := if 0 <=? e then Z.pos m * 2 ^ e else Z.pos m / 2 ^ (- e) in
  whole < 2 ^ 63 ->
  int_of_float64 (S754_finite s m e) = (if s then - whole else whole)
  /\ (e < 0 -> whole * 2 ^ (- e) <= Z.pos m < (whole + 1) * 2 ^ (- e)).
Proof.
  intros whole Hr. unfold int_of_float64. fold whole.
  assert (0 <= whole).
  { unfold whole. destruct (0 <=? e) eqn:E.
    - apply Z.leb_le in E. apply Z.mul_nonneg_nonneg; [lia|]. apply Z.pow_nonneg. lia.
    - apply Z.leb_gt in E. apply Z.div_pos; [lia|]. apply Z.pow_pos_nonneg; lia. }
  split.
  - destruct s.
    + destruct (Z.leb_spec (- 2 ^ 63) (- whole)); [|lia].
      destruct (Z.ltb_spec (- whole) (2 ^ 63)); [reflexivity|lia].
    + destruct (Z.leb_spec (- 2 ^ 63) whole); [|lia].
      destruct (Z.ltb_spec whole (2 ^ 63)); [reflexivity|lia].
  - intros He. unfold whole. destruct (Z.leb_spec 0 e); [lia|].
    assert (0 < 2 ^ (- e)) by (apply Z.pow_pos_nonneg; lia).
    pose proof (Z.div_mod (Z.pos m) (2 ^ (- e)) ltac:(lia)).
    pose proof (Z.mod_pos_bound (Z.pos m) (2 ^ (- e)) ltac:(lia)).
    nia.
Qed.

Lemma Contains_single t c : strings.Contains t [c] = true <-> In c t.
Proof.
  induction t as [|r t IH]; simpl.
  - split; [discriminate|tauto].
  - replace (strings.HasPrefix t []) with true by (destruct t; reflexivity).
    rewrite orb_true_iff, andb_true_r, Z.eqb_eq, IH. tauto.
Qed.

Lemma take_while_all f l : forallb f l = true -> fmt.take_while f l = l.
Proof.
  induction l as [|r l IH]; simpl; [reflexivity|].
  intros H. apply andb_true_iff in H. destruct H as [Hr Hl].
  rewrite Hr, IH by exact Hl. reflexivity.
Qed.

Lemma digits_no_point t :
  forallb fmt.is_digit (fmt.after_sign t) = true -> ~ In 0x2E t.
Proof.
  assert (Hd : forall l, forallb fmt.is_digit l = true -> ~ In 0x2E l).
  { induction l as [|r l IH]; simpl; [tauto|].
    intros H. apply andb_true_iff in H. destruct H as [Hr Hl].
    intros [->|Hin]; [discriminate|]. exact (IH Hl Hin). }
  destruct t as [|r t]; simpl; [tauto|].
  destruct ((r =? 0x2B) || (r =? 0x2D)) eqn:E.
  - intros H [->|Hin]; [discriminate|]. exact (Hd _ H Hin).
  - intros H. exact (Hd _ H).
Qed.

Lemma Sscanf_d_no_integer t :
  match fmt.after_sign t with
  | [] => True
  | c :: _ => fmt.is_digit c = false
  end ->
  exists e, fmt.Sscanf_d t = inl e.
Proof.
  unfold fmt.Sscanf_d. destruct (fmt.after_sign t) as [|c rest]; simpl.
  - eauto.
  - intros Hd. rewrite Hd. simpl. eauto.
Qed.

Lemma Sscanf_d_integer t :
  fmt.after_sign t <> [] ->
  forallb fmt.is_digit (fmt.after_sign t) = true ->
  let n := if fmt.has_minus t then - fmt.digits_value (fmt.after_sign t)
           else fmt.digits_value (fmt.after_sign t) in
  - 2 ^ 63 <= n < 2 ^ 63 ->
  fmt.Sscanf_d t = inr n.
Proof.
  intros Hne Hd n Hn. unfold fmt.Sscanf_d.
  rewrite take_while_all by exact Hd.
  destruct (fmt.after_sign t) as [|c rest] eqn:E; [contradiction|].
  cbn [is_empty_string]. fold n.
  destruct (Z.leb_spec (- 2 ^ 63) n); [|lia].
  destruct (Z.ltb_spec n (2 ^ 63)); [reflexivity|lia].
Qed.

Section YAMLPriority.

Context {L : GoLibrary}.

Lemma YAMLParser_convertMap_Priority data :
  exists r, YAMLParser_convertMapToCommentData data = (Some r, None)
    /\ Priority r = match map_index data (str "priority") with
                    | Some value => yaml_priority_of value 0
                    | None => 0
                    end.
Proof.
  unfold YAMLParser_convertMapToCommentData. eexists. split; [reflexivity|].
  cbn [Priority set_Metadata].
  destruct (map_index data (str "deprecated")); cbn [Priority set_Deprecated];
    destruct (map_index data (str "priority")); cbn [Priority set_Priority];
    destruct (map_index data (str "tags")) as [tags|];
    try destruct (YAMLParser_convertToStringSlice tags) as [[?|] [?|]];
    reflexivity.
Qed.

(** C8, amended.  When the mapping has a [priority] entry, the YAML parser
    sets the priority as follows: an integer is taken as it is; a floating
    point value is converted with [int(v)], which discards the fraction
    (1.5 gives 1), and is not ignored; a string is trimmed, and then it is
    ignored (priority 0) when it is empty, contains a decimal point, or does
    not begin, after an optional sign, with a digit, and it is converted
    when it is an optionally signed run of decimal digits within the range
    of [int]; any other value leaves priority 0. *)
Theorem yaml_priority_extraction (data : list (gostring * GoValue)) (value : GoValue) :
  map_index data (str "priority") = Some value ->
  exists r, YAMLParser_convertMapToCommentData data = (Some r, None)
    /\ match value with
       | VInt n => Priority r = n
       | VFloat64 f => Priority r = int_of_float64 f
       | VString s =>
         let t := strings.TrimSpace s in
         let digits := fmt.after_sign t in
         (t = [] -> Priority r = 0)
         /\ (In 0x2E t -> Priority r = 0)
         /\ (match digits with
             | [] => True
             | c :: _ => fmt.is_digit c = false
             end -> Priority r = 0)
         /\ (digits <> [] -> forallb fmt.is_digit digits = true ->
             let n := if fmt.has_minus t then - fmt.digits_value digits
                      else fmt.digits_value digits in
             - 2 ^ 63 <= n < 2 ^ 63 -> Priority r = n)
       | _ => Priority r = 0
       end.
Proof.
  intros Hv. destruct (YAMLParser_convertMap_Priority data) as (r & Hr & Hp).
  exists r. split; [exact Hr|]. rewrite Hv in Hp.
  destruct value as [|b|n|f|s|l|l|m]; try exact Hp.
  rewrite Hp. cbn [yaml_priority_of]. unfold parseIntFromString.
  change (str ".") with [0x2E].
  set (t := strings.TrimSpace s). cbv zeta. repeat split.
  - intros ->. reflexivity.
  - intros Hin. destruct t as [|c t']; [reflexivity|]. cbn [is_empty_string].
    rewrite (proj2 (Contains_single (c :: t') 0x2E) Hin). reflexivity.
  - intros Hno. destruct (is_empty_string t); [reflexivity|].
    destruct (strings.Contains t [0x2E]); [reflexivity|].
    destruct (Sscanf_d_no_integer t Hno) as [e He]. rewrite He. reflexivity.
  - intros Hne Hd Hn.
    destruct t as [|c t'] eqn:Et; [contradiction|]. cbn [is_empty_string].
    replace (strings.Contains (c :: t') [0x2E]) with false.
    2:{ symmetry. apply not_true_is_false. intros Hc.
        apply (Contains_single (c :: t') 0x2E) in Hc.
        exact (digits_no_point _ Hd Hc). }
    rewrite (Sscanf_d_integer (c :: t') Hne Hd Hn). reflexivity.
Qed.

End YAMLPriority.

(** On every library, the priority 1.5 becomes 1. *)
Lemma yaml_fractional_priority_any_library `{L : GoLibrary} :
  YAMLParser_convertMapToCommentData [(str "priority", VFloat64 float64_1_5)]
  = (Some (set_Priority 1 CommentData_zero), None).
Proof. reflexivity. Qed.

(** C8, as the specification states it, fails: the fractional value 1.5 is
    not ignored, the priority becomes 1. *)
Lemma yaml_fractional_priority_not_ignored :
  exists r, YAMLParser_convertMapToCommentData (L := sample_library)
              [(str "priority", VFloat64 float64_1_5)] = (Some r, None)
            /\ Priority r = 1 /\ Priority r <> 0.
Proof. eexists. split; [reflexivity|]. split; [reflexivity|discriminate]. Qed.

Lemma yaml_priority_extraction_witness :
  map_index [(str "name", VString (str "n")); (str "priority", VString (str " -42 "))]
    (str "priority") = Some (VString (str " -42 "))
  /\ exists r, YAMLParser_convertMapToCommentData (L := sample_library)
                 [(str "name", VString (str "n")); (str "priority", VString (str " -42 "))]
               = (Some r, None)
               /\ Priority r = -42.
Proof.
  split; [reflexivity|].
  destruct (yaml_priority_extraction (L := sample_library)
              [(str "name", VString (str "n")); (str "priority", VString (str " -42 "))]
              (VString (str " -42 ")) eq_refl) as (r & Hr & _ & _ & _ & H).
  exists r. split; [exact Hr|].
  apply H; [discriminate|reflexivity|].
  vm_compute. split; [intros Hc; discriminate Hc|reflexivity].
Defined.

(** ** The Source field of the three parsers *)

Section SourceField.

Context {L : GoLibrary}.

(** C4, on the code.  A record returned by [ParseComment] has in [Source]
    the input text for the legacy parser, and the text without its leading
    and trailing white space for the JSON and YAML parsers; so the
    structured parsers preserve the text only when it has no white space at
    either end. *)
Theorem ParseComment_Source (v : ParserVariant) (text delimiter : gostring)
  (r : CommentData) :
  CommentParser.CanParse (variant_parser v) text = true ->
  CommentParser.ParseComment (variant_parser v) text delimiter = (Some r, None) ->
  Source r = stored_source v text
  /\ (Source r = text <-> stored_source v text = text).
Proof.
  intros _ Hparse.
  assert (H : Source r = stored_source v text); [|split; [exact H|rewrite H; tauto]].
  destruct v as [p|p|p]; simpl in Hparse.
  - unfold JSONParser_ParseComment in Hparse.
    destruct text as [|c text]; [injection Hparse as <-; reflexivity|].
    cbn [is_empty_string] in Hparse.
    repeat match type of Hparse with
           | (if ?b then _ else _) = _ => destruct b; [discriminate Hparse|]
           | match ?x with _ => _ end = _ => destruct x; try discriminate Hparse
           end.
    injection Hparse as <-. reflexivity.
  - unfold YAMLParser_ParseComment in Hparse.
    destruct text as [|c text]; [injection Hparse as <-; reflexivity|].
    cbn [is_empty_string] in Hparse.
    repeat match type of Hparse with
           | (if ?b then _ else _) = _ => destruct b; [discriminate Hparse|]
           | match ?x with _ => _ end = _ => destruct x; try discriminate Hparse
           end.
    injection Hparse as <-. reflexivity.
  - destruct (LegacyParser_ParseComment_ok p text delimiter) as (d & Hd & Hs).
    rewrite Hd in Hparse. injection Hparse as <-. exact Hs.
Qed.

End SourceField.

(** On every library whose JSON decoder reads the text of an empty object
    as the empty mapping, the JSON parser accepts that text with a leading
    space and stores it without the space. *)
Lemma JSON_Source_without_leading_space `{L : GoLibrary} :
  json_Unmarshal (str "{}") = inr (VMap []) ->
  JSONParser_CanParse NewJSONParser (str " {}") = true
  /\ JSONParser_ParseComment NewJSONParser (str " {}") (str "|")
     = (Some (set_Source (str "{}") CommentData_zero), None).
Proof.
  intros H. unfold JSONParser_ParseComment, JSONParser_CanParse.
  change (strings.TrimSpace (str " {}")) with (str "{}").
  change (strings.TrimSpace (str "{}")) with (str "{}").
  cbn -[str json_Unmarshal]. rewrite H. split; reflexivity.
Qed.

(** The failing input of C4: the JSON parser accepts an empty object with
    a leading space, and stores the text without the space. *)
Lemma ParseComment_Source_witness :
  CommentParser.CanParse (variant_parser (L := sample_library) (VariantJSON NewJSONParser))
    (str " {}") = true
  /\ exists r,
      CommentParser.ParseComment (variant_parser (L := sample_library) (VariantJSON NewJSONParser))
        (str " {}") (str "|") = (Some r, None)
      /\ Source r = str "{}" /\ Source r <> str " {}".
Proof.
  split; [reflexivity|]. eexists. split; [reflexivity|].
  destruct (ParseComment_Source (L := sample_library) (VariantJSON NewJSONParser)
              (str " {}") (str "|") _ eq_refl eq_refl) as [H _].
  split; [exact H|]. rewrite H. discriminate.
Defined.

(** ** Sanitization *)

Lemma TrimLeftSpace_head s : head_not_space (strings.TrimLeftSpace s).
Proof.
  induction s as [|r s IH]; simpl; [exact I|].
  destruct (unicode.IsSpace r) eqn:E; [exact IH|exact E].
Qed.

Lemma TrimLeftSpace_fixed s : head_not_space s -> strings.TrimLeftSpace s = s.
Proof. destruct s as [|r s]; simpl; [reflexivity|]. intros ->. reflexivity. Qed.

Lemma TrimRightSpace_last s : last_not_space (strings.TrimRightSpace s).
Proof.
  induction s as [|r s IH]; intros x; simpl; [discriminate|].
  destruct (strings.TrimRightSpace s) as [|y kept].
  - destruct (unicode.IsSpace r) eqn:E; [discriminate|].
    simpl. intros [= <-]. exact E.
  - rewrite last_cons_cons. apply IH.
Qed.

Lemma TrimRightSpace_fixed s : last_not_space s -> strings.TrimRightSpace s = s.
Proof.
  induction s as [|r s IH]; intros H; simpl; [reflexivity|].
  destruct s as [|y s].
  - simpl. rewrite (H r) by reflexivity. reflexivity.
  - rewrite IH; [reflexivity|]. intros x Hx. apply H. rewrite last_cons_cons. exact Hx.
Qed.

Lemma TrimRightSpace_head s : head_not_space s -> head_not_space (strings.TrimRightSpace s).
Proof.
  destruct s as [|r s]; simpl; [tauto|]. intros E.
  destruct (strings.TrimRightSpace s); [rewrite E|]; exact E.
Qed.

Lemma TrimLeftSpace_In r s : In r (strings.TrimLeftSpace s) -> In r s.
Proof.
  induction s as [|x s IH]; simpl; [tauto|].
  destruct (unicode.IsSpace x); [auto|]. simpl. tauto.
Qed.

Lemma TrimRightSpace_In r s : In r (strings.TrimRightSpace s) -> In r s.
Proof.
  induction s as [|x s IH]; simpl; [tauto|].
  destruct (strings.TrimRightSpace s) as [|y kept].
  - destruct (unicode.IsSpace x); simpl; tauto.
  - simpl in *. intros [->|H]; [auto|right; apply IH; exact H].
Qed.

Lemma TrimSpace_In r s : In r (strings.TrimSpace s) -> In r s.
Proof. intros H. apply TrimLeftSpace_In, TrimRightSpace_In. exact H. Qed.

Lemma TrimSpace_edges s :
  head_not_space (strings.TrimSpace s) /\ last_not_space (strings.TrimSpace s).
Proof.
  split; [apply TrimRightSpace_head, TrimLeftSpace_head|apply TrimRightSpace_last].
Qed.

Lemma TrimSpace_fixed s :
  head_not_space s -> last_not_space s -> strings.TrimSpace s = s.
Proof.
  intros Hh Hl. unfold strings.TrimSpace.
  rewrite (TrimLeftSpace_fixed s Hh). apply TrimRightSpace_fixed. exact Hl.
Qed.

Lemma last_filter (f : rune -> bool) s r :
  last s = Some r -> f r = true -> last (List.filter f s) = Some r.
Proof.
  induction s as [|x s IH]; [discriminate|]. intros Hlast Hf.
  destruct s as [|y s].
  - simpl in Hlast. injection Hlast as ->. simpl. rewrite Hf. reflexivity.
  - rewrite last_cons_cons in Hlast. specialize (IH Hlast Hf).
    change (List.filter f (x :: y :: s))
      with (if f x then x :: List.filter f (y :: s) else List.filter f (y :: s)).
    destruct (f x); [|exact IH]. rewrite last_cons, IH. reflexivity.
Qed.

Lemma re_space_IsSpace r : is_re_space r = true -> unicode.IsSpace r = true.
Proof.
  unfold is_re_space. rewrite !orb_true_iff, !Z.eqb_eq.
  intros [[[[->| ->]| ->]| ->]| ->]; reflexivity.
Qed.

Lemma not_space_not_re_space r : unicode.IsSpace r = false -> is_re_space r = false.
Proof.
  intros H. destruct (is_re_space r) eqn:E; [|reflexivity].
  apply re_space_IsSpace in E. congruence.
Qed.

Lemma replace_space_runs_head s b :
  head_not_space s -> head_not_space (replace_space_runs s b).
Proof.
  destruct s as [|r s]; simpl; [tauto|]. intros E.
  rewrite (not_space_not_re_space r E). exact E.
Qed.

Lemma replace_space_runs_last s b r :
  last s = Some r -> is_re_space r = false -> last (replace_space_runs s b) = Some r.
Proof.
  revert b. induction s as [|x s IH]; intros b Hlast Hr; [discriminate|].
  destruct s as [|y s].
  - simpl in Hlast. injection Hlast as ->. simpl. rewrite Hr. reflexivity.
  - rewrite last_cons_cons in Hlast.
    change (replace_space_runs (x :: y :: s) b)
      with (if is_re_space x
            then (if b then [] else [0x20]) ++ replace_space_runs (y :: s) true
            else x :: replace_space_runs (y :: s) false).
    destruct (is_re_space x).
    + rewrite last_app, (IH true Hlast Hr). reflexivity.
    + rewrite last_cons, (IH false Hlast Hr). reflexivity.
Qed.

Lemma replace_space_runs_In r s b :
  In r (replace_space_runs s b) -> r = 0x20 \/ (In r s /\ is_re_space r = false).
Proof.
  revert b. induction s as [|x s IH]; intros b; simpl; [tauto|].
  destruct (is_re_space x) eqn:E.
  - rewrite in_app_iff. intros [H|H].
    + destruct b; simpl in H; [tauto|]. destruct H as [<-|[]]. auto.
    + destruct (IH _ H) as [?|[? ?]]; auto.
  - simpl. intros [->|H]; [auto|]. destruct (IH _ H) as [?|[? ?]]; auto.
Qed.

Lemma replace_space_runs_idempotent s :
  (forall b, replace_space_runs (replace_space_runs s b) false = replace_space_runs s b)
  /\ replace_space_runs (replace_space_runs s true) true = replace_space_runs s true.
Proof.
  induction s as [|x s [IHa IHb]]; [split; [intros b|]; reflexivity|].
  split.
  - intros b. simpl. destruct (is_re_space x) eqn:E.
    + destruct b; simpl; [apply IHa|]. rewrite IHb. reflexivity.
    + simpl. rewrite E, IHa. reflexivity.
  - simpl. destruct (is_re_space x) eqn:E; simpl; [exact IHb|].
    rewrite E, IHa. reflexivity.
Qed.

Lemma EscapeString_fixed s :
  Forall (fun r => html_special r = false) s -> html.EscapeString s = s.
Proof.
  induction 1 as [|r s Hr Hs IH]; [reflexivity|].
  unfold html.EscapeString in *. simpl. rewrite IH.
  unfold html_special in Hr. rewrite !orb_false_iff in Hr.
  destruct Hr as [[[[H1 H2] H3] H4] H5].
  unfold html.escape_rune. rewrite H1, H2, H3, H4, H5. reflexivity.
Qed.

Section SanitizeString.

Context {L : GoLibrary}.
Variable v : DefaultCommentValidator.

Lemma removeControlChars_In r s :
  In r (removeControlChars s)
  -> In r s /\ (unicode_IsPrint r = true \/ r = 9 \/ r = 10 \/ r = 13).
Proof.
  unfold removeControlChars. intros H. apply filter_In in H. destruct H as [Hin Hk].
  split; [exact Hin|]. rewrite !orb_true_iff, !Z.eqb_eq in Hk. tauto.
Qed.

Lemma removeControlChars_fixed s :
  Forall (fun r => unicode_IsPrint r = true) s -> removeControlChars s = s.
Proof.
  intros H. apply filter_all_true. intros r Hr.
  rewrite (proj1 (List.Forall_forall _ _) H r Hr). reflexivity.
Qed.

Lemma sanitizeString_sanitized s : clean_string v s -> sanitized_string v (sanitizeString v s).
Proof.
  intros [Hclean Hhtml]. unfold sanitizeString.
  destruct s as [|c s']; [repeat split; try constructor; discriminate|].
  cbn [is_empty_string]. set (s := c :: s') in *. clearbody s.
  destruct (TrimSpace_edges s) as [Hh1 Hl1].
  assert (Hin1 : forall r, In r (strings.TrimSpace s) -> clean_rune r).
  { intros r Hr. apply TrimSpace_In in Hr.
    exact (proj1 (List.Forall_forall _ _) Hclean r Hr). }
  set (s1 := strings.TrimSpace s) in *.
  assert (Hkeep : forall r, In r s1 -> unicode.IsSpace r = false ->
                            (unicode_IsPrint r || (r =? 9) || (r =? 10) || (r =? 13)) = true).
  { intros r Hr Hs. destruct (Hin1 r Hr) as [Hp|Hp]; [rewrite Hp; reflexivity|congruence]. }
  assert (Hh2 : head_not_space (removeControlChars s1)).
  { destruct s1 as [|r s1']; [exact I|]. simpl in Hh1. unfold removeControlChars. simpl.
    rewrite (Hkeep r (or_introl eq_refl) Hh1). exact Hh1. }
  assert (Hl2 : last_not_space (removeControlChars s1)).
  { intros x Hx. destruct (last s1) as [r0|] eqn:E.
    - pose proof (Hl1 r0 E) as Hs. unfold removeControlChars in Hx.
      rewrite (last_filter _ s1 r0 E) in Hx.
      + injection Hx as <-. exact Hs.
      + apply Hkeep; [|exact Hs]. apply list_elem_of_In, last_Some_elem_of. exact E.
    - apply last_None in E. rewrite E in Hx. discriminate Hx. }
  assert (Hin2 : forall r, In r (removeControlChars s1) ->
                           In r s /\ (unicode_IsPrint r = true \/ r = 9 \/ r = 10 \/ r = 13)).
  { intros r Hr. apply removeControlChars_In in Hr. destruct Hr as [Hr Hk].
    split; [apply TrimSpace_In; exact Hr|exact Hk]. }
  set (s2 := removeControlChars s1) in *.
  assert (Hesc : (if EnableHTMLEscape (config v) then html.EscapeString s2 else s2) = s2).
  { destruct (EnableHTMLEscape (config v)); [|reflexivity].
    apply EscapeString_fixed. apply List.Forall_forall. intros r Hr.
    exact (proj1 (List.Forall_forall _ _) (Hhtml eq_refl) r (proj1 (Hin2 r Hr))). }
  rewrite Hesc. repeat split.
  - apply replace_space_runs_head. exact Hh2.
  - intros x Hx. destruct (last s2) as [r0|] eqn:E.
    + pose proof (Hl2 r0 E) as Hs.
      rewrite (replace_space_runs_last s2 false r0 E (not_space_not_re_space r0 Hs)) in Hx.
      injection Hx as <-. exact Hs.
    + apply last_None in E. rewrite E in Hx. discriminate Hx.
  - apply List.Forall_forall. intros r Hr.
    apply replace_space_runs_In in Hr. destruct Hr as [->|[Hr Hre]]; [reflexivity|].
    destruct (Hin2 r Hr) as [_ [Hp|[->|[->| ->]]]]; [exact Hp|discriminate..].
  - intros Hon. apply List.Forall_forall. intros r Hr.
    apply replace_space_runs_In in Hr. destruct Hr as [->|[Hr Hre]]; [reflexivity|].
    exact (proj1 (List.Forall_forall _ _) (Hhtml Hon) r (proj1 (Hin2 r Hr))).
  - apply replace_space_runs_idempotent.
Qed.

Lemma sanitizeString_fixed s : sanitized_string v s -> sanitizeString v s = s.
Proof.
  intros (Hh & Hl & Hp & Hhtml & Hrun). unfold sanitizeString.
  destruct (is_empty_string s) eqn:E; [reflexivity|].
  rewrite (TrimSpace_fixed s Hh Hl), (removeControlChars_fixed s Hp).
  destruct (EnableHTMLEscape (config v)); [|exact Hrun].
  rewrite (EscapeString_fixed s (Hhtml eq_refl)). exact Hrun.
Qed.

Lemma sanitizeString_idempotent s :
  clean_string v s -> sanitizeString v (sanitizeString v s) = sanitizeString v s.
Proof. intros H. apply sanitizeString_fixed, sanitizeString_sanitized. exact H. Qed.

End SanitizeString.

Section SanitizeRecord.

Context {L : GoLibrary}.
Variable v : DefaultCommentValidator.

Lemma MapRange_ok_empty (o : MapRange) : MapRange_ok o -> o ∅ = [].
Proof.
  intros Ho. apply Permutation_nil. symmetry.
  rewrite <- (map_to_list_empty (K := list Z) (A := list Z)). apply Ho.
Qed.

Lemma MapRange_ok_In (o : MapRange) m k x :
  MapRange_ok o -> In (k, x) (o m) <-> m !! k = Some x.
Proof.
  intros Ho. rewrite <- list_elem_of_In, (Ho m). apply elem_of_map_to_list.
Qed.

Lemma CommentData_eq (a b : CommentData) :
  LogicalName a = LogicalName b -> Description a = Description b ->
  Tags a = Tags b -> Metadata a = Metadata b -> Priority a = Priority b ->
  Deprecated a = Deprecated b -> Source a = Source b -> a = b.
Proof. destruct a, b; simpl; intros; subst; reflexivity. Qed.

Lemma Sanitize_value_LogicalName o r :
  LogicalName (Sanitize_value v o r) = sanitizeString v (LogicalName r).
Proof.
  unfold Sanitize_value. rewrite Clone_value_id. destruct r as [ln d tags md pr dep src].
  destruct (0 <? length _)%nat; destruct (0 <? size _)%nat; reflexivity.
Qed.

Lemma Sanitize_value_fields o r :
  MapRange_ok o ->
  Sanitize_value v o r
  = {| LogicalName := sanitizeString v (LogicalName r);
       Description := sanitizeString v (Description r);
       Tags := sanitize_tags v (Tags r);
       Metadata := sanitize_metadata v (o (Metadata r));
       Priority := Priority r;
       Deprecated := Deprecated r;
       Source := Source r |}.
Proof.
  intros Ho. unfold Sanitize_value. rewrite Clone_value_id.
  destruct r as [ln d tags md pr dep src].
  apply CommentData_eq; cbn [LogicalName Description Tags Metadata Priority Deprecated Source].
  - destruct (0 <? length _)%nat; destruct (0 <? size _)%nat; reflexivity.
  - destruct (0 <? length _)%nat; destruct (0 <? size _)%nat; reflexivity.
  - destruct tags; destruct (0 <? size _)%nat; reflexivity.
  - destruct (0 <? size _)%nat eqn:E.
    + destruct tags; reflexivity.
    + apply Nat.ltb_ge in E.
      assert (Hmd : md = ∅).
      { apply map_size_empty_iff. revert E. destruct tags; cbn; lia. }
      rewrite Hmd, (MapRange_ok_empty o Ho). destruct tags; reflexivity.
  - destruct (0 <? length _)%nat; destruct (0 <? size _)%nat; reflexivity.
  - destruct (0 <? length _)%nat; destruct (0 <? size _)%nat; reflexivity.
  - destruct (0 <? length _)%nat; destruct (0 <? size _)%nat; reflexivity.
Qed.

Lemma sanitize_tags_idempotent tags :
  Forall (clean_string v) tags ->
  sanitize_tags v (sanitize_tags v tags) = sanitize_tags v tags.
Proof.
  unfold sanitize_tags. induction 1 as [|t tags Ht Htags IH]; [reflexivity|].
  simpl. destruct (is_empty_string (sanitizeString v t)) eqn:E; simpl; [exact IH|].
  rewrite (sanitizeString_idempotent v t Ht), E. simpl. f_equal. exact IH.
Qed.

Lemma sanitize_metadata_foldl entries :
  sanitize_metadata v entries = foldl (sanitize_entry v) ∅ entries.
Proof.
  unfold sanitize_metadata. f_equal.
Qed.

Lemma sanitize_entries_invariant (Q : gostring -> gostring -> Prop) entries m0 :
  (forall k x, m0 !! k = Some x -> Q k x) ->
  (forall k0 x0, In (k0, x0) entries ->
                 is_empty_string (sanitizeString v k0) = false ->
                 is_empty_string (sanitizeString v x0) = false ->
                 Q (sanitizeString v k0) (sanitizeString v x0)) ->
  forall k x, foldl (sanitize_entry v) m0 entries !! k = Some x -> Q k x.
Proof.
  revert m0. induction entries as [|[k0 x0] entries IH]; intros m0 H0 Hent; simpl.
  - exact H0.
  - apply IH.
    + destruct (is_empty_string (sanitizeString v k0)) eqn:Ek; simpl; [exact H0|].
      destruct (is_empty_string (sanitizeString v x0)) eqn:Ex; simpl; [exact H0|].
      intros k x. rewrite lookup_insert. case_decide as Hk.
      * intros [= <-]. subst k. apply Hent; [left; reflexivity|assumption..].
      * apply H0.
    + intros k1 x1 Hin. apply Hent. right. exact Hin.
Qed.

Lemma sanitize_entries_fixed entries m0 :
  (forall k x, In (k, x) entries ->
               sanitizeString v k = k /\ sanitizeString v x = x
               /\ is_empty_string k = false /\ is_empty_string x = false) ->
  foldl (sanitize_entry v) m0 entries = foldl (fun m p => <[p.1 := p.2]> m) m0 entries.
Proof.
  revert m0. induction entries as [|[k0 x0] entries IH]; intros m0 H; simpl; [reflexivity|].
  destruct (H k0 x0 (or_introl eq_refl)) as (-> & -> & -> & ->). simpl.
  apply IH. intros k x Hin. apply H. right. exact Hin.
Qed.

Lemma foldl_insert_list_to_map (l : list (gostring * gostring)) :
  foldl (fun m p => <[p.1 := p.2]> m) (∅ : gmap gostring gostring) l
  = list_to_map (reverse l).
Proof.
  induction l as [|p l IH] using rev_ind; [reflexivity|].
  rewrite foldl_app, reverse_app. simpl. rewrite IH. reflexivity.
Qed.

Lemma foldl_insert_range (o : MapRange) (m : gmap gostring gostring) :
  MapRange_ok o -> foldl (fun m p => <[p.1 := p.2]> m) ∅ (o m) = m.
Proof.
  intros Ho. rewrite foldl_insert_list_to_map.
  rewrite <- (list_to_map_to_list m) at 2.
  apply list_to_map_proper.
  - rewrite fmap_reverse, reverse_Permutation, (Ho m). apply NoDup_fst_map_to_list.
  - rewrite reverse_Permutation. apply Ho.
Qed.

(** C5, amended.  On a record whose strings are made of printable
    characters and white space only and, when HTML escaping is enabled,
    contain none of the five characters that it escapes, sanitizing twice
    gives the same record as sanitizing once, whatever the orders in which
    the two passes visit the metadata. *)
Theorem Sanitize_idempotent_on_clean (o1 o2 : MapRange) (r : CommentData) :
  MapRange_ok o1 -> MapRange_ok o2 -> clean_record v r ->
  Sanitize v o2 (Sanitize v o1 (Some r)) = Sanitize v o1 (Some r).
Proof.
  intros Ho1 Ho2 (Hln & Hd & Htags & Hmd). simpl. f_equal.
  rewrite (Sanitize_value_fields o1 r Ho1), (Sanitize_value_fields o2 _ Ho2).
  cbn [LogicalName Description Tags Metadata Priority Deprecated Source].
  rewrite (sanitizeString_idempotent v _ Hln), (sanitizeString_idempotent v _ Hd),
    (sanitize_tags_idempotent _ Htags).
  f_equal.
  set (m1 := sanitize_metadata v (o1 (Metadata r))).
  rewrite sanitize_metadata_foldl, sanitize_entries_fixed.
  - apply foldl_insert_range. exact Ho2.
  - intros k x Hin. apply (MapRange_ok_In o2 m1 k x Ho2) in Hin.
    unfold m1 in Hin. rewrite sanitize_metadata_foldl in Hin.
    revert k x Hin. apply sanitize_entries_invariant.
    + intros k x Hk. rewrite lookup_empty in Hk. discriminate Hk.
    + intros k0 x0 Hin Ek Ex.
      apply (MapRange_ok_In o1 _ k0 x0 Ho1) in Hin. destruct (Hmd k0 x0 Hin) as [Hck Hcx].
      rewrite (sanitizeString_idempotent v _ Hck), (sanitizeString_idempotent v _ Hcx).
      auto.
Qed.

End SanitizeRecord.

Lemma canonical_range_ok : MapRange_ok canonical_range.
Proof. intros m. reflexivity. Qed.

(** Whatever the library and the orders of the map loops, a validator with
    HTML escaping enabled escapes the ampersand again on the second pass. *)
Lemma Sanitize_html_twice `{L : GoLibrary} (v : DefaultCommentValidator) (o1 o2 : MapRange) :
  EnableHTMLEscape (config v) = true ->
  LogicalName <$> Sanitize v o1 (Some html_sample) = Some (str "a&amp;b")
  /\ LogicalName <$> Sanitize v o2 (Sanitize v o1 (Some html_sample))
     = Some (str "a&amp;amp;b").
Proof.
  intros H. cbn [Sanitize fmap option_fmap option_map].
  rewrite !Sanitize_value_LogicalName. cbn [LogicalName html_sample set_LogicalName].
  unfold sanitizeString. rewrite H. split; reflexivity.
Qed.

(** C5, as the specification states it, fails: with HTML escaping enabled,
    the logical name [a&b] is sanitized to [a&amp;b], and sanitizing that
    again gives [a&amp;amp;b]. *)
Lemma Sanitize_not_idempotent_with_html :
  LogicalName <$> Sanitize (NewDefaultCommentValidator (L := sample_library))
                    canonical_range (Some html_sample)
  = Some (str "a&amp;b")
  /\ LogicalName <$> Sanitize (NewDefaultCommentValidator (L := sample_library))
                       canonical_range
                       (Sanitize (NewDefaultCommentValidator (L := sample_library))
                          canonical_range (Some html_sample))
     = Some (str "a&amp;amp;b")
  /\ Sanitize (NewDefaultCommentValidator (L := sample_library)) canonical_range
       (Sanitize (NewDefaultCommentValidator (L := sample_library))
          canonical_range (Some html_sample))
     <> Sanitize (NewDefaultCommentValidator (L := sample_library)) canonical_range
          (Some html_sample).
Proof.
  destruct (Sanitize_html_twice (L := sample_library)
              (NewDefaultCommentValidator (L := sample_library))
              canonical_range canonical_range eq_refl) as [H1 H2].
  split; [exact H1|]. split; [exact H2|].
  intros Heq. rewrite Heq, H1 in H2. discriminate H2.
Qed.

(** Without HTML escaping, a control character in front of white space is
    enough: the first pass removes the character and leaves the space, the
    second pass trims it. *)
Example Sanitize_not_idempotent_control_character :
  sanitizeString (NewDefaultCommentValidatorWithConfig (L := sample_library)
                    PermissiveValidationConfig) [0; 0x20; 0x61]
  = [0x20; 0x61]
  /\ sanitizeString (NewDefaultCommentValidatorWithConfig (L := sample_library)
                       PermissiveValidationConfig) [0x20; 0x61]
     = [0x61].
Proof. split; reflexivity. Qed.

Lemma Sanitize_idempotent_on_clean_witness :
  MapRange_ok canonical_range
  /\ clean_record (L := sample_library) (NewDefaultCommentValidator (L := sample_library))
       clean_sample
  /\ Sanitize (NewDefaultCommentValidator (L := sample_library)) canonical_range
       (Sanitize (NewDefaultCommentValidator (L := sample_library)) canonical_range
          (Some clean_sample))
     = Sanitize (NewDefaultCommentValidator (L := sample_library)) canonical_range
         (Some clean_sample)
  /\ (LogicalName <$> Sanitize (NewDefaultCommentValidator (L := sample_library))
                        canonical_range (Some clean_sample))
     = Some (str "User name").
Proof.
  assert (Hclean : clean_record (L := sample_library)
                     (NewDefaultCommentValidator (L := sample_library)) clean_sample).
  { assert (Hs : forall s,
               forallb (fun r => (unicode_IsPrint r || unicode.IsSpace r)
                                 && negb (html_special r)) s = true ->
               clean_string (NewDefaultCommentValidator (L := sample_library)) s).
    { intros s Hs. split; [|intros _]; apply List.Forall_forall; intros r Hr;
        apply (proj1 (forallb_forall _ _) Hs) in Hr;
        apply andb_true_iff in Hr; destruct Hr as [Hp Hh].
      - apply orb_true_iff in Hp. exact Hp.
      - apply negb_true_iff in Hh. exact Hh. }
    unfold clean_record.
    split; [apply Hs; reflexivity|]. split; [apply Hs; reflexivity|].
    split; [repeat constructor; apply Hs; reflexivity|].
    intros k x H. cbn [Metadata clean_sample] in H.
    apply lookup_singleton_Some in H. destruct H as [<- <-].
    split; apply Hs; reflexivity. }
  split; [exact canonical_range_ok|]. split; [exact Hclean|].
  split; [|reflexivity].
  apply (Sanitize_idempotent_on_clean (L := sample_library)
           (NewDefaultCommentValidator (L := sample_library))
           canonical_range canonical_range clean_sample
           canonical_range_ok canonical_range_ok Hclean).
Defined.

(** ** The object type annotation *)

Lemma prompt_schedule_ok : Schedule_ok prompt_schedule.
Proof. repeat split; apply canonical_range_ok. Qed.

Section ObjectType.

Context {L : GoLibrary}.

Lemma sanitizeString_object_type_key v :
  sanitizeString v object_type_key = object_type_key.
Proof.
  unfold sanitizeString. destruct (EnableHTMLEscape (config v)); reflexivity.
Qed.

Lemma sanitize_entries_lookup v (T : gostring) entries m0 :
  sanitizeString v T = T -> T <> [] ->
  (forall k x, In (k, x) entries -> sanitizeString v k = object_type_key ->
               k = object_type_key /\ x = T) ->
  In (object_type_key, T) entries \/ m0 !! object_type_key = Some T ->
  foldl (sanitize_entry v) m0 entries !! object_type_key = Some T.
Proof.
  intros HT HTne. revert m0.
  induction entries as [|[k x] entries IH]; intros m0 Hcol Hin; simpl.
  - destruct Hin as [[]|Hin]. exact Hin.
  - apply IH; [intros k1 x1 H1; apply Hcol; right; exact H1|].
    destruct Hin as [[Heq|Hin]|Hin]; [|left; exact Hin|].
    + injection Heq as -> ->. right.
      rewrite sanitizeString_object_type_key, HT.
      destruct T; [contradiction|]. cbn. apply lookup_insert_eq.
    + right.
      destruct (negb (is_empty_string (sanitizeString v k))
                && negb (is_empty_string (sanitizeString v x))) eqn:E; [|exact Hin].
      destruct (decide (sanitizeString v k = object_type_key)) as [Hk|Hk].
      * destruct (Hcol k x (or_introl eq_refl) Hk) as [-> ->].
        rewrite Hk, HT. apply lookup_insert_eq.
      * rewrite lookup_insert_ne by exact Hk. exact Hin.
Qed.

Lemma Sanitize_value_object_type v (o : MapRange) (r : CommentData) (T : gostring) :
  MapRange_ok o ->
  Metadata r !! object_type_key = Some T ->
  sanitizeString v T = T -> T <> [] ->
  (forall k x, Metadata r !! k = Some x -> sanitizeString v k = object_type_key ->
               k = object_type_key) ->
  Metadata (Sanitize_value v o r) !! object_type_key = Some T.
Proof.
  intros Ho HT Hfix Hne Hcol.
  rewrite (Sanitize_value_fields v o r Ho). cbn [Metadata].
  rewrite sanitize_metadata_foldl. apply sanitize_entries_lookup; [exact Hfix|exact Hne| |].
  - intros k x Hin Hk. apply (MapRange_ok_In o _ k x Ho) in Hin.
    pose proof (Hcol k x Hin Hk) as ->. split; [reflexivity|congruence].
  - left. apply (MapRange_ok_In o _ _ _ Ho). exact HT.
Qed.

(** C3, amended.  For non-empty text that the registry parses, whenever
    [ProcessCommentWithValidation] returns without error, the metadata of
    the returned record have [object_type] equal to the object type [T],
    provided that, when a validator is set and sanitization is enabled,
    sanitization leaves [T] unchanged and non-empty (as it does for the
    eight object types) and no other metadata key of the parsed record is
    sanitized to [object_type]. *)
Theorem object_type_annotation (p : EnhancedCommentProcessor) (s : Schedule)
  (comment delimiter T : gostring) (parsed r : CommentData) :
  Schedule_ok s ->
  comment <> [] ->
  ParseWithFallback (registry p) comment (effective_delimiter p delimiter)
  = (Some parsed, None) ->
  (forall v, validator p = Some v -> EnableSanitization (pconfig p) = true ->
             sanitizeString v T = T /\ T <> []
             /\ forall k x, Metadata parsed !! k = Some x ->
                            sanitizeString v k = object_type_key -> k = object_type_key) ->
  ProcessCommentWithValidation p s comment delimiter T = (Some r, None) ->
  Metadata r !! object_type_key = Some T.
Proof.
  intros (Ho1 & Ho2 & Ho3) Hne Hparse Hsan.
  unfold ProcessCommentWithValidation, ProcessComment.
  destruct comment as [|c comment]; [contradiction|]. cbn [is_empty_string].
  fold (effective_delimiter p delimiter).
  destruct (select_case s); [|discriminate].
  unfold processCommentInternal. rewrite Hparse.
  set (pre := set_Metadata (<[str "object_type" := T]> (Metadata parsed)) parsed).
  assert (Hpre : Metadata pre !! object_type_key = Some T) by apply lookup_insert_eq.
  assert (Hs : forall v o, validator p = Some v -> EnableSanitization (pconfig p) = true ->
                           MapRange_ok o ->
                           Metadata (Sanitize_value v o pre) !! object_type_key = Some T).
  { intros v o Hv Hen Ho. destruct (Hsan v Hv Hen) as (Hfix & HTne & Hcol).
    apply Sanitize_value_object_type; try assumption.
    intros k x Hk Hsk. unfold pre in Hk. cbn [Metadata set_Metadata] in Hk.
    destruct (decide (k = object_type_key)) as [->|Hkne]; [reflexivity|].
    rewrite lookup_insert_ne in Hk by (intros Heq; apply Hkne; symmetry; exact Heq).
    exact (Hcol k x Hk Hsk). }
  destruct (validator p) as [v|] eqn:Hv.
  2:{ intros [= <-]. exact Hpre. }
  destruct (EnableValidation (pconfig p)), (EnableSanitization (pconfig p)) eqn:Hen.
  - unfold ValidateAndSanitize. cbn [Sanitize].
    destruct (Validate v (range_validate s) _).
    + destruct (StrictMode (pconfig p)); [discriminate|].
      intros [= <-]. apply Hs; auto.
    + intros [= <-]. apply Hs; auto.
  - destruct (Validate v (range_validate s) (Some pre)).
    + destruct (StrictMode (pconfig p)); [discriminate|]. intros [= <-]. exact Hpre.
    + intros [= <-]. exact Hpre.
  - cbn [Sanitize]. intros [= <-]. apply Hs; auto.
  - intros [= <-]. exact Hpre.
Qed.

End ObjectType.

(** C3, as the specification states it, fails: on empty text, and on text
    that no parser can parse in lenient mode, the call returns without
    error and the record has no [object_type]. *)
Lemma object_type_missing :
  (exists r, ProcessCommentWithValidation (L := sample_library)
               (NewEnhancedCommentProcessor (L := sample_library)) prompt_schedule
               [] (str "|") ObjectTypeTable = (Some r, None)
             /\ Metadata r !! object_type_key = None)
  /\ (exists r, ProcessCommentWithValidation (L := sample_library)
                  failing_processor prompt_schedule
                  (str "text") (str "|") ObjectTypeTable = (Some r, None)
                /\ Metadata r !! object_type_key = None).
Proof.
  split; eexists; (split; [vm_compute; reflexivity|reflexivity]).
Qed.

Lemma object_type_annotation_witness :
  Schedule_ok prompt_schedule
  /\ exists r, ProcessCommentWithValidation (L := sample_library)
                 permissive_processor prompt_schedule
                 (str "論理名|説明文") [] ObjectTypeColumn = (Some r, None)
               /\ LogicalName r = str "論理名"
               /\ Metadata r !! object_type_key = Some ObjectTypeColumn.
Proof.
  split; [exact prompt_schedule_ok|].
  eexists. split; [vm_compute; reflexivity|]. split; [reflexivity|].
  eapply (object_type_annotation (L := sample_library) permissive_processor
            prompt_schedule (str "論理名|説明文") [] ObjectTypeColumn).
  - exact prompt_schedule_ok.
  - discriminate.
  - vm_compute. reflexivity.
  - intros v [= <-] _. split; [reflexivity|]. split; [discriminate|].
    intros k x Hk. change ((∅ : gmap (list Z) (list Z)) !! k = Some x) in Hk.
    rewrite lookup_empty in Hk. discriminate Hk.
  - vm_compute. reflexivity.
Defined.

(** ** Strict and lenient mode *)

Section StrictLenient.

Context {L : GoLibrary}.

Lemma Sanitize_value_empty v o comment :
  Sanitize_value v o (CommentData_with_source comment) = CommentData_with_source comment.
Proof. reflexivity. Qed.

Lemma Validate_empty v o comment :
  Validate v o (Some (CommentData_with_source comment)) = None.
Proof. reflexivity. Qed.

(** What follows [ProcessComment] in [ProcessCommentWithValidation], on the
    empty record: the record comes back, in both modes. *)
Lemma validation_of_empty p s comment delimiter T :
  ProcessComment p (select_case s) comment delimiter T
  = (Some (CommentData_with_source comment), None) ->
  ProcessCommentWithValidation p s comment delimiter T
  = (Some (CommentData_with_source comment), None).
Proof.
  intros H. unfold ProcessCommentWithValidation. rewrite H.
  destruct (validator p) as [v|]; [|reflexivity].
  destruct (EnableValidation (pconfig p)), (EnableSanitization (pconfig p));
    reflexivity.
Qed.

(** C2, amended.  Take a call of [ProcessCommentWithValidation] that,
    with [StrictMode] on, returns a parse or validation error, and the same
    call on the same processor with [StrictMode] off.  When the worker
    answers before the timer, the lenient call returns a record and no
    error: after a parse failure the empty record for the comment, after a
    validation failure the sanitized record when sanitization is enabled
    and the record before validation otherwise.  When the timer fires
    first, the lenient call returns no record and the timeout error. *)
Theorem strict_lenient_contract (p : EnhancedCommentProcessor) (s s' : Schedule)
  (comment delimiter T : gostring) (e : error) :
  snd (ProcessCommentWithValidation (with_StrictMode true p) s comment delimiter T)
  = Some e ->
  is_parse_failure e \/ is_validation_failure e ->
  (select_case s' = result_received ->
   exists r,
     ProcessCommentWithValidation (with_StrictMode false p) s' comment delimiter T
     = (Some r, None)
     /\ (is_parse_failure e ->
         r = CommentData_with_source comment
         /\ r = {| LogicalName := []; Description := []; Tags := []; Metadata := ∅;
                   Priority := 0; Deprecated := false; Source := comment |}
         /\ IsEmpty (Some r) = true)
     /\ (is_validation_failure e ->
         exists parsed v,
           ParseWithFallback (registry p) comment (effective_delimiter p delimiter)
           = (Some parsed, None)
           /\ validator p = Some v
           /\ if EnableSanitization (pconfig p)
              then r = Sanitize_value v (range_sanitize s') (annotated parsed T)
                   \/ r = Sanitize_value v (range_sanitize_again s') (annotated parsed T)
              else r = annotated parsed T
                   /\ Metadata r = <[str "object_type" := T]> (Metadata parsed)
                   /\ LogicalName r = LogicalName parsed
                   /\ Description r = Description parsed
                   /\ Tags r = Tags parsed
                   /\ Source r = Source parsed))
  /\ (select_case s' = timer_fired ->
      ProcessCommentWithValidation (with_StrictMode false p) s' comment delimiter T
      = (None, Some (fmt_Errorf "comment processing timeout after %d ms"
                       [ArgInt (ProcessingTimeout (pconfig p))] None))).
Proof.
  intros Hstrict Hkind.
  destruct comment as [|c comment].
  { rewrite (validation_of_empty (with_StrictMode true p) s [] delimiter T eq_refl)
      in Hstrict. discriminate Hstrict. }
  set (text := c :: comment) in *.
  assert (Hpc : forall b sel,
             ProcessComment (with_StrictMode b p) sel text delimiter T
             = match sel with
               | result_received =>
                 processCommentInternal (with_StrictMode b p) text
                   (effective_delimiter p delimiter) T
               | timer_fired =>
                 (None, Some (fmt_Errorf "comment processing timeout after %d ms"
                                [ArgInt (ProcessingTimeout (pconfig p))] None))
               end) by (intros b []; reflexivity).
  split; intros Hsel'.
  2:{ unfold ProcessCommentWithValidation. rewrite Hpc, Hsel'. reflexivity. }
  unfold ProcessCommentWithValidation in *. rewrite Hpc in *. rewrite Hsel'.
  destruct (select_case s).
  2:{ simpl in Hstrict. injection Hstrict as <-.
      destruct Hkind as [[cause H]|[cause H]]; discriminate H. }
  unfold processCommentInternal in *.
  cbn [registry validator pconfig with_StrictMode] in *.
  replace (EnableValidation (set_StrictMode true (pconfig p)))
    with (EnableValidation (pconfig p)) in * by reflexivity.
  replace (EnableValidation (set_StrictMode false (pconfig p)))
    with (EnableValidation (pconfig p)) in * by reflexivity.
  replace (EnableSanitization (set_StrictMode true (pconfig p)))
    with (EnableSanitization (pconfig p)) in * by reflexivity.
  replace (EnableSanitization (set_StrictMode false (pconfig p)))
    with (EnableSanitization (pconfig p)) in * by reflexivity.
  cbn [StrictMode set_StrictMode] in *.
  destruct (ParseWithFallback_total (registry p) text (effective_delimiter p delimiter))
    as [[parsed Hparse]|[perr Hparse]]; rewrite Hparse in *.
  - (* the text is parsed; only validation can fail *)
    fold (annotated parsed T) in *.
    destruct (validator p) as [v|]; [|discriminate Hstrict].
    destruct (EnableValidation (pconfig p)), (EnableSanitization (pconfig p));
      try discriminate Hstrict.
    + unfold ValidateAndSanitize in *. cbn [Sanitize] in *.
      destruct (Validate v (range_validate s) _) as [verr|]; [|discriminate Hstrict].
      simpl in Hstrict. injection Hstrict as <-.
      destruct (Validate v (range_validate s') _) as [verr'|].
      * eexists. split; [reflexivity|]. split.
        -- intros [cause H]. discriminate H.
        -- intros _. exists parsed, v. auto.
      * eexists. split; [reflexivity|]. split.
        -- intros [cause H]. discriminate H.
        -- intros _. exists parsed, v. auto.
    + destruct (Validate v (range_validate s) _) as [verr|]; [|discriminate Hstrict].
      simpl in Hstrict. injection Hstrict as <-.
      destruct (Validate v (range_validate s') _) as [verr'|].
      * eexists. split; [reflexivity|]. split.
        -- intros [cause H]. discriminate H.
        -- intros _. exists parsed, v. repeat split; reflexivity.
      * eexists. split; [reflexivity|]. split.
        -- intros [cause H]. discriminate H.
        -- intros _. exists parsed, v. repeat split; reflexivity.
  - (* no parser succeeds *)
    simpl in Hstrict. injection Hstrict as <-.
    exists (CommentData_with_source text). split.
    + destruct (validator p) as [v|]; [|reflexivity].
      destruct (EnableValidation (pconfig p)), (EnableSanitization (pconfig p));
        reflexivity.
    + split; [intros _; repeat split; reflexivity|].
      intros [cause H]. discriminate H.
Qed.

End StrictLenient.

(** On every library and every processor, the record for the empty text is
    the empty record: it has no metadata. *)
Lemma empty_text_not_annotated `{L : GoLibrary} (p : EnhancedCommentProcessor)
  (s : Schedule) (delimiter T : gostring) :
  ProcessCommentWithValidation p s [] delimiter T = (Some (CommentData_with_source []), None).
Proof. apply validation_of_empty. reflexivity. Qed.

(** C2, as the specification states it, fails: the timer of
    [ProcessComment] does not look at [StrictMode].  On a logical name of
    101 letters the strict call returns a validation error, and the lenient
    call on the same processor, when the timer fires before the worker
    answers, returns the timeout error and no record. *)
Lemma lenient_call_times_out :
  (exists e,
     snd (ProcessCommentWithValidation (L := sample_library)
            (with_StrictMode true (NewEnhancedCommentProcessor (L := sample_library)))
            prompt_schedule long_name (str "|") ObjectTypeColumn) = Some e
     /\ is_validation_failure e)
  /\ ProcessCommentWithValidation (L := sample_library)
       (with_StrictMode false (NewEnhancedCommentProcessor (L := sample_library)))
       late_schedule long_name (str "|") ObjectTypeColumn
     = (None, Some (fmt_Errorf "comment processing timeout after %d ms"
                      [ArgInt 1000] None)).
Proof.
  split; [|reflexivity].
  eexists. split; [vm_compute; reflexivity|]. eexists. reflexivity.
Qed.

Lemma strict_lenient_contract_witness :
  exists e,
    snd (ProcessCommentWithValidation (L := sample_library)
           (with_StrictMode true (NewEnhancedCommentProcessor (L := sample_library)))
           prompt_schedule long_name (str "|") ObjectTypeColumn) = Some e
    /\ is_validation_failure e
    /\ (exists r,
         ProcessCommentWithValidation (L := sample_library)
           (with_StrictMode false (NewEnhancedCommentProcessor (L := sample_library)))
           prompt_schedule long_name (str "|") ObjectTypeColumn = (Some r, None)
         /\ LogicalName r = long_name)
    /\ ProcessCommentWithValidation (L := sample_library)
         (with_StrictMode false (NewEnhancedCommentProcessor (L := sample_library)))
         late_schedule long_name (str "|") ObjectTypeColumn
       = (None, Some (fmt_Errorf "comment processing timeout after %d ms"
                        [ArgInt 1000] None)).
Proof.
  eexists. split; [vm_compute; reflexivity|].
  assert (Hv : is_validation_failure
                 (fmt_Errorf "validation failed: %w" []
                    (Some (CommentValidationError (literal "logical_name")
                             (Sprintf "%s" [ArgString long_name])
                             (Sprintf "logical name too long (max: %d)" [ArgInt 100])
                             (Some ErrLogicalNameTooLong)))))
    by (eexists; reflexivity).
  split; [exact Hv|]. split.
  - destruct (strict_lenient_contract (L := sample_library)
                (NewEnhancedCommentProcessor (L := sample_library))
                prompt_schedule prompt_schedule long_name (str "|") ObjectTypeColumn
                _ eq_refl (or_intror Hv)) as [H _].
    destruct (H eq_refl) as (r & Hr & _).
    exists r. split; [exact Hr|].
    vm_compute in Hr. injection Hr as <-. reflexivity.
  - destruct (strict_lenient_contract (L := sample_library)
                (NewEnhancedCommentProcessor (L := sample_library))
                prompt_schedule late_schedule long_name (str "|") ObjectTypeColumn
                _ eq_refl (or_intror Hv)) as [_ H].
    exact (H eq_refl).
Defined.

(** * Further properties

    Properties read off the code: edge cases, invariants, and how the
    operations compose. *)

(** ** The registry: registration and lookup *)

Lemma insert_parser_Permutation parser ps :
  insert_parser parser ps ≡ₚ parser :: ps.
Proof.
  induction ps as [|q ps IH]; simpl; [reflexivity|].
  destruct (_ <? _); [reflexivity|].
  rewrite IH. apply Permutation_swap.
Qed.

(** X1.  Registering a parser adds that parser and nothing else: the registry
    afterwards holds the new parser and the parsers it held before, each as
    often as before, and [Count] is one more.  Registering nil changes
    nothing. *)
Theorem RegisterParser_keeps_all (r : DefaultParserRegistry) (parser : CommentParser.t) :
  parsers (RegisterParser r (Some parser)) ≡ₚ parser :: parsers r
  /\ Count (RegisterParser r (Some parser)) = Count r + 1
  /\ RegisterParser r None = r.
Proof.
  split; [apply insert_parser_Permutation|]. split; [|reflexivity].
  unfold Count. simpl. rewrite (Permutation_length (insert_parser_Permutation parser (parsers r))).
  simpl. lia.
Qed.

Lemma insert_parser_sorted_split parser ps :
  StronglySorted priority_le ps ->
  insert_parser parser ps
  = List.filter (fun q => CommentParser.Priority q <=? CommentParser.Priority parser) ps
    ++ parser
    :: List.filter (fun q => CommentParser.Priority parser <? CommentParser.Priority q) ps.
Proof.
  induction 1 as [|q ps Hs IH Hq]; simpl; [reflexivity|].
  destruct (Z.ltb_spec (CommentParser.Priority parser) (CommentParser.Priority q)) as [Hlt|Hge].
  - destruct (Z.leb_spec (CommentParser.Priority q) (CommentParser.Priority parser)); [lia|].
    assert (Hall : forall x, In x ps ->
                     (CommentParser.Priority parser <? CommentParser.Priority x) = true
                     /\ (CommentParser.Priority x <=? CommentParser.Priority parser) = false).
    { intros x Hx. pose proof (proj1 (List.Forall_forall _ _) Hq x Hx) as Hle.
      unfold priority_le in Hle. split; [apply Z.ltb_lt|apply Z.leb_gt]; lia. }
    replace (List.filter (fun q0 => CommentParser.Priority q0 <=? CommentParser.Priority parser) ps)
      with (@nil CommentParser.t).
    2:{ symmetry. clear -Hall. induction ps as [|x ps IH]; [reflexivity|]. simpl.
        rewrite (proj2 (Hall x (or_introl eq_refl))). apply IH. intros y Hy. apply Hall. right. exact Hy. }
    simpl. do 2 f_equal. symmetry. apply filter_all_true. intros x Hx. apply Hall. exact Hx.
  - destruct (Z.leb_spec (CommentParser.Priority q) (CommentParser.Priority parser)); [|lia].
    simpl. f_equal. exact IH.
Qed.

(** X2.  In a registry built by [RegisterParser], a new parser is put after
    every parser whose priority is at most its own and before every parser
    of larger priority; the other parsers keep their order.  So among equal
    priorities the earlier registration comes first. *)
Theorem RegisterParser_stable (r : DefaultParserRegistry) (parser : CommentParser.t) :
  registered r ->
  parsers (RegisterParser r (Some parser))
  = List.filter (fun q => CommentParser.Priority q <=? CommentParser.Priority parser)
      (parsers r)
    ++ parser
    :: List.filter (fun q => CommentParser.Priority parser <? CommentParser.Priority q)
         (parsers r).
Proof.
  intros Hr. simpl. apply insert_parser_sorted_split, registered_sorted. exact Hr.
Qed.

Lemma sample_registry_registered : registered sample_registry.
Proof. apply registered_add, registered_add, registered_add, registered_new. Qed.

Lemma RegisterParser_stable_witness :
  registered sample_registry
  /\ map CommentParser.Name
       (parsers (RegisterParser sample_registry
                   (Some (LegacyParser.as_parser
                            (LegacyParser.SetPriority LegacyParser.New 15)))))
     = [str "failing"; str "rejecting"; str "legacy"; str "legacy"].
Proof.
  split; [exact sample_registry_registered|].
  rewrite (RegisterParser_stable sample_registry _ sample_registry_registered).
  reflexivity.
Defined.

Lemma find_split {A} (f : A -> bool) l x :
  List.find f l = Some x ->
  exists pre post, l = pre ++ x :: post /\ f x = true /\ Forall (fun y => f y = false) pre.
Proof.
  induction l as [|y l IH]; simpl; [discriminate|].
  destruct (f y) eqn:E.
  - intros [= <-]. exists [], l. repeat split; [exact E|constructor].
  - intros H. destruct (IH H) as (pre & post & -> & Hx & Hpre).
    exists (y :: pre), post. repeat split; [exact Hx|constructor; assumption].
Qed.

Lemma existsb_find {A} (f : A -> bool) l :
  existsb f l = match List.find f l with Some _ => true | None => false end.
Proof.
  induction l as [|y l IH]; simpl; [reflexivity|].
  destruct (f y); [reflexivity|exact IH].
Qed.

Lemma sorted_app_cons_le ps pre (q : CommentParser.t) post :
  StronglySorted priority_le ps -> ps = pre ++ q :: post ->
  Forall (fun x => CommentParser.Priority q <= CommentParser.Priority x) (q :: post).
Proof.
  intros Hs ->. induction pre as [|y pre IH]; simpl in *.
  - inversion Hs as [|? ? _ Hq]; subst. constructor; [lia|exact Hq].
  - inversion Hs; subst. apply IH. assumption.
Qed.

(** X3.  In a registry built by [RegisterParser], [HasParser] tells whether
    [GetParser] finds a parser.  The parser that [GetParser] returns has the
    name asked for and the least priority among the registered parsers of
    that name.  After a parser is registered, [GetParser] on its name
    returns a parser of that name whose priority is at most that of the new
    one: an older parser of the same name and of no larger priority hides
    it. *)
Theorem GetParser_first_of_name (r : DefaultParserRegistry) (name : gostring)
  (parser : CommentParser.t) :
  registered r ->
  HasParser r name = match GetParser r name with Some _ => true | None => false end
  /\ (forall q, GetParser r name = Some q ->
        CommentParser.Name q = name /\ q ∈ parsers r
        /\ forall x, x ∈ parsers r -> CommentParser.Name x = name ->
                     CommentParser.Priority q <= CommentParser.Priority x)
  /\ exists q, GetParser (RegisterParser r (Some parser)) (CommentParser.Name parser) = Some q
               /\ CommentParser.Name q = CommentParser.Name parser
               /\ CommentParser.Priority q <= CommentParser.Priority parser.
Proof.
  intros Hr.
  assert (Hget : forall r' n q, registered r' -> GetParser r' n = Some q ->
            CommentParser.Name q = n /\ q ∈ parsers r'
            /\ forall x, x ∈ parsers r' -> CommentParser.Name x = n ->
                         CommentParser.Priority q <= CommentParser.Priority x).
  { intros r' n q Hr' Hq. unfold GetParser in Hq.
    destruct (find_split _ _ _ Hq) as (pre & post & Hsplit & Hname & Hpre).
    unfold string_eqb in Hname. apply bool_decide_eq_true in Hname.
    split; [exact Hname|]. split; [rewrite Hsplit; set_solver|].
    intros x Hx Hxn.
    pose proof (sorted_app_cons_le _ pre q post (registered_sorted r' Hr') Hsplit) as Hle.
    rewrite Hsplit in Hx. apply elem_of_app in Hx. destruct Hx as [Hx|Hx].
    - exfalso. apply list_elem_of_In in Hx.
      pose proof (proj1 (List.Forall_forall _ _) Hpre x Hx) as Hf.
      unfold string_eqb in Hf. apply bool_decide_eq_false in Hf. contradiction.
    - apply list_elem_of_In in Hx. exact (proj1 (List.Forall_forall _ _) Hle x Hx). }
  split; [apply existsb_find|]. split; [intros q; apply Hget; exact Hr|].
  assert (Hr' : registered (RegisterParser r (Some parser))) by (apply registered_add; exact Hr).
  destruct (GetParser (RegisterParser r (Some parser)) (CommentParser.Name parser))
    as [q|] eqn:Hq.
  - exists q. split; [reflexivity|].
    destruct (Hget _ _ _ Hr' Hq) as (Hn & _ & Hmin). split; [exact Hn|].
    apply Hmin; [|reflexivity]. simpl. apply insert_parser_elem. left. reflexivity.
  - exfalso. unfold GetParser in Hq.
    assert (Hin : In parser (parsers (RegisterParser r (Some parser)))).
    { apply list_elem_of_In. simpl. apply insert_parser_elem. left. reflexivity. }
    pose proof (List.find_none _ _ Hq parser Hin) as Hf.
    unfold string_eqb in Hf. apply bool_decide_eq_false in Hf. apply Hf. reflexivity.
Qed.

Lemma GetParser_first_of_name_witness :
  registered sample_registry
  /\ exists q,
      GetParser (RegisterParser sample_registry
                   (Some (LegacyParser.as_parser
                            (LegacyParser.SetPriority LegacyParser.New 2000))))
        (str "legacy") = Some q
      /\ CommentParser.Priority q <= 2000
      /\ CommentParser.Priority q = 1000.
Proof.
  split; [exact sample_registry_registered|].
  destruct (GetParser_first_of_name sample_registry (str "legacy")
              (LegacyParser.as_parser (LegacyParser.SetPriority LegacyParser.New 2000))
              sample_registry_registered) as (_ & _ & q & Hq & _ & Hle).
  exists q. split; [exact Hq|]. split; [exact Hle|].
  assert (Hc : GetParser (RegisterParser sample_registry
                            (Some (LegacyParser.as_parser
                                     (LegacyParser.SetPriority LegacyParser.New 2000))))
                 (str "legacy") = Some (LegacyParser.as_parser LegacyParser.New))
    by reflexivity.
  pose proof (eq_trans (eq_sym Hc) Hq) as Heq. injection Heq as <-. reflexivity.
Defined.

(** ** CommentData: accessors and Merge *)

Lemma size_insert_pos (m : gmap gostring gostring) k x : (size (<[k := x]> m) =? 0)%nat = false.
Proof.
  apply Nat.eqb_neq. intros H. apply map_size_empty_iff in H.
  apply (insert_non_empty m k x). exact H.
Qed.

(** X4.  After [SetMetadata] with a key and a value on a record, [GetMetadata]
    on that key returns the value and true, every other key reads as
    before, and the record is not empty.  On a nil record [SetMetadata]
    does nothing and [GetMetadata] returns the empty string and false. *)
Theorem SetMetadata_GetMetadata (cd : CommentData) (key value other : gostring) :
  GetMetadata (SetMetadata (Some cd) key value) key = (value, true)
  /\ (other <> key ->
      GetMetadata (SetMetadata (Some cd) key value) other = GetMetadata (Some cd) other)
  /\ IsEmpty (SetMetadata (Some cd) key value) = false
  /\ SetMetadata None key value = None
  /\ GetMetadata None key = ([], false).
Proof.
  repeat split.
  - simpl. rewrite lookup_insert_eq. reflexivity.
  - intros Hne. simpl. rewrite lookup_insert_ne by congruence. reflexivity.
  - simpl. rewrite size_insert_pos. rewrite !andb_false_r. reflexivity.
Qed.

Lemma Merge_Some (a b : CommentData) :
  Merge (Some a) (Some b)
  = Some {| LogicalName := if is_empty_string (LogicalName a) then LogicalName b
                           else LogicalName a;
            Description := if is_empty_string (Description a) then Description b
                           else Description a;
            Tags := Tags a ++ first_occurrences (tags_not_in (Tags a) (Tags b));
            Metadata := Metadata a ∪ Metadata b;
            Priority := Priority a;
            Deprecated := Deprecated a;
            Source := Source a |}.
Proof.
  unfold Merge. rewrite Clone_value_id. f_equal.
  destruct a as [ln d tags md pr dep src], b as [ln' d' tags' md' pr' dep' src'].
  cbn [LogicalName Description Tags Metadata Priority Deprecated Source].
  apply CommentData_eq;
    destruct ln, ln', d, d';
    cbn [LogicalName Description Tags Metadata Priority Deprecated Source
         set_LogicalName set_Description set_Tags set_Metadata is_empty_string negb andb];
    try reflexivity; try apply merge_tags_spec; try apply merge_metadata_spec.
Qed.

Lemma Merge_None_l (b : option CommentData) : Merge None b = b.
Proof. destruct b as [b|]; [|reflexivity]. simpl. rewrite Clone_value_id. reflexivity. Qed.

Lemma Merge_None_r (a : option CommentData) : Merge a None = a.
Proof. destruct a as [a|]; [|reflexivity]. simpl. rewrite Clone_value_id. reflexivity. Qed.

Lemma first_occurrences_In x l : In x l -> In x (first_occurrences l).
Proof.
  induction l as [|y l IH]; simpl; [tauto|].
  destruct (decide (y = x)) as [->|Hne]; [auto|].
  intros [->|H]; [contradiction|]. right. apply filter_In. split; [auto|].
  unfold string_eqb. rewrite bool_decide_eq_false_2 by congruence. reflexivity.
Qed.

Lemma tags_not_in_In x a b : In x (tags_not_in a b) <-> In x b /\ ~ In x a.
Proof.
  unfold tags_not_in. rewrite filter_In, negb_true_iff, bool_decide_eq_false.
  rewrite list_elem_of_In. tauto.
Qed.

Lemma existsb_string_eqb (l : list gostring) x :
  existsb (fun t => string_eqb t x) l = bool_decide (x ∈ l).
Proof.
  induction l as [|y l IH]; cbn [existsb].
  - symmetry. apply bool_decide_eq_false_2, not_elem_of_nil.
  - rewrite IH. unfold string_eqb.
    destruct (decide (y = x)) as [->|Hne].
    + rewrite bool_decide_eq_true_2 by reflexivity.
      rewrite (bool_decide_eq_true_2 (x ∈ x :: l)) by (left). reflexivity.
    + rewrite (bool_decide_eq_false_2 (y = x)) by exact Hne. simpl.
      apply bool_decide_ext. rewrite elem_of_cons. split; [auto|].
      intros [->|H]; [contradiction|exact H].
Qed.

Lemma HasTag_In (cd : CommentData) tag : HasTag (Some cd) tag = bool_decide (tag ∈ Tags cd).
Proof.
  unfold HasTag. rewrite <- existsb_string_eqb. destruct (Tags cd); reflexivity.
Qed.

Lemma is_empty_string_nil (s : gostring) : is_empty_string s = true <-> s = [].
Proof. destruct s; simpl; split; congruence. Qed.

(** X5.  The accessors on a merged record, for records that may be nil.  The
    logical name and the description fall back from the first record to the
    second and then to the given fallback; [HasTag] holds when it holds for
    one of the two; [GetMetadata] gives the entry of the first record when
    it has the key and the entry of the second otherwise; the merged record
    is empty exactly when both are. *)
Theorem Merge_accessors (a b : option CommentData) (fallback tag key : gostring) :
  GetLogicalNameOrFallback (Merge a b) fallback
  = GetLogicalNameOrFallback a (GetLogicalNameOrFallback b fallback)
  /\ GetDescriptionOrFallback (Merge a b) fallback
     = GetDescriptionOrFallback a (GetDescriptionOrFallback b fallback)
  /\ HasTag (Merge a b) tag = HasTag a tag || HasTag b tag
  /\ GetMetadata (Merge a b) key
     = (if snd (GetMetadata a key) then GetMetadata a key else GetMetadata b key)
  /\ IsEmpty (Merge a b) = IsEmpty a && IsEmpty b.
Proof.
  destruct a as [a|]; [|rewrite Merge_None_l; repeat split; reflexivity].
  destruct b as [b|].
  2:{ rewrite Merge_None_r. split; [|split; [|split; [|split]]].
      - simpl. destruct (LogicalName a); reflexivity.
      - simpl. destruct (Description a); reflexivity.
      - rewrite orb_false_r. reflexivity.
      - simpl. destruct (Metadata a !! key); reflexivity.
      - simpl. rewrite andb_true_r. reflexivity. }
  rewrite Merge_Some. split; [|split; [|split; [|split]]].
  - simpl. destruct (LogicalName a), (LogicalName b); reflexivity.
  - simpl. destruct (Description a), (Description b); reflexivity.
  - rewrite !HasTag_In. cbn [Tags].
    destruct (decide (tag ∈ Tags a)) as [Ha|Ha].
    + rewrite (bool_decide_eq_true_2 (tag ∈ Tags a)) by exact Ha.
      apply bool_decide_eq_true_2, elem_of_app. left. exact Ha.
    + rewrite (bool_decide_eq_false_2 (tag ∈ Tags a)) by exact Ha. simpl.
      apply bool_decide_ext. rewrite elem_of_app, !list_elem_of_In.
      rewrite list_elem_of_In in Ha. split.
      * intros [H|H]; [contradiction|]. apply In_first_occurrences, tags_not_in_In in H. tauto.
      * intros H. right. apply first_occurrences_In, tags_not_in_In. tauto.
  - simpl. rewrite lookup_union.
    destruct (Metadata a !! key), (Metadata b !! key); reflexivity.
  - simpl.
    assert (Htags : (length (Tags a ++ first_occurrences (tags_not_in (Tags a) (Tags b))) =? 0)%nat
                    = (length (Tags a) =? 0)%nat && (length (Tags b) =? 0)%nat).
    { destruct (Tags a) as [|x ta]; [|reflexivity]. simpl.
      destruct (Tags b) as [|y tb]; reflexivity. }
    assert (Hmd : (size (Metadata a ∪ Metadata b) =? 0)%nat
                  = (size (Metadata a) =? 0)%nat && (size (Metadata b) =? 0)%nat).
    { destruct (decide (Metadata a = ∅)) as [->|Ha].
      - rewrite (left_id_L ∅ (∪)). rewrite map_size_empty. reflexivity.
      - assert (size (Metadata a) <> 0)%nat by (rewrite map_size_empty_iff; exact Ha).
        assert (size (Metadata a ∪ Metadata b) <> 0)%nat.
        { rewrite map_size_empty_iff. intros Hu. apply Ha.
          apply map_empty. intros i. apply (f_equal (fun m => m !! i)) in Hu.
          rewrite lookup_union, lookup_empty in Hu.
          destruct (Metadata a !! i); [destruct (Metadata b !! i); discriminate|reflexivity]. }
        rewrite (proj2 (Nat.eqb_neq _ _)) by assumption.
        rewrite (proj2 (Nat.eqb_neq (size (Metadata a)) _)) by assumption. reflexivity. }
    rewrite Htags, Hmd.
    destruct (LogicalName a), (LogicalName b), (Description a), (Description b);
      cbn [is_empty_string andb]; try reflexivity;
      destruct (length (Tags a) =? 0)%nat, (length (Tags b) =? 0)%nat,
        (size (Metadata a) =? 0)%nat, (size (Metadata b) =? 0)%nat; reflexivity.
Qed.

Lemma tags_not_in_nil b : tags_not_in [] b = b.
Proof.
  unfold tags_not_in. apply filter_all_true. intros y _.
  rewrite bool_decide_eq_false_2 by apply not_elem_of_nil. reflexivity.
Qed.

Lemma tags_not_in_cons x a b :
  tags_not_in (x :: a) b = List.filter (fun y => negb (string_eqb y x)) (tags_not_in a b).
Proof.
  unfold tags_not_in. rewrite filter_filter_and. apply filter_ext. intros y.
  unfold string_eqb. repeat case_bool_decide; simpl; try reflexivity; exfalso; set_solver.
Qed.

Lemma first_occurrences_app_any (a b : list gostring) :
  first_occurrences (a ++ b) = first_occurrences a ++ first_occurrences (tags_not_in a b).
Proof.
  induction a as [|x a IH]; simpl.
  - rewrite tags_not_in_nil. reflexivity.
  - rewrite IH, List.filter_app, tags_not_in_cons, <- filter_first_occurrences. reflexivity.
Qed.

Lemma filter_idem {A} (f : A -> bool) l : List.filter f (List.filter f l) = List.filter f l.
Proof. rewrite filter_filter_and. apply filter_ext. intros x. destruct (f x); reflexivity. Qed.

Lemma first_occurrences_idem l : first_occurrences (first_occurrences l) = first_occurrences l.
Proof.
  induction l as [|x l IH]; simpl; [reflexivity|].
  rewrite <- filter_first_occurrences, IH, filter_idem. reflexivity.
Qed.

Lemma tags_not_in_app a x y : tags_not_in a (x ++ y) = tags_not_in a x ++ tags_not_in a y.
Proof. apply List.filter_app. Qed.

Lemma tags_not_in_first_occurrences a z :
  tags_not_in a (first_occurrences z) = first_occurrences (tags_not_in a z).
Proof. apply filter_first_occurrences. Qed.

Lemma elem_of_tags_not_in c a b : c ∈ tags_not_in a b <-> c ∈ b /\ c ∉ a.
Proof. rewrite !list_elem_of_In, tags_not_in_In. tauto. Qed.

Lemma elem_of_first_occurrences c l : c ∈ first_occurrences l <-> c ∈ l.
Proof.
  rewrite !list_elem_of_In. split; [apply In_first_occurrences|apply first_occurrences_In].
Qed.

Lemma tags_not_in_self a : tags_not_in a a = [].
Proof.
  unfold tags_not_in.
  assert (H : forall l, (forall x, In x l -> x ∈ a) ->
                        List.filter (fun t => negb (bool_decide (t ∈ a))) l = []).
  { induction l as [|x l IH]; intros Hl; [reflexivity|]. simpl.
    rewrite bool_decide_eq_true_2 by (apply Hl; left; reflexivity). simpl.
    apply IH. intros y Hy. apply Hl. right. exact Hy. }
  apply H. intros x Hx. apply list_elem_of_In. exact Hx.
Qed.

Lemma merge_tags_assoc (A B C : list gostring) :
  (A ++ first_occurrences (tags_not_in A B))
    ++ first_occurrences (tags_not_in (A ++ first_occurrences (tags_not_in A B)) C)
  = A ++ first_occurrences (tags_not_in A (B ++ first_occurrences (tags_not_in B C))).
Proof.
  rewrite <- app_assoc. f_equal.
  rewrite tags_not_in_app, first_occurrences_app_any. f_equal.
  rewrite !tags_not_in_first_occurrences, first_occurrences_idem.
  apply (f_equal first_occurrences).
  unfold tags_not_in. rewrite !filter_filter_and. apply filter_ext_in. intros c _.
  fold (tags_not_in A B).
  pose proof (elem_of_tags_not_in c A B) as HN.
  pose proof (elem_of_first_occurrences c (tags_not_in A B)) as HF.
  repeat case_bool_decide; simpl; try reflexivity; exfalso;
    repeat match goal with
           | H : _ ∈ _ ++ _ |- _ => apply elem_of_app in H
           | H : ~ _ ∈ _ ++ _ |- _ => rewrite elem_of_app in H
           end; tauto.
Qed.

(** X6.  [Merge] is associative, the nil record is neutral on both sides, and a
    record merged with itself is that record. *)
Theorem Merge_monoid (a b c : option CommentData) :
  Merge (Merge a b) c = Merge a (Merge b c)
  /\ Merge None a = a
  /\ Merge a None = a
  /\ Merge a a = a.
Proof.
  split; [|split; [apply Merge_None_l|split; [apply Merge_None_r|]]].
  - destruct a as [a|]; [|rewrite !Merge_None_l; reflexivity].
    destruct b as [b|]; [|rewrite Merge_None_l, Merge_None_r; reflexivity].
    destruct c as [c|]; [|rewrite !Merge_None_r; reflexivity].
    rewrite !Merge_Some. f_equal.
    cbn [LogicalName Description Tags Metadata Priority Deprecated Source].
    apply CommentData_eq;
      cbn [LogicalName Description Tags Metadata Priority Deprecated Source];
      try reflexivity.
    + destruct (LogicalName a), (LogicalName b); reflexivity.
    + destruct (Description a), (Description b); reflexivity.
    + apply merge_tags_assoc.
    + symmetry. apply (assoc_L (∪)).
  - destruct a as [a|]; [|reflexivity]. rewrite Merge_Some. f_equal.
    destruct a as [ln d tags md pr dep src].
    apply CommentData_eq;
      cbn [LogicalName Description Tags Metadata Priority Deprecated Source];
      try reflexivity.
    + destruct ln; reflexivity.
    + destruct d; reflexivity.
    + rewrite tags_not_in_self. apply app_nil_r.
    + apply (idemp_L (∪)).
Qed.

(** ** The legacy parser *)

Lemma normalizeWhitespace_loop_single s p :
  single_spaced (LegacyParser.normalizeWhitespace_loop s p) p = true.
Proof.
  revert p. induction s as [|r s IH]; intros p; simpl; [reflexivity|].
  destruct (unicode.IsSpace r) eqn:E.
  - destruct p; simpl; [apply IH|]. rewrite IH. reflexivity.
  - simpl. rewrite E. apply IH.
Qed.

Lemma single_spaced_weaken s : single_spaced s true = true -> single_spaced s false = true.
Proof.
  destruct s as [|r s]; simpl; [reflexivity|].
  destruct (unicode.IsSpace r); [|tauto]. rewrite andb_false_r. discriminate.
Qed.

Lemma TrimLeftSpace_single s p :
  single_spaced s p = true -> single_spaced (strings.TrimLeftSpace s) false = true.
Proof.
  revert p. induction s as [|r s IH]; intros p; simpl; [reflexivity|].
  destruct (unicode.IsSpace r) eqn:E.
  - intros H. apply andb_true_iff in H. destruct H as [_ H]. exact (IH true H).
  - intros H. simpl. rewrite E. exact H.
Qed.

Lemma TrimRightSpace_single s p :
  single_spaced s p = true -> single_spaced (strings.TrimRightSpace s) p = true.
Proof.
  revert p. induction s as [|r s IH]; intros p; simpl; [reflexivity|].
  destruct (unicode.IsSpace r) eqn:E.
  - intros H. apply andb_true_iff in H. destruct H as [H1 H2].
    specialize (IH true H2).
    destruct (strings.TrimRightSpace s) as [|y kept]; [reflexivity|].
    cbn [single_spaced]. rewrite E, H1. exact IH.
  - intros H. specialize (IH false H).
    destruct (strings.TrimRightSpace s) as [|y kept]; cbn [single_spaced]; rewrite E;
      [reflexivity|exact IH].
Qed.

Lemma normalizeWhitespace_loop_fixed s p :
  single_spaced s p = true -> LegacyParser.normalizeWhitespace_loop s p = s.
Proof.
  revert p. induction s as [|r s IH]; intros p; simpl; [reflexivity|].
  destruct (unicode.IsSpace r) eqn:E.
  - intros H. apply andb_true_iff in H. destruct H as [H1 H2].
    apply andb_true_iff in H1. destruct H1 as [Hr Hp].
    apply Z.eqb_eq in Hr. subst r. destruct p; [discriminate|].
    simpl. rewrite (IH true H2). reflexivity.
  - intros H. simpl. rewrite (IH false H). reflexivity.
Qed.

Lemma non_space_loop s p : non_space (LegacyParser.normalizeWhitespace_loop s p) = non_space s.
Proof.
  revert p. unfold non_space. induction s as [|r s IH]; intros p; simpl; [reflexivity|].
  destruct (unicode.IsSpace r) eqn:E; simpl.
  - destruct p; simpl; apply IH.
  - rewrite E. simpl. rewrite IH. reflexivity.
Qed.

Lemma non_space_TrimLeftSpace s : non_space (strings.TrimLeftSpace s) = non_space s.
Proof.
  unfold non_space. induction s as [|r s IH]; simpl; [reflexivity|].
  destruct (unicode.IsSpace r) eqn:E; simpl; [exact IH|]. rewrite E. reflexivity.
Qed.

Lemma non_space_TrimRightSpace s : non_space (strings.TrimRightSpace s) = non_space s.
Proof.
  unfold non_space. induction s as [|r s IH]; simpl; [reflexivity|].
  destruct (strings.TrimRightSpace s) as [|y kept].
  - destruct (unicode.IsSpace r) eqn:E; simpl; rewrite ?E; simpl; rewrite <- IH; reflexivity.
  - change (List.filter ?f (r :: ?l)) with (if f r then r :: List.filter f l else List.filter f l).
    rewrite IH. reflexivity.
Qed.

Lemma non_space_TrimSpace s : non_space (strings.TrimSpace s) = non_space s.
Proof.
  unfold strings.TrimSpace. rewrite non_space_TrimRightSpace. apply non_space_TrimLeftSpace.
Qed.

(** X7.  The text that [normalizeWhitespace] returns has no white space but
    single U+0020 characters between other characters: none at either end,
    no two in a row.  Its characters that are not white space are those of
    the input, in the same order, and [normalizeWhitespace] and
    [normalizeComment] return it unchanged. *)
Theorem normalizeWhitespace_normal_form (s : gostring) :
  let t := LegacyParser.normalizeWhitespace s in
  single_spaced t false = true
  /\ head_not_space t /\ last_not_space t
  /\ non_space t = non_space s
  /\ LegacyParser.normalizeWhitespace t = t
  /\ LegacyParser.normalizeComment t = t.
Proof.
  intros t.
  assert (Hss : single_spaced t false = true).
  { unfold t, LegacyParser.normalizeWhitespace, strings.TrimSpace.
    apply TrimRightSpace_single. eapply TrimLeftSpace_single.
    apply normalizeWhitespace_loop_single. }
  destruct (TrimSpace_edges (LegacyParser.normalizeWhitespace_loop s false)) as [Hh Hl].
  change (head_not_space t) in Hh. change (last_not_space t) in Hl.
  assert (Hfix : LegacyParser.normalizeWhitespace t = t).
  { unfold LegacyParser.normalizeWhitespace at 1.
    rewrite (normalizeWhitespace_loop_fixed t false Hss). apply TrimSpace_fixed; assumption. }
  split; [exact Hss|]. split; [exact Hh|]. split; [exact Hl|]. split; [|split; [exact Hfix|]].
  - unfold t, LegacyParser.normalizeWhitespace.
    rewrite non_space_TrimSpace. apply non_space_loop.
  - unfold LegacyParser.normalizeComment.
    rewrite (TrimSpace_fixed t Hh Hl). exact Hfix.
Qed.








(** X9.  The legacy parser never fails.  For every comment and delimiter
    [ParseComment] returns a record and no error; the record has the
    comment as [Source], no tags, no metadata, priority 0, is not
    deprecated, and its logical name and description neither begin nor end
    with white space. *)
Theorem LegacyParser_ParseComment_fields (p : LegacyParser.t)
  (comment delimiter : gostring) :
  exists r, LegacyParser.ParseComment p comment delimiter = (Some r, None)
    /\ Source r = comment
    /\ Tags r = [] /\ Metadata r = ∅ /\ Priority r = 0 /\ Deprecated r = false
    /\ head_not_space (LogicalName r) /\ last_not_space (LogicalName r)
    /\ head_not_space (Description r) /\ last_not_space (Description r).
Proof.
  unfold LegacyParser.ParseComment. destruct (is_empty_string comment).
  - eexists. split; [reflexivity|]. repeat split; try discriminate; exact I.
  - cbv zeta.
    destruct (LegacyParser.splitWithEscape _ _) as [|part0 [|part1 rest]].
    + eexists. split; [reflexivity|]. repeat split; try discriminate; exact I.
    + eexists. split; [reflexivity|].
      destruct (TrimSpace_edges part0) as [Hh Hl].
      repeat split; try discriminate; try exact I; assumption.
    + eexists. split; [reflexivity|].
      destruct (TrimSpace_edges part0) as [Hh Hl].
      destruct (TrimSpace_edges part1) as [Hh' Hl'].
      repeat split; assumption.
Qed.

Lemma TrimLeftSpace_blank s :
  Forall (fun r => unicode.IsSpace r = true) s -> strings.TrimLeftSpace s = [].
Proof. induction 1 as [|r s Hr _ IH]; simpl; [reflexivity|]. rewrite Hr. exact IH. Qed.

Lemma normalizeComment_blank s :
  Forall (fun r => unicode.IsSpace r = true) s -> LegacyParser.normalizeComment s = [].
Proof.
  intros H. unfold LegacyParser.normalizeComment, strings.TrimSpace.
  rewrite (TrimLeftSpace_blank s H). reflexivity.
Qed.

(** X10.  [ExtractLogicalNameEnhanced] returns the logical name of the record of
    [EnhancedSplitComment] when there is one, and otherwise the physical
    name when [fallbackToName] is set and the empty string when it is not;
    [ExtractCleanCommentEnhanced] returns the description of that record.
    [LegacyCommentSplitter] returns the same two texts.  For a comment of
    white space only the logical name is the fallback, and with
    [fallbackToName] and a physical name that is not empty the result is
    never empty. *)
Theorem ExtractLogicalNameEnhanced_fallback (comment delimiter physicalName : gostring)
  (fallbackToName : bool) :
  ExtractLogicalNameEnhanced comment delimiter physicalName fallbackToName
  = GetLogicalNameOrFallback (EnhancedSplitComment comment delimiter)
      (if fallbackToName then physicalName else [])
  /\ ExtractCleanCommentEnhanced comment delimiter
     = GetDescriptionOrFallback (EnhancedSplitComment comment delimiter) []
  /\ SplitCommentParts.LogicalName (LegacyCommentSplitter comment delimiter)
     = ExtractLogicalNameEnhanced comment delimiter physicalName false
  /\ SplitCommentParts.Comment (LegacyCommentSplitter comment delimiter)
     = ExtractCleanCommentEnhanced comment delimiter
  /\ (Forall (fun r => unicode.IsSpace r = true) comment ->
      ExtractLogicalNameEnhanced comment delimiter physicalName fallbackToName
      = if fallbackToName then physicalName else [])
  /\ (physicalName <> [] ->
      ExtractLogicalNameEnhanced comment delimiter physicalName true <> []).
Proof.
  unfold ExtractLogicalNameEnhanced, ExtractCleanCommentEnhanced, LegacyCommentSplitter,
    EnhancedSplitComment.
  destruct (LegacyParser_ParseComment_ok LegacyParser.New comment delimiter) as (d & Hd & _).
  rewrite Hd. cbn [GetLogicalNameOrFallback GetDescriptionOrFallback
                   SplitCommentParts.LogicalName SplitCommentParts.Comment].
  split; [destruct (LogicalName d), fallbackToName; reflexivity|].
  split; [destruct (Description d); reflexivity|].
  split; [destruct (LogicalName d); reflexivity|].
  split; [destruct (Description d); reflexivity|].
  split.
  - intros Hblank.
    assert (Hln : LogicalName d = []).
    { unfold LegacyParser.ParseComment in Hd.
      destruct (is_empty_string comment); [injection Hd as <-; reflexivity|].
      cbv zeta in Hd. rewrite (normalizeComment_blank comment Hblank) in Hd.
      unfold LegacyParser.splitWithEscape in Hd.
      rewrite orb_true_r in Hd. injection Hd as <-. reflexivity. }
    rewrite Hln. reflexivity.
  - intros Hn. destruct (LogicalName d) eqn:E; [exact Hn|discriminate].
Qed.

(** ** The structured parsers: acceptance and outcomes *)






Lemma TrimSpace_idempotent s : strings.TrimSpace (strings.TrimSpace s) = strings.TrimSpace s.
Proof. destruct (TrimSpace_edges s). apply TrimSpace_fixed; assumption. Qed.

Section StructuredParsers.

Context {L : GoLibrary}.

Lemma JSONParser_convertToCommentData_ok raw :
  exists r, JSONParser_convertToCommentData raw = (Some r, None).
Proof.
  destruct raw as [|b|n|f|s|l|l|m]; try (eexists; reflexivity).
  destruct l as [|[|b|n|f|s|l'|l'|m] l]; eexists; reflexivity.
Qed.

Lemma YAMLParser_convertToCommentData_ok raw :
  exists r, YAMLParser_convertToCommentData raw = (Some r, None).
Proof.
  destruct raw as [|b|n|f|s|l|l|m]; try (eexists; reflexivity).
  destruct l as [|[|b|n|f|s|l'|l'|m] l]; eexists; reflexivity.
Qed.

(** What [CanParse] of the JSON parser checks. *)
Lemma JSONParser_CanParse_true p c :
  JSONParser_CanParse p c = true ->
  c <> [] /\ len_bytes c <= json_maxSize p
  /\ 2 <= len_bytes (strings.TrimSpace c)
  /\ exists raw, json_Unmarshal (strings.TrimSpace c) = inr raw.
Proof.
  unfold JSONParser_CanParse. destruct c as [|r c]; [discriminate|]. cbn [is_empty_string].
  destruct (Z.ltb_spec (json_maxSize p) (len_bytes (r :: c))); [discriminate|].
  destruct (Z.ltb_spec (len_bytes (strings.TrimSpace (r :: c))) 2); [discriminate|].
  destruct (negb _); [discriminate|].
  destruct (json_Unmarshal _) as [e|raw]; [discriminate|].
  intros _. repeat split; try discriminate; try assumption. exists raw. reflexivity.
Qed.



(** What [CanParse] of the YAML parser checks. *)
Lemma YAMLParser_CanParse_true p c :
  YAMLParser_CanParse p c = true ->
  c <> [] /\ len_bytes c <= yaml_maxSize p
  /\ strings.TrimSpace c <> []
  /\ looksLikeYAML (strings.TrimSpace c) = true
  /\ exists raw, yaml_Unmarshal (strings.TrimSpace c) = inr raw.
Proof.
  unfold YAMLParser_CanParse. destruct c as [|r c]; [discriminate|]. cbn [is_empty_string].
  destruct (Z.ltb_spec (yaml_maxSize p) (len_bytes (r :: c))); [discriminate|].
  destruct (Z.eqb_spec (len_bytes (strings.TrimSpace (r :: c))) 0) as [|Hlen]; [discriminate|].
  destruct (looksLikeYAML _) eqn:El; [|discriminate].
  destruct (yaml_Unmarshal _) as [e|raw]; [discriminate|].
  intros _. repeat split; try discriminate; try assumption.
  - intros Ht. rewrite Ht in Hlen. apply Hlen. reflexivity.
  - exists raw. reflexivity.
Qed.



(** X13.  [ParseComment] of the JSON parser and of the YAML parser returns
    either a record and no error, or an error and no record.  The record has
    the trimmed comment as [Source], and for a comment that is not empty the
    parser's [CanParse] accepts the trimmed comment.  The error is a parse
    error that carries the parser's name and the trimmed comment, and whose
    cause is [ErrCommentTooLong], [ErrInvalidCommentFormat] or, for the
    depth limit, [ErrJSONTooDeep] (JSON) or [ErrYAMLParseError] (YAML). *)
Theorem structured_ParseComment_outcomes (pj : JSONParser) (py : YAMLParser)
  (c delimiter : gostring) :
  match JSONParser_ParseComment pj c delimiter with
  | (Some r, None) =>
    Source r = strings.TrimSpace c
    /\ (c <> [] -> JSONParser_CanParse pj (strings.TrimSpace c) = true)
  | (None, Some e) =>
    exists reason cause,
      e = CommentParseError (json_name pj) (strings.TrimSpace c) reason (Some cause)
      /\ (cause = ErrCommentTooLong \/ cause = ErrInvalidCommentFormat
          \/ cause = ErrJSONTooDeep)
  | _ => False
  end
  /\ match YAMLParser_ParseComment py c delimiter with
     | (Some r, None) =>
       Source r = strings.TrimSpace c
       /\ (c <> [] -> YAMLParser_CanParse py (strings.TrimSpace c) = true)
     | (None, Some e) =>
       exists reason cause,
         e = CommentParseError (yaml_name py) (strings.TrimSpace c) reason (Some cause)
         /\ (cause = ErrCommentTooLong \/ cause = ErrInvalidCommentFormat
             \/ cause = ErrYAMLParseError)
     | _ => False
     end.
Proof.
  split.
  - unfold JSONParser_ParseComment. destruct c as [|x c]; [split; [reflexivity|tauto]|].
    cbn [is_empty_string]. cbv zeta. set (t := strings.TrimSpace (x :: c)).
    destruct (json_maxSize pj <? len_bytes t); [eexists _, _; split; [reflexivity|auto]|].
    destruct (JSONParser_CanParse pj t) eqn:Hcan; cbn [negb];
      [|eexists _, _; split; [reflexivity|auto]].
    destruct (JSONParser_CanParse_true pj t Hcan) as (_ & _ & _ & raw & Hraw).
    unfold t in Hraw. rewrite TrimSpace_idempotent in Hraw. fold t in Hraw. rewrite Hraw.
    destruct (json_maxDepth pj <? getDepth raw); [eexists _, _; split; [reflexivity|auto]|].
    destruct (JSONParser_convertToCommentData_ok raw) as [r Hr]. rewrite Hr.
    split; [reflexivity|]. intros _. reflexivity.
  - unfold YAMLParser_ParseComment. destruct c as [|x c]; [split; [reflexivity|tauto]|].
    cbn [is_empty_string]. cbv zeta. set (t := strings.TrimSpace (x :: c)).
    destruct (yaml_maxSize py <? len_bytes t); [eexists _, _; split; [reflexivity|auto]|].
    destruct (YAMLParser_CanParse py t) eqn:Hcan; cbn [negb];
      [|eexists _, _; split; [reflexivity|auto]].
    destruct (YAMLParser_CanParse_true py t Hcan) as (_ & _ & _ & _ & raw & Hraw).
    unfold t in Hraw. rewrite TrimSpace_idempotent in Hraw. fold t in Hraw. rewrite Hraw.
    destruct (yaml_maxDepth py <? getDepth raw); [eexists _, _; split; [reflexivity|auto]|].
    destruct (YAMLParser_convertToCommentData_ok raw) as [r Hr]. rewrite Hr.
    split; [reflexivity|]. intros _. reflexivity.
Qed.

Lemma getDepth_pos (v : GoValue) : 1 <= getDepth v.
Proof.
  destruct v as [|b|n|f|s|l|l|m]; simpl; try lia.
  - induction l as [|x l IH]; simpl in *; [lia|].
    destruct x; simpl in *; lia.
  - induction m as [|[k x] m IH]; simpl in *; [lia|].
    destruct x; simpl in *; lia.
Qed.

(** X14.  A JSON or YAML parser whose depth limit is below 1 rejects every
    comment that is not empty: [ParseComment] returns an error and no
    record, since [getDepth] is at least 1 on every value. *)
Theorem maxDepth_below_one_rejects (pj : JSONParser) (py : YAMLParser)
  (c delimiter : gostring) :
  c <> [] ->
  (json_maxDepth pj < 1 -> exists e, JSONParser_ParseComment pj c delimiter = (None, Some e))
  /\ (yaml_maxDepth py < 1 -> exists e, YAMLParser_ParseComment py c delimiter = (None, Some e)).
Proof.
  intros Hne. destruct c as [|x c]; [contradiction|]. split; intros Hd.
  - unfold JSONParser_ParseComment. cbn [is_empty_string]. cbv zeta.
    set (t := strings.TrimSpace (x :: c)).
    destruct (json_maxSize pj <? len_bytes t); [eexists; reflexivity|].
    destruct (JSONParser_CanParse pj t) eqn:Hcan; cbn [negb]; [|eexists; reflexivity].
    destruct (json_Unmarshal t) as [e|raw]; [eexists; reflexivity|].
    pose proof (getDepth_pos raw).
    destruct (Z.ltb_spec (json_maxDepth pj) (getDepth raw)); [eexists; reflexivity|lia].
  - unfold YAMLParser_ParseComment. cbn [is_empty_string]. cbv zeta.
    set (t := strings.TrimSpace (x :: c)).
    destruct (yaml_maxSize py <? len_bytes t); [eexists; reflexivity|].
    destruct (YAMLParser_CanParse py t) eqn:Hcan; cbn [negb]; [|eexists; reflexivity].
    destruct (yaml_Unmarshal t) as [e|raw]; [eexists; reflexivity|].
    pose proof (getDepth_pos raw).
    destruct (Z.ltb_spec (yaml_maxDepth py) (getDepth raw)); [eexists; reflexivity|lia].
Qed.

End StructuredParsers.



Lemma maxDepth_below_one_rejects_witness :
  str "{}" <> []
  /\ exists e, JSONParser_ParseComment (L := sample_library)
                 (NewJSONParserWithLimits 0 8192) (str "{}") [] = (None, Some e).
Proof.
  split; [discriminate|].
  apply (maxDepth_below_one_rejects (L := sample_library) (NewJSONParserWithLimits 0 8192)
           NewYAMLParser (str "{}") []); [discriminate|reflexivity].
Defined.

(** ** The conversion of a parsed mapping *)

Lemma map_index_None (data : list (gostring * GoValue)) (k : gostring) :
  k ∉ data.*1 -> map_index data k = None.
Proof.
  induction data as [|[k0 v0] data IH]; simpl; [reflexivity|].
  intros H. apply not_elem_of_cons in H. destruct H as [Hne Hin].
  unfold string_eqb. rewrite bool_decide_eq_false_2 by congruence. apply IH. exact Hin.
Qed.

Section ConvertMap.

Context {L : GoLibrary}.

Lemma metadata_of_loop (excludeKeys : list gostring) (data : list (gostring * GoValue))
  (m0 : gmap gostring gostring) (k : gostring) :
  NoDup data.*1 ->
  foldl (fun m '(key, value) =>
           if bool_decide (key ∈ excludeKeys) then m
           else <[key := item_to_string value]> m) m0 data !! k
  = if bool_decide (k ∈ excludeKeys) then m0 !! k
    else match map_index data k with
         | Some value => Some (item_to_string value)
         | None => m0 !! k
         end.
Proof.
  revert m0. induction data as [|[k0 v0] data IH]; intros m0 Hnd; simpl.
  - destruct (bool_decide _); reflexivity.
  - apply NoDup_cons in Hnd. destruct Hnd as [Hk0 Hnd]. rewrite (IH _ Hnd).
    unfold string_eqb.
    destruct (bool_decide (k ∈ excludeKeys)) eqn:Ek.
    + apply bool_decide_eq_true in Ek.
      destruct (bool_decide (k0 ∈ excludeKeys)) eqn:Ek0; [reflexivity|].
      apply bool_decide_eq_false in Ek0. apply lookup_insert_ne. congruence.
    + destruct (decide (k0 = k)) as [->|Hne].
      * rewrite (bool_decide_eq_true_2 (k = k)) by reflexivity.
        rewrite (map_index_None data k Hk0), Ek. apply lookup_insert_eq.
      * rewrite (bool_decide_eq_false_2 (k0 = k)) by exact Hne.
        destruct (map_index data k); [reflexivity|].
        destruct (bool_decide (k0 ∈ excludeKeys)); [reflexivity|].
        apply lookup_insert_ne. exact Hne.
Qed.

(** X15.  On a decoded mapping, [convertMapToCommentData] of both parsers
    succeeds, and the metadata of the record are the entries of the mapping
    whose key is not reserved for a field of the record, strings as they
    are and other values as [fmt.Sprintf] with [%v] prints them.  A reserved
    key is never a metadata key. *)
Theorem convertMapToCommentData_Metadata (data : list (gostring * GoValue)) :
  NoDup data.*1 ->
  exists rj ry,
    JSONParser_convertMapToCommentData data = (Some rj, None)
    /\ YAMLParser_convertMapToCommentData data = (Some ry, None)
    /\ (forall k, Metadata rj !! k
                  = if bool_decide (k ∈ json_excludeKeys) then None
                    else item_to_string <$> map_index data k)
    /\ (forall k, Metadata ry !! k
                  = if bool_decide (k ∈ yaml_excludeKeys) then None
                    else item_to_string <$> map_index data k).
Proof.
  intros Hnd. eexists _, _. split; [reflexivity|]. split; [reflexivity|].
  cbn [Metadata set_Metadata]. unfold metadata_of.
  split; intros k; rewrite (metadata_of_loop _ data ∅ k Hnd), lookup_empty;
    destruct (bool_decide _); [reflexivity| |reflexivity|];
    destruct (map_index data k); reflexivity.
Qed.

Lemma first_string_field_cons (key : gostring) (keys : list gostring)
  (data : list (gostring * GoValue)) :
  (no_text_at data key
   /\ first_string_field (key :: keys) data = first_string_field keys data)
  \/ (exists c s, map_index data key = Some (VString (c :: s))
                  /\ first_string_field (key :: keys) data = c :: s).
Proof.
  unfold no_text_at. simpl. destruct (map_index data key) as [v|] eqn:E.
  2:{ left. split; [intros s Hs; discriminate Hs|reflexivity]. }
  destruct v as [|b|n|f|t|l|l|m];
    try (left; split; [intros s Hs; discriminate Hs|reflexivity]).
  destruct t as [|c t].
  - left. split; [|reflexivity]. intros s Hs. injection Hs as <-. reflexivity.
  - right. exists c, t. split; reflexivity.
Qed.

Lemma first_string_field_nil (keys : list gostring) (data : list (gostring * GoValue)) :
  first_string_field keys data = [] <-> Forall (no_text_at data) keys.
Proof.
  induction keys as [|key keys IH]; [split; [constructor|reflexivity]|].
  destruct (first_string_field_cons key keys data) as [[Hk ->]|(c & s & Hv & ->)].
  - rewrite IH. split; [intros H; constructor; assumption|intros H; inversion H; assumption].
  - split; [discriminate|]. intros H. inversion H as [|? ? Hk _]; subst.
    specialize (Hk _ Hv). discriminate Hk.
Qed.

Lemma first_string_field_text (keys : list gostring) (data : list (gostring * GoValue))
  (s : gostring) :
  s <> [] ->
  first_string_field keys data = s
  <-> exists pre key post,
        keys = pre ++ key :: post
        /\ map_index data key = Some (VString s)
        /\ Forall (no_text_at data) pre.
Proof.
  intros Hs. induction keys as [|key keys IH].
  - split; [intros H; simpl in H; congruence|].
    intros (pre & key & post & H & _). destruct pre; discriminate H.
  - destruct (first_string_field_cons key keys data) as [[Hk ->]|(c & t & Hv & ->)].
    + rewrite IH. split.
      * intros (pre & key0 & post & -> & Hv & Hpre).
        exists (key :: pre), key0, post. repeat split; [exact Hv|constructor; assumption].
      * intros (pre & key0 & post & Heq & Hv & Hpre). destruct pre as [|k' pre].
        -- injection Heq as <- <-. specialize (Hk _ Hv). contradiction.
        -- injection Heq as <- ->. inversion Hpre; subst. exists pre, key0, post. auto.
    + split.
      * intros <-. exists [], key, keys. repeat split; [exact Hv|constructor].
      * intros (pre & key0 & post & Heq & Hv' & Hpre). destruct pre as [|k' pre].
        -- injection Heq as <- <-. rewrite Hv in Hv'. injection Hv' as <-. reflexivity.
        -- injection Heq as <- ->. inversion Hpre as [|? ? Hk _]; subst.
           specialize (Hk _ Hv). discriminate Hk.
Qed.

(** X16.  The logical name that the JSON parser takes from a mapping is the
    string at the first of the keys name, logical_name, logicalName, title
    and label that holds a string that is not empty, and is empty exactly
    when no such key holds one; likewise the description and the keys
    description, desc, comment, note and summary. *)
Theorem convertMapToCommentData_first_text (data : list (gostring * GoValue)) :
  exists r,
    JSONParser_convertMapToCommentData data = (Some r, None)
    /\ (LogicalName r = [] <-> Forall (no_text_at data) json_logicalNameKeys)
    /\ (Description r = [] <-> Forall (no_text_at data) json_descriptionKeys)
    /\ (forall s, s <> [] ->
          LogicalName r = s
          <-> exists pre key post,
                json_logicalNameKeys = pre ++ key :: post
                /\ map_index data key = Some (VString s)
                /\ Forall (no_text_at data) pre)
    /\ (forall s, s <> [] ->
          Description r = s
          <-> exists pre key post,
                json_descriptionKeys = pre ++ key :: post
                /\ map_index data key = Some (VString s)
                /\ Forall (no_text_at data) pre).
Proof.
  eexists. split; [reflexivity|].
  assert (Hln : forall r0 x, LogicalName (set_Metadata x r0) = LogicalName r0) by reflexivity.
  cbn [LogicalName Description set_Metadata].
  set (tags := match map_index data (str "tags") with Some _ => _ | None => _ end).
  assert (Ht : LogicalName tags = first_string_field json_logicalNameKeys data
               /\ Description tags = first_string_field json_descriptionKeys data).
  { unfold tags. destruct (map_index data (str "tags")) as [value|]; [|split; reflexivity].
    destruct (JSONParser_convertToStringSlice value) as [[?|] [?|]]; split; reflexivity. }
  destruct Ht as [Ht1 Ht2].
  assert (Hl : forall (x : CommentData) y z,
             LogicalName (match y with Some (VBool d) => set_Deprecated d
                            (match z with Some (VFloat64 n) => set_Priority (int_of_float64 n) x
                                     | _ => x end)
                          | _ => (match z with Some (VFloat64 n) => set_Priority (int_of_float64 n) x
                                     | _ => x end) end) = LogicalName x
             /\ Description (match y with Some (VBool d) => set_Deprecated d
                            (match z with Some (VFloat64 n) => set_Priority (int_of_float64 n) x
                                     | _ => x end)
                          | _ => (match z with Some (VFloat64 n) => set_Priority (int_of_float64 n) x
                                     | _ => x end) end) = Description x).
  { intros x [[]|] [[]|]; split; reflexivity. }
  destruct (Hl tags (map_index data (str "deprecated")) (map_index data (str "priority")))
    as [Hl1 Hl2].
  rewrite Hl1, Hl2, Ht1, Ht2.
  split; [apply first_string_field_nil|]. split; [apply first_string_field_nil|].
  split; intros s Hs; apply first_string_field_text; exact Hs.
Qed.

End ConvertMap.

Lemma convertMapToCommentData_Metadata_witness :
  NoDup [(str "name", VString (str "n")); (str "owner", VString (str "team"));
         (str "size", VInt 3)].*1
  /\ exists rj,
      JSONParser_convertMapToCommentData (L := sample_library)
        [(str "name", VString (str "n")); (str "owner", VString (str "team"));
         (str "size", VInt 3)] = (Some rj, None)
      /\ Metadata rj !! str "name" = None
      /\ Metadata rj !! str "owner" = Some (str "team")
      /\ Metadata rj !! str "size" = Some (str "3").
Proof.
  assert (Hnd : NoDup [(str "name", VString (str "n")); (str "owner", VString (str "team"));
                       (str "size", VInt 3)].*1).
  { apply (bool_decide_unpack _). vm_compute. exact I. }
  split; [exact Hnd|].
  destruct (convertMapToCommentData_Metadata (L := sample_library) _ Hnd)
    as (rj & ry & Hj & _ & Hmj & _).
  exists rj. split; [exact Hj|]. rewrite !Hmj. repeat split; reflexivity.
Defined.

(** ** The validator: what acceptance means *)

Lemma and_then_None a b : and_then a b = None <-> a = None /\ b = None.
Proof. destruct a, b; simpl; split; try tauto; try discriminate; intros [H1 H2]; congruence. Qed.

Section Validation.

Context {L : GoLibrary}.
Variable v : DefaultCommentValidator.

Lemma validateCharPattern_field text f f' :
  validateCharPattern v text f = None -> validateCharPattern v text f' = None.
Proof.
  unfold validateCharPattern. destruct (allowedCharRegex v) as [re|]; [|reflexivity].
  destruct (is_empty_string text); [reflexivity|]. destruct (negb (re text)); [discriminate|reflexivity].
Qed.

Lemma forbidden_word_loop_field upper text f f' words :
  forbidden_word_loop upper text f words = None ->
  forbidden_word_loop upper text f' words = None.
Proof.
  induction words as [|w words IH]; simpl; [reflexivity|].
  destruct (strings.Contains _ _); [discriminate|exact IH].
Qed.

Lemma validateForbiddenWords_field text f f' :
  validateForbiddenWords v text f = None -> validateForbiddenWords v text f' = None.
Proof.
  unfold validateForbiddenWords. destruct (_ || _); [reflexivity|].
  apply forbidden_word_loop_field.
Qed.

Lemma validateSQLInjection_field text f f' :
  validateSQLInjection v text f = None -> validateSQLInjection v text f' = None.
Proof.
  unfold validateSQLInjection. destruct (negb _); [reflexivity|].
  destruct (sqlInjectionRegex v) as [re|]; [|reflexivity].
  destruct (is_empty_string text); [reflexivity|]. destruct (re text); [discriminate|reflexivity].
Qed.

Lemma text_checks_accepted text f :
  and_then (validateCharPattern v text f)
    (and_then (validateForbiddenWords v text f) (validateSQLInjection v text f)) = None ->
  text_accepted v text.
Proof.
  intros H. apply and_then_None in H. destruct H as [H1 H].
  apply and_then_None in H. destruct H as [H2 H3]. intros f'.
  split; [exact (validateCharPattern_field _ _ _ H1)|].
  split; [exact (validateForbiddenWords_field _ _ _ H2)|].
  exact (validateSQLInjection_field _ _ _ H3).
Qed.

Lemma text_accepted_nil : text_accepted v [].
Proof.
  intros f. unfold validateCharPattern, validateForbiddenWords, validateSQLInjection.
  cbn [is_empty_string]. rewrite orb_true_r.
  destruct (allowedCharRegex v), (negb _), (sqlInjectionRegex v); repeat split.
Qed.

Lemma validateLogicalName_accepted s :
  validateLogicalName v s = None ->
  (s = [] \/ utf8.RuneCountInString s <= MaxLogicalNameLength (config v))
  /\ text_accepted v s.
Proof.
  unfold validateLogicalName. destruct s as [|c s]; [intros _; split; [auto|apply text_accepted_nil]|].
  cbn [is_empty_string].
  destruct (Z.ltb_spec (MaxLogicalNameLength (config v)) (utf8.RuneCountInString (c :: s))) as [Hlt1|Hge1];
    [discriminate|].
  intros H. split; [right; assumption|]. exact (text_checks_accepted _ _ H).
Qed.

Lemma validateDescription_accepted s :
  validateDescription v s = None ->
  (s = [] \/ utf8.RuneCountInString s <= MaxDescriptionLength (config v))
  /\ text_accepted v s.
Proof.
  unfold validateDescription. destruct s as [|c s]; [intros _; split; [auto|apply text_accepted_nil]|].
  cbn [is_empty_string].
  destruct (Z.ltb_spec (MaxDescriptionLength (config v)) (utf8.RuneCountInString (c :: s))) as [Hlt2|Hge2];
    [discriminate|].
  intros H. split; [right; assumption|]. exact (text_checks_accepted _ _ H).
Qed.

Lemma validateTags_loop_accepted i tags :
  validateTags_loop v i tags = None ->
  Forall (fun tag => tag <> []
                     /\ utf8.RuneCountInString tag <= MaxTagLength (config v)
                     /\ text_accepted v tag) tags.
Proof.
  revert i. induction tags as [|tag tags IH]; intros i; simpl; [constructor|].
  destruct tag as [|c tag]; [discriminate|]. cbn [is_empty_string].
  destruct (Z.ltb_spec (MaxTagLength (config v)) (utf8.RuneCountInString (c :: tag))) as [Hlt3|Hge3];
    [discriminate|].
  intros H.
  apply and_then_None in H. destruct H as [H1 H].
  apply and_then_None in H. destruct H as [H2 H].
  apply and_then_None in H. destruct H as [H3 H].
  constructor; [|exact (IH _ H)].
  split; [discriminate|]. split; [assumption|].
  apply (text_checks_accepted _ (Sprintf "tags[%d]" [ArgInt i])).
  apply and_then_None. split; [exact H1|]. apply and_then_None. split; assumption.
Qed.

Lemma validateMetadata_loop_accepted entries :
  validateMetadata_loop v entries = None ->
  Forall (fun '(key, value) =>
            key <> []
            /\ utf8.RuneCountInString key <= MaxMetadataKeyLength (config v)
            /\ utf8.RuneCountInString value <= MaxMetadataValueLength (config v)
            /\ text_accepted v key /\ text_accepted v value) entries.
Proof.
  induction entries as [|[key value] entries IH]; simpl; [constructor|].
  destruct key as [|c key]; [discriminate|]. cbn [is_empty_string].
  destruct (Z.ltb_spec (MaxMetadataKeyLength (config v)) (utf8.RuneCountInString (c :: key))) as [Hlt4|Hge4];
    [discriminate|].
  destruct (Z.ltb_spec (MaxMetadataValueLength (config v)) (utf8.RuneCountInString value))
    as [Hlt7|Hge7];
    [discriminate|].
  intros H.
  apply and_then_None in H. destruct H as [H1 H].
  apply and_then_None in H. destruct H as [H2 H].
  apply and_then_None in H. destruct H as [H3 H].
  apply and_then_None in H. destruct H as [H4 H].
  apply and_then_None in H. destruct H as [H5 H].
  apply and_then_None in H. destruct H as [H6 H].
  constructor; [|exact (IH H)].
  split; [discriminate|]. split; [assumption|]. split; [assumption|]. split.
  - intros f. split; [exact (validateCharPattern_field _ _ _ H1)|].
    split; [exact (validateForbiddenWords_field _ _ _ H3)|].
    exact (validateSQLInjection_field _ _ _ H5).
  - intros f. split; [exact (validateCharPattern_field _ _ _ H2)|].
    split; [exact (validateForbiddenWords_field _ _ _ H4)|].
    exact (validateSQLInjection_field _ _ _ H6).
Qed.

(** X17.  What a nil result of [Validate] means for the record.  The logical
    name and the description are within their length limits and pass the
    three text checks (character pattern, forbidden words, SQL injection);
    the tags are within the count limit and each tag is not empty, within
    the tag length limit and passes the text checks; the metadata are
    within the count limit and each key and value is within its length
    limit and passes the text checks, every key being not empty. *)
Theorem Validate_accepted (o : MapRange) (r : CommentData) :
  MapRange_ok o ->
  Validate v o (Some r) = None ->
  (LogicalName r = []
   \/ utf8.RuneCountInString (LogicalName r) <= MaxLogicalNameLength (config v))
  /\ (Description r = []
      \/ utf8.RuneCountInString (Description r) <= MaxDescriptionLength (config v))
  /\ text_accepted v (LogicalName r) /\ text_accepted v (Description r)
  /\ (Tags r = [] \/ Z.of_nat (length (Tags r)) <= MaxTagCount (config v))
  /\ Forall (fun tag => tag <> []
                        /\ utf8.RuneCountInString tag <= MaxTagLength (config v)
                        /\ text_accepted v tag) (Tags r)
  /\ (Metadata r = ∅ \/ Z.of_nat (size (Metadata r)) <= MaxMetadataCount (config v))
  /\ forall key value, Metadata r !! key = Some value ->
       key <> []
       /\ utf8.RuneCountInString key <= MaxMetadataKeyLength (config v)
       /\ utf8.RuneCountInString value <= MaxMetadataValueLength (config v)
       /\ text_accepted v key /\ text_accepted v value.
Proof.
  intros Ho H. simpl in H.
  apply and_then_None in H. destruct H as [Hln H].
  apply and_then_None in H. destruct H as [Hd H].
  apply and_then_None in H. destruct H as [Htags Hmd].
  destruct (validateLogicalName_accepted _ Hln) as [Hln1 Hln2].
  destruct (validateDescription_accepted _ Hd) as [Hd1 Hd2].
  split; [exact Hln1|]. split; [exact Hd1|]. split; [exact Hln2|]. split; [exact Hd2|].
  assert (Ht : (Tags r = [] \/ Z.of_nat (length (Tags r)) <= MaxTagCount (config v))
               /\ Forall (fun tag => tag <> []
                            /\ utf8.RuneCountInString tag <= MaxTagLength (config v)
                            /\ text_accepted v tag) (Tags r)).
  { unfold validateTags in Htags. destruct (Tags r) as [|t tags] eqn:E; [split; [auto|constructor]|].
    cbn [length Nat.eqb] in Htags.
    destruct (Z.ltb_spec (MaxTagCount (config v)) (Z.of_nat (S (length tags)))) as [Hlt5|Hge5];
      [discriminate|].
    split; [right; simpl length; lia|]. exact (validateTags_loop_accepted _ _ Htags). }
  destruct Ht as [Ht1 Ht2]. split; [exact Ht1|]. split; [exact Ht2|].
  unfold validateMetadata in Hmd.
  destruct (size (Metadata r) =? 0)%nat eqn:Es.
  - apply Nat.eqb_eq, map_size_empty_iff in Es. rewrite Es.
    split; [auto|]. intros key value Hk. rewrite lookup_empty in Hk. discriminate Hk.
  - destruct (Z.ltb_spec (MaxMetadataCount (config v)) (Z.of_nat (size (Metadata r)))) as [Hlt6|Hge6];
      [discriminate|].
    split; [right; assumption|]. intros key value Hk.
    pose proof (validateMetadata_loop_accepted _ Hmd) as Hall.
    apply (MapRange_ok_In o _ _ _ Ho) in Hk.
    exact (proj1 (List.Forall_forall _ _) Hall (key, value) Hk).
Qed.

Lemma validateMetadata_loop_cons entry entries :
  validateMetadata_loop v (entry :: entries) = None
  <-> validateMetadata_loop v [entry] = None /\ validateMetadata_loop v entries = None.
Proof.
  destruct entry as [key value]. simpl.
  destruct (is_empty_string key); [split; [discriminate|intros [? _]; discriminate]|].
  destruct (_ <? _); [split; [discriminate|intros [? _]; discriminate]|].
  destruct (_ <? _); [split; [discriminate|intros [? _]; discriminate]|].
  rewrite !and_then_None. tauto.
Qed.

Lemma validateMetadata_loop_Permutation l l' :
  l ≡ₚ l' -> validateMetadata_loop v l = None <-> validateMetadata_loop v l' = None.
Proof.
  induction 1 as [|x l l' _ IH|x y l|l l' l'' _ IH1 _ IH2].
  - reflexivity.
  - rewrite (validateMetadata_loop_cons x l), (validateMetadata_loop_cons x l'), IH. reflexivity.
  - rewrite (validateMetadata_loop_cons y (x :: l)), (validateMetadata_loop_cons x l),
      (validateMetadata_loop_cons x (y :: l)), (validateMetadata_loop_cons y l). tauto.
  - rewrite IH1. exact IH2.
Qed.

(** X18.  Whether [Validate] accepts a record does not depend on the order in
    which [range] visits the metadata: it returns nil for one order exactly
    when it returns nil for every other. *)
Theorem Validate_order_independent (o1 o2 : MapRange) (data : option CommentData) :
  MapRange_ok o1 -> MapRange_ok o2 ->
  Validate v o1 data = None <-> Validate v o2 data = None.
Proof.
  intros Ho1 Ho2. destruct data as [r|]; [|reflexivity]. simpl.
  rewrite !and_then_None.
  assert (H : validateMetadata v o1 (Metadata r) = None
              <-> validateMetadata v o2 (Metadata r) = None); [|tauto].
  unfold validateMetadata. destruct (_ =? _)%nat; [reflexivity|].
  destruct (_ <? _); [reflexivity|].
  apply validateMetadata_loop_Permutation. rewrite (Ho1 _), (Ho2 _). reflexivity.
Qed.


Lemma and_then_Some a b e : and_then a b = Some e -> a = Some e \/ b = Some e.
Proof. destruct a; simpl; auto. Qed.

Lemma validator_error_intro f val reason cause :
  cause ∈ [None; Some ErrLogicalNameTooLong; Some ErrDescriptionTooLong;
           Some ErrInvalidCharacters] ->
  validator_error (CommentValidationError f val reason cause).
Proof. intros H. split; [reflexivity|exact H]. Qed.

Ltac solve_validator_error :=
  intros [= <-]; apply validator_error_intro; set_solver.

Lemma validateCharPattern_error text f e :
  validateCharPattern v text f = Some e -> validator_error e.
Proof.
  unfold validateCharPattern. destruct (allowedCharRegex v) as [re|]; [|discriminate].
  destruct (is_empty_string text); [discriminate|].
  destruct (negb (re text)); [solve_validator_error|discriminate].
Qed.

Lemma validateForbiddenWords_error text f e :
  validateForbiddenWords v text f = Some e -> validator_error e.
Proof.
  unfold validateForbiddenWords. destruct (_ || _); [discriminate|].
  induction (ForbiddenWords (config v)) as [|w ws IH]; simpl; [discriminate|].
  destruct (strings.Contains _ _); [solve_validator_error|exact IH].
Qed.

Lemma validateSQLInjection_error text f e :
  validateSQLInjection v text f = Some e -> validator_error e.
Proof.
  unfold validateSQLInjection. destruct (negb _); [discriminate|].
  destruct (sqlInjectionRegex v) as [re|]; [|discriminate].
  destruct (is_empty_string text); [discriminate|].
  destruct (re text); [solve_validator_error|discriminate].
Qed.

Lemma text_checks_error text f e :
  and_then (validateCharPattern v text f)
    (and_then (validateForbiddenWords v text f) (validateSQLInjection v text f)) = Some e ->
  validator_error e.
Proof.
  intros H. apply and_then_Some in H. destruct H as [H|H];
    [exact (validateCharPattern_error _ _ _ H)|].
  apply and_then_Some in H. destruct H as [H|H];
    [exact (validateForbiddenWords_error _ _ _ H)|exact (validateSQLInjection_error _ _ _ H)].
Qed.

Lemma validateTags_loop_error i tags e :
  validateTags_loop v i tags = Some e -> validator_error e.
Proof.
  revert i. induction tags as [|tag tags IH]; intros i; simpl; [discriminate|].
  destruct (is_empty_string tag); [solve_validator_error|].
  destruct (_ <? _); [solve_validator_error|].
  intros H. apply and_then_Some in H. destruct H as [H|H];
    [exact (validateCharPattern_error _ _ _ H)|].
  apply and_then_Some in H. destruct H as [H|H];
    [exact (validateForbiddenWords_error _ _ _ H)|].
  apply and_then_Some in H. destruct H as [H|H];
    [exact (validateSQLInjection_error _ _ _ H)|exact (IH _ H)].
Qed.

Lemma validateMetadata_loop_error entries e :
  validateMetadata_loop v entries = Some e -> validator_error e.
Proof.
  induction entries as [|[key value] entries IH]; simpl; [discriminate|].
  destruct (is_empty_string key); [solve_validator_error|].
  destruct (_ <? _); [solve_validator_error|].
  destruct (_ <? _); [solve_validator_error|].
  intros H.
  repeat (apply and_then_Some in H; destruct H as [H|H];
          [first [exact (validateCharPattern_error _ _ _ H)
                 |exact (validateForbiddenWords_error _ _ _ H)
                 |exact (validateSQLInjection_error _ _ _ H)]|]).
  exact (IH H).
Qed.

Lemma Validate_Some_validator_error (o : MapRange) (data : option CommentData) (e : error) :
  Validate v o data = Some e -> validator_error e.
Proof.
  intros H.
  destruct data as [r|]; [|revert H; solve_validator_error]. simpl in H.
  apply and_then_Some in H. destruct H as [H|H].
  { unfold validateLogicalName in H. destruct (is_empty_string _); [discriminate|].
    destruct (_ <? _); [revert H; solve_validator_error|]. exact (text_checks_error _ _ _ H). }
  apply and_then_Some in H. destruct H as [H|H].
  { unfold validateDescription in H. destruct (is_empty_string _); [discriminate|].
    destruct (_ <? _); [revert H; solve_validator_error|]. exact (text_checks_error _ _ _ H). }
  apply and_then_Some in H. destruct H as [H|H].
  { unfold validateTags in H. destruct (_ =? _)%nat; [discriminate|].
    destruct (_ <? _); [revert H; solve_validator_error|]. exact (validateTags_loop_error _ _ _ H). }
  unfold validateMetadata in H. destruct (_ =? _)%nat; [discriminate|].
  destruct (_ <? _); [revert H; solve_validator_error|]. exact (validateMetadata_loop_error _ _ H).
Qed.

(** X19.  Every error that [Validate] or [ValidateAndSanitize] returns is a
    [CommentValidationError], for which [IsValidationError] holds, and its
    cause is nil, [ErrLogicalNameTooLong], [ErrDescriptionTooLong] or
    [ErrInvalidCharacters]. *)
Theorem Validate_error_kind (o1 o2 : MapRange) (data : option CommentData) (e : error) :
  Validate v o2 data = Some e \/ snd (ValidateAndSanitize v o1 o2 data) = Some e ->
  validator_error e.
Proof.
  intros [H|H]; [exact (Validate_Some_validator_error _ _ _ H)|].
  unfold ValidateAndSanitize in H.
  destruct (Validate v o2 (Sanitize v o1 data)) as [e'|] eqn:E; [|discriminate H].
  injection H as <-. exact (Validate_Some_validator_error _ _ _ E).
Qed.

End Validation.

(** ** The validator: what sanitization guarantees *)

Lemma escape_rune_In r x :
  In x (html.escape_rune r) ->
  (x = r /\ html_special r = false)
  \/ (html_special r = true /\ In x [0x26; 0x61; 0x6D; 0x70; 0x3B; 0x23; 0x33; 0x39; 0x6C;
                                     0x74; 0x67; 0x34]).
Proof.
  unfold html.escape_rune, html_special.
  destruct (r =? 0x26) eqn:E1; [intros H; right; split; [reflexivity|]; vm_compute in H |- *; tauto|].
  destruct (r =? 0x27) eqn:E2; [intros H; right; split; [reflexivity|]; vm_compute in H |- *; tauto|].
  destruct (r =? 0x3C) eqn:E3; [intros H; right; split; [reflexivity|]; vm_compute in H |- *; tauto|].
  destruct (r =? 0x3E) eqn:E4; [intros H; right; split; [reflexivity|]; vm_compute in H |- *; tauto|].
  destruct (r =? 0x22) eqn:E5; [intros H; right; split; [reflexivity|]; vm_compute in H |- *; tauto|].
  intros [<-|[]]. left. split; reflexivity.
Qed.

Lemma EscapeString_In s x :
  In x (html.EscapeString s) ->
  (In x s /\ html_special x = false)
  \/ In x [0x26; 0x61; 0x6D; 0x70; 0x3B; 0x23; 0x33; 0x39; 0x6C; 0x74; 0x67; 0x34].
Proof.
  unfold html.EscapeString. rewrite in_flat_map. intros (r & Hr & Hx).
  destruct (escape_rune_In r x Hx) as [[-> Hs]|[_ H]]; auto.
Qed.

Lemma replace_space_runs_length s b : (length (replace_space_runs s b) <= length s)%nat.
Proof.
  revert b. induction s as [|r s IH]; intros b; simpl; [lia|].
  destruct (is_re_space r).
  - rewrite length_app. specialize (IH true). destruct b; simpl; lia.
  - simpl. specialize (IH false). lia.
Qed.

Lemma TrimLeftSpace_length s : (length (strings.TrimLeftSpace s) <= length s)%nat.
Proof.
  induction s as [|r s IH]; simpl; [lia|]. destruct (unicode.IsSpace r); simpl; lia.
Qed.

Lemma TrimRightSpace_length s : (length (strings.TrimRightSpace s) <= length s)%nat.
Proof.
  induction s as [|r s IH]; simpl; [lia|].
  destruct (strings.TrimRightSpace s) as [|y kept].
  - destruct (unicode.IsSpace r); simpl; lia.
  - simpl in *. lia.
Qed.

Section Sanitization.

Context {L : GoLibrary}.
Variable v : DefaultCommentValidator.

(** X21.  The text that [sanitizeString] returns is made of printable
    characters only and has no run of two or more white-space characters
    left to collapse.  With HTML escaping it holds no quote, double quote,
    less-than or greater-than sign; without HTML escaping it is no longer
    than the input. *)
Theorem sanitizeString_output (s : gostring) :
  let t := sanitizeString v s in
  Forall (fun r => unicode_IsPrint r = true) t
  /\ replace_space_runs t false = t
  /\ (EnableHTMLEscape (config v) = true -> Forall (fun r => html_markup r = false) t)
  /\ (EnableHTMLEscape (config v) = false -> (length t <= length s)%nat).
Proof.
  intros t. unfold t, sanitizeString.
  destruct s as [|c s']; [repeat split; try constructor; simpl; lia|].
  cbn [is_empty_string]. set (s := c :: s'). clearbody s.
  set (s2 := removeControlChars (strings.TrimSpace s)).
  assert (Hs2 : forall r, In r s2 -> unicode_IsPrint r = true \/ r = 9 \/ r = 10 \/ r = 13).
  { intros r Hr. apply removeControlChars_In in Hr. tauto. }
  set (s3 := if EnableHTMLEscape (config v) then html.EscapeString s2 else s2).
  assert (Hs3 : forall r, In r s3 -> unicode_IsPrint r = true \/ r = 9 \/ r = 10 \/ r = 13).
  { intros r Hr. unfold s3 in Hr. destruct (EnableHTMLEscape (config v)); [|exact (Hs2 r Hr)].
    apply EscapeString_In in Hr. destruct Hr as [[Hr _]|Hr]; [exact (Hs2 r Hr)|].
    left. simpl in Hr.
    repeat (destruct Hr as [<-|Hr]; [reflexivity|]). destruct Hr. }
  split; [|split; [|split]].
  - apply List.Forall_forall. intros r Hr.
    apply replace_space_runs_In in Hr. destruct Hr as [->|[Hr Hre]]; [reflexivity|].
    destruct (Hs3 r Hr) as [Hp|[->|[->| ->]]]; [exact Hp|discriminate..].
  - apply replace_space_runs_idempotent.
  - intros Hon. apply List.Forall_forall. intros r Hr.
    apply replace_space_runs_In in Hr. destruct Hr as [->|[Hr _]]; [reflexivity|].
    unfold s3 in Hr. rewrite Hon in Hr. apply EscapeString_In in Hr.
    destruct Hr as [[_ Hsp]|Hr].
    + unfold html_special in Hsp. unfold html_markup.
      rewrite !orb_false_iff in Hsp. rewrite !orb_false_iff. tauto.
    + simpl in Hr. repeat (destruct Hr as [<-|Hr]; [reflexivity|]). destruct Hr.
  - intros Hoff. unfold s3. rewrite Hoff.
    pose proof (replace_space_runs_length s2 false) as H1.
    assert (H2 : (length s2 <= length (strings.TrimSpace s))%nat).
    { unfold s2, removeControlChars. apply List.filter_length_le. }
    pose proof (TrimRightSpace_length (strings.TrimLeftSpace s)) as H3.
    pose proof (TrimLeftSpace_length s) as H4.
    unfold strings.TrimSpace in *. lia.
Qed.

Lemma sanitize_entries_size (entries : list (gostring * gostring))
  (m0 : gmap gostring gostring) :
  (size (foldl (sanitize_entry v) m0 entries) <= size m0 + length entries)%nat.
Proof.
  revert m0. induction entries as [|[k x] entries IH]; intros m0; simpl; [lia|].
  specialize (IH (if negb (is_empty_string (sanitizeString v k))
                     && negb (is_empty_string (sanitizeString v x))
                  then <[sanitizeString v k := sanitizeString v x]> m0 else m0)).
  destruct (_ && _); [|lia].
  pose proof (map_size_insert (sanitizeString v k) (sanitizeString v x) m0) as Hs.
  destruct (m0 !! sanitizeString v k); unfold id in Hs; lia.
Qed.

(** X20.  [Sanitize] keeps [Priority], [Deprecated] and [Source]; sanitizes the
    logical name and the description; sanitizes the tags in order and drops
    those that become empty, so that there are no more tags than before;
    and returns metadata that are no more than before, whose keys and
    values are not empty, each entry being the sanitized form of an entry
    of the record. *)
Theorem Sanitize_invariants (o : MapRange) (r : CommentData) :
  MapRange_ok o ->
  let s := Sanitize_value v o r in
  Priority s = Priority r /\ Deprecated s = Deprecated r /\ Source s = Source r
  /\ LogicalName s = sanitizeString v (LogicalName r)
  /\ Description s = sanitizeString v (Description r)
  /\ Tags s = List.filter (fun tag => negb (is_empty_string tag))
                (map (sanitizeString v) (Tags r))
  /\ (length (Tags s) <= length (Tags r))%nat
  /\ (size (Metadata s) <= size (Metadata r))%nat
  /\ forall key value, Metadata s !! key = Some value ->
       key <> [] /\ value <> []
       /\ exists key0 value0,
            Metadata r !! key0 = Some value0
            /\ key = sanitizeString v key0 /\ value = sanitizeString v value0.
Proof.
  intros Ho s. unfold s. rewrite (Sanitize_value_fields v o r Ho).
  cbn [LogicalName Description Tags Metadata Priority Deprecated Source].
  repeat split; try reflexivity.
  - unfold sanitize_tags. etransitivity; [apply List.filter_length_le|].
    rewrite length_map. lia.
  - rewrite sanitize_metadata_foldl.
    pose proof (sanitize_entries_size (o (Metadata r)) ∅) as H.
    rewrite map_size_empty in H.
    rewrite (Permutation_length (Ho (Metadata r))) in H.
    rewrite <- (length_map_to_list (Metadata r)). simpl in H. exact H.
  - revert H. rewrite sanitize_metadata_foldl. revert key value.
    apply (sanitize_entries_invariant v (fun k _ => k <> [])).
    + intros k x Hk. rewrite lookup_empty in Hk. discriminate Hk.
    + intros k0 x0 _ Hk _. destruct (sanitizeString v k0); [discriminate|discriminate].
  - revert H. rewrite sanitize_metadata_foldl. revert key value.
    apply (sanitize_entries_invariant v (fun _ x => x <> [])).
    + intros k x Hk. rewrite lookup_empty in Hk. discriminate Hk.
    + intros k0 x0 _ _ Hx. destruct (sanitizeString v x0); [discriminate|discriminate].
  - revert H. rewrite sanitize_metadata_foldl. revert key value.
    apply (sanitize_entries_invariant v
             (fun k x => exists key0 value0,
                           Metadata r !! key0 = Some value0
                           /\ k = sanitizeString v key0 /\ x = sanitizeString v value0)).
    + intros k x Hk. rewrite lookup_empty in Hk. discriminate Hk.
    + intros k0 x0 Hin _ _. exists k0, x0.
      split; [apply (MapRange_ok_In o _ _ _ Ho); exact Hin|]. split; reflexivity.
Qed.

End Sanitization.

(** ** Forbidden words *)

Lemma HasPrefix_map (f : rune -> rune) s prefix :
  strings.HasPrefix s prefix = true -> strings.HasPrefix (map f s) (map f prefix) = true.
Proof.
  revert s. induction prefix as [|p prefix IH]; intros s; [destruct s; reflexivity|].
  destruct s as [|c s]; simpl; [discriminate|].
  intros H. apply andb_true_iff in H. destruct H as [Hc Hp].
  apply Z.eqb_eq in Hc. subst c. rewrite Z.eqb_refl. exact (IH s Hp).
Qed.

Lemma Contains_map (f : rune -> rune) s substr :
  strings.Contains s substr = true -> strings.Contains (map f s) (map f substr) = true.
Proof.
  induction s as [|c s IH]; simpl.
  - rewrite !orb_false_r. apply (HasPrefix_map f []).
  - intros H. apply orb_true_iff in H. destruct H as [H|H].
    + change (strings.HasPrefix (c :: s) substr = true) in H.
      apply (HasPrefix_map f) in H. simpl in H. rewrite H. reflexivity.
    + rewrite (IH H). apply orb_true_r.
Qed.

Section ForbiddenWords.

Context {L : GoLibrary}.
Variable v : DefaultCommentValidator.

Lemma forbidden_word_loop_None upper text field words :
  forbidden_word_loop upper text field words = None
  <-> Forall (fun word => strings.Contains upper (strings_ToUpper word) = false) words.
Proof.
  induction words as [|w words IH]; simpl; [split; [constructor|reflexivity]|].
  destruct (strings.Contains upper (strings_ToUpper w)) eqn:E.
  - split; [discriminate|]. intros H. inversion H; congruence.
  - rewrite IH. split; [intros H; constructor; assumption|intros H; inversion H; assumption].
Qed.

(** X22.  The forbidden-word check ignores case and looks for substrings: a
    text that contains any spelling of a forbidden word, one with the same
    upper-case form, is rejected with a validation error, also when the
    word is part of a longer word. *)
Theorem validateForbiddenWords_any_case (text spelling word : gostring) (field : Text) :
  word ∈ ForbiddenWords (config v) ->
  strings_ToUpper spelling = strings_ToUpper word ->
  strings.Contains text spelling = true ->
  text <> [] ->
  exists e, validateForbiddenWords v text field = Some e /\ validator_error e.
Proof.
  intros Hw Hsp Hc Hne. unfold validateForbiddenWords.
  destruct (ForbiddenWords (config v)) as [|w0 ws] eqn:Ew; [inversion Hw|].
  destruct text as [|c text]; [contradiction|]. cbn [length Nat.eqb is_empty_string orb].
  destruct (forbidden_word_loop _ _ field (w0 :: ws)) as [e|] eqn:E.
  - exists e. split; [reflexivity|].
    apply (validateForbiddenWords_error v (c :: text) field).
    unfold validateForbiddenWords. rewrite Ew. exact E.
  - exfalso. apply forbidden_word_loop_None in E.
    apply list_elem_of_In in Hw.
    pose proof (proj1 (List.Forall_forall _ _) E word Hw) as Hno.
    apply (Contains_map unicode_ToUpper) in Hc.
    fold (strings_ToUpper (c :: text)) in Hc. fold (strings_ToUpper spelling) in Hc.
    rewrite Hsp in Hc. congruence.
Qed.

End ForbiddenWords.

(** ** The validator of a configuration *)

(** X23.  The validator that [createValidatorFromConfig] builds always checks
    for SQL injection, whatever the security level.  It escapes HTML when
    validation is off, and when validation is on exactly when sanitization
    is enabled.  With validation off it is the default validator; at the
    permissive level with validation on it has no character pattern and no
    forbidden words. *)
Theorem createValidatorFromConfig_checks `{L : GoLibrary} (cfg : EnhancedCommentConfigurator) :
  let created := createValidatorFromConfig cfg in
  EnableSQLInjectionCheck (config created) = true
  /\ sqlInjectionRegex created = Some (regexp_MatchString sqlPattern)
  /\ EnableHTMLEscape (config created)
     = (if IsEnhancedCommentValidationEnabled cfg
        then IsEnhancedCommentSanitizationEnabled cfg else true)
  /\ (IsEnhancedCommentValidationEnabled cfg = false ->
      created = NewDefaultCommentValidator)
  /\ (EnhancedCommentSecurityLevel cfg = str "permissive" ->
      IsEnhancedCommentValidationEnabled cfg = true ->
      allowedCharRegex created = None /\ ForbiddenWords (config created) = []).
Proof.
  intros created. unfold created, createValidatorFromConfig.
  destruct (IsEnhancedCommentValidationEnabled cfg) eqn:Ev; cbn [negb].
  - split; [reflexivity|]. split; [reflexivity|]. split; [reflexivity|].
    split; [discriminate|]. intros -> _. split; reflexivity.
  - split; [reflexivity|]. split; [reflexivity|]. split; [reflexivity|].
    split; [reflexivity|]. intros _ H. discriminate H.
Qed.

(** ** The validator at concrete records *)

Lemma reverse_range_ok : MapRange_ok reverse_range.
Proof. intros m. unfold reverse_range. apply reverse_Permutation. Qed.

Lemma Validate_accepted_witness :
  MapRange_ok canonical_range
  /\ Validate permissive_validator canonical_range (Some clean_sample) = None
  /\ Z.of_nat (length (Tags clean_sample)) <= 50
  /\ Forall (fun tag => tag <> []) (Tags clean_sample).
Proof.
  assert (Hv : Validate permissive_validator canonical_range (Some clean_sample) = None)
    by (vm_compute; reflexivity).
  split; [exact canonical_range_ok|]. split; [exact Hv|].
  destruct (Validate_accepted (L := sample_library) permissive_validator canonical_range
              clean_sample canonical_range_ok Hv) as (_ & _ & _ & _ & Hcount & Htags & _).
  split.
  - destruct Hcount as [Hc|Hc]; [discriminate Hc|exact Hc].
  - eapply Forall_impl; [exact Htags|]. intros tag H. exact (proj1 H).
Defined.

Lemma Validate_order_independent_witness :
  MapRange_ok canonical_range /\ MapRange_ok reverse_range
  /\ Validate permissive_validator reverse_range (Some clean_sample) = None.
Proof.
  split; [exact canonical_range_ok|]. split; [exact reverse_range_ok|].
  apply (Validate_order_independent (L := sample_library) permissive_validator
           canonical_range reverse_range (Some clean_sample)
           canonical_range_ok reverse_range_ok).
  vm_compute. reflexivity.
Defined.

Lemma Validate_error_kind_witness :
  exists e, Validate (NewDefaultCommentValidator (L := sample_library)) canonical_range
              (Some long_name_record) = Some e
            /\ validator_error e
            /\ Unwrap e = Some ErrLogicalNameTooLong.
Proof.
  eexists. split; [vm_compute; reflexivity|]. split; [|reflexivity].
  apply (Validate_error_kind (L := sample_library)
           (NewDefaultCommentValidator (L := sample_library)) canonical_range canonical_range
           (Some long_name_record)).
  left. vm_compute. reflexivity.
Defined.

Lemma Sanitize_invariants_witness :
  MapRange_ok canonical_range
  /\ Tags (Sanitize_value (NewDefaultCommentValidator (L := sample_library))
             canonical_range clean_sample) = [str "a b"; str "c"]
  /\ Priority (Sanitize_value (NewDefaultCommentValidator (L := sample_library))
                 canonical_range clean_sample) = 2.
Proof.
  split; [exact canonical_range_ok|].
  destruct (Sanitize_invariants (L := sample_library)
              (NewDefaultCommentValidator (L := sample_library))
              canonical_range clean_sample canonical_range_ok)
    as (Hp & _ & _ & _ & _ & Ht & _).
  split; [rewrite Ht; reflexivity|rewrite Hp; reflexivity].
Defined.

Lemma validateForbiddenWords_any_case_witness :
  str "DROP" ∈ ForbiddenWords (config (NewDefaultCommentValidator (L := sample_library)))
  /\ strings_ToUpper (L := sample_library) (str "Drop")
     = strings_ToUpper (L := sample_library) (str "DROP")
  /\ strings.Contains (str "Dropdown list") (str "Drop") = true
  /\ exists e, validateForbiddenWords (NewDefaultCommentValidator (L := sample_library))
                 (str "Dropdown list") (literal "logical_name") = Some e
               /\ validator_error e.
Proof.
  assert (Hw : str "DROP"
               ∈ ForbiddenWords (config (NewDefaultCommentValidator (L := sample_library))))
    by (left).
  split; [exact Hw|]. split; [reflexivity|]. split; [reflexivity|].
  apply (validateForbiddenWords_any_case (L := sample_library)
           (NewDefaultCommentValidator (L := sample_library))
           (str "Dropdown list") (str "Drop") (str "DROP") (literal "logical_name") Hw);
    [reflexivity|reflexivity|discriminate].
Defined.

(** ** The processor: outcomes of a call *)

Section ProcessorOutcomes.

Context {L : GoLibrary}.
Variable p : EnhancedCommentProcessor.

Lemma ProcessComment_outcomes sel comment delimiter T :
  (exists r, ProcessComment p sel comment delimiter T = (Some r, None))
  \/ (exists e, ProcessComment p sel comment delimiter T = (None, Some e)
                /\ (is_timeout e /\ sel = timer_fired /\ comment <> []
                    \/ is_parse_failure e /\ StrictMode (pconfig p) = true)).
Proof.
  unfold ProcessComment. destruct comment as [|c comment]; [left; eauto|].
  cbn [is_empty_string]. destruct sel.
  - unfold processCommentInternal.
    destruct (ParseWithFallback_total (registry p) (c :: comment)
                (if is_empty_string delimiter then DefaultDelimiter (pconfig p) else delimiter))
      as [[d Hd]|[e He]].
    + rewrite Hd. left. eauto.
    + rewrite He. destruct (StrictMode (pconfig p)) eqn:Es; [|left; eauto].
      right. eexists. split; [reflexivity|]. right. split; [eexists; reflexivity|reflexivity].
  - right. eexists. split; [reflexivity|]. left.
    split; [eexists; reflexivity|]. split; [reflexivity|discriminate].
Qed.

(** X24.  [ProcessCommentWithValidation] returns a record and no error, or an
    error and no record.  The error is one of three that the processor
    makes with [fmt.Errorf]: the timeout, which needs a comment that is not
    empty and the timer to fire first; the parse failure and the validation
    failure, which need strict mode.  [IsValidationError] is false for all
    three, although the validation failure wraps an error of the
    validator. *)
Theorem ProcessCommentWithValidation_outcomes (s : Schedule)
  (comment delimiter T : gostring) :
  (exists r, ProcessCommentWithValidation p s comment delimiter T = (Some r, None))
  \/ (exists e, ProcessCommentWithValidation p s comment delimiter T = (None, Some e)
                /\ processor_error e
                /\ IsValidationError (Some e) = false
                /\ (is_timeout e -> select_case s = timer_fired /\ comment <> [])
                /\ (is_parse_failure e \/ is_validation_failure e ->
                    StrictMode (pconfig p) = true)
                /\ (is_validation_failure e ->
                    exists cause, Unwrap e = Some cause /\ validator_error cause)).
Proof.
  unfold ProcessCommentWithValidation.
  destruct (ProcessComment_outcomes (select_case s) comment delimiter T)
    as [[r Hr]|(e & He & Hkind)]; rewrite ?Hr, ?He.
  2:{ right. exists e. split; [reflexivity|].
      destruct Hkind as [([ms ->] & Hsel & Hne)|([cause ->] & Hstrict)].
      - split; [left; eexists; reflexivity|]. split; [reflexivity|].
        split; [auto|]. split.
        + intros [[c H]|[c H]]; discriminate H.
        + intros [c H]. discriminate H.
      - split; [right; left; eexists; reflexivity|]. split; [reflexivity|].
        split; [intros [ms H]; discriminate H|]. split; [auto|].
        intros [c H]. discriminate H. }
  destruct (validator p) as [v|]; [|left; eauto].
  destruct (EnableValidation (pconfig p)), (EnableSanitization (pconfig p));
    try (left; eexists; reflexivity).
  - unfold ValidateAndSanitize. cbn [Sanitize].
    destruct (Validate v (range_validate s) _) as [verr|] eqn:Ev; [|left; eauto].
    destruct (StrictMode (pconfig p)) eqn:Es; [|left; eauto].
    right. eexists. split; [reflexivity|].
    split; [right; right; eexists; reflexivity|]. split; [reflexivity|].
    split; [intros [ms H]; discriminate H|]. split; [auto|].
    intros _. exists verr. split; [reflexivity|].
    exact (Validate_Some_validator_error v _ _ _ Ev).
  - destruct (Validate v (range_validate s) _) as [verr|] eqn:Ev; [|left; eauto].
    destruct (StrictMode (pconfig p)) eqn:Es; [|left; eauto].
    right. eexists. split; [reflexivity|].
    split; [right; right; eexists; reflexivity|]. split; [reflexivity|].
    split; [intros [ms H]; discriminate H|]. split; [auto|].
    intros _. exists verr. split; [reflexivity|].
    exact (Validate_Some_validator_error v _ _ _ Ev).
Qed.

End ProcessorOutcomes.

Section ProcessorBatches.

Context {L : GoLibrary}.
Variable p : EnhancedCommentProcessor.

(** One call of the batch loops returns a record and no error, or no
    record and an error that [IsValidationError] does not recognise. *)
Lemma call_record_or_error (s : Schedule) (comment delimiter T : gostring) :
  (exists r, ProcessCommentWithValidation p s comment delimiter T = (Some r, None))
  \/ (exists e, ProcessCommentWithValidation p s comment delimiter T = (None, Some e)
                /\ IsValidationError (Some e) = false).
Proof.
  unfold ProcessCommentWithValidation.
  destruct (ProcessComment_outcomes p (select_case s) comment delimiter T)
    as [[r Hr]|(e & He & Hkind)]; rewrite ?Hr, ?He.
  2:{ right. exists e. split; [reflexivity|].
      destruct Hkind as [([ms ->] & _)|([cause ->] & _)]; reflexivity. }
  destruct (validator p) as [v|]; [|left; eauto].
  destruct (EnableValidation (pconfig p)), (EnableSanitization (pconfig p));
    try (left; eexists; reflexivity).
  - unfold ValidateAndSanitize. cbn [Sanitize].
    destruct (Validate v (range_validate s) _) as [verr|]; [|left; eauto].
    destruct (StrictMode (pconfig p)); [|left; eauto].
    right. eexists. split; reflexivity.
  - destruct (Validate v (range_validate s) _) as [verr|]; [|left; eauto].
    destruct (StrictMode (pconfig p)); [|left; eauto].
    right. eexists. split; reflexivity.
Qed.

Lemma process_each_outcomes schedules i comments :
  Forall (fun outcome =>
            (exists r, outcome = (Some r, None))
            \/ (exists e, outcome = (None, Some e) /\ IsValidationError (Some e) = false))
         (process_each p schedules i comments).
Proof.
  revert i. induction comments as [|input comments IH]; intros i; simpl; constructor.
  - apply call_record_or_error.
  - apply IH.
Qed.

Lemma process_each_length schedules i comments :
  length (process_each p schedules i comments) = length comments.
Proof.
  revert i. induction comments as [|input comments IH]; intros i; simpl; [reflexivity|].
  rewrite IH. reflexivity.
Qed.

Lemma count_results (outcomes : list (option CommentData * option error))
  (stats : ProcessingStats) :
  Forall (fun outcome =>
            (exists r, outcome = (Some r, None))
            \/ (exists e, outcome = (None, Some e) /\ IsValidationError (Some e) = false))
         outcomes ->
  let final := foldl count_result stats (map snd outcomes) in
  TotalProcessed final = TotalProcessed stats
  /\ SuccessCount final + ErrorCount final
     = SuccessCount stats + ErrorCount stats + Z.of_nat (length outcomes)
  /\ ErrorCount final = ErrorCount stats + count_nil (map fst outcomes)
  /\ ValidationErrors final = ValidationErrors stats
  /\ ParsingErrors final - ParsingErrors stats = ErrorCount final - ErrorCount stats
  /\ ProcessingTime final = ProcessingTime stats.
Proof.
  intros H. revert stats. induction H as [|outcome outcomes Ho _ IH]; intros stats.
  - simpl. unfold count_nil. simpl. repeat split; lia.
  - cbn [map foldl]. cbv zeta in IH |- *.
    specialize (IH (count_result stats (snd outcome))).
    destruct IH as (H1 & H2 & H3 & H4 & H5 & H6).
    unfold count_nil in *.
    destruct Ho as [[r ->]|(e & -> & He)]; cbn [fst snd count_result map List.filter] in *.
    + rewrite (bool_decide_eq_false_2 (Some r = None)) by discriminate.
      cbn [TotalProcessed SuccessCount ErrorCount ValidationErrors ParsingErrors
           ProcessingTime length] in *.
      repeat split; lia.
    + rewrite He in *. rewrite (bool_decide_eq_true_2 (@None CommentData = None)) by reflexivity.
      cbn [TotalProcessed SuccessCount ErrorCount ValidationErrors ParsingErrors
           ProcessingTime length] in *.
      repeat split; lia.
Qed.

(** X25.  [ProcessCommentsWithStats] returns one result for each input, the same
    results as [ProcessMultipleComments].  [TotalProcessed] is the number of
    inputs and is the sum of [SuccessCount] and [ErrorCount]; [ErrorCount]
    is the number of nil results.  [ValidationErrors] is always 0: every
    error is counted in [ParsingErrors], validation failures too. *)
Theorem ProcessCommentsWithStats_counts (schedules : nat -> Schedule) (elapsed : Z)
  (comments : list CommentInput.t) :
  let results := fst (ProcessCommentsWithStats p schedules elapsed comments) in
  let stats := snd (ProcessCommentsWithStats p schedules elapsed comments) in
  length results = length comments
  /\ results = fst (ProcessMultipleComments p schedules comments)
  /\ TotalProcessed stats = Z.of_nat (length comments)
  /\ SuccessCount stats + ErrorCount stats = TotalProcessed stats
  /\ ErrorCount stats = count_nil results
  /\ ValidationErrors stats = 0
  /\ ParsingErrors stats = ErrorCount stats
  /\ ProcessingTime stats = elapsed.
Proof.
  intros results stats. unfold results, stats, ProcessCommentsWithStats, ProcessMultipleComments.
  cbn [fst snd TotalProcessed SuccessCount ErrorCount ValidationErrors ParsingErrors
       ProcessingTime].
  destruct (count_results _
              {| TotalProcessed := Z.of_nat (length comments);
                 SuccessCount := 0; ErrorCount := 0; ValidationErrors := 0;
                 ParsingErrors := 0; ProcessingTime := 0 |}
              (process_each_outcomes schedules O comments))
    as (H1 & H2 & H3 & H4 & H5 & H6).
  cbn [TotalProcessed SuccessCount ErrorCount ValidationErrors ParsingErrors
       ProcessingTime] in *.
  rewrite process_each_length in H2.
  split; [rewrite length_map; apply process_each_length|].
  split; [reflexivity|]. repeat split; lia.
Qed.

End ProcessorBatches.

Section ProcessorModes.

Context {L : GoLibrary}.
Variable p : EnhancedCommentProcessor.

(** X26.  Without strict mode the only error of [ProcessCommentWithValidation]
    is the timeout.  It is returned exactly when the comment is not empty
    and the timer fires before the worker answers, and it names the
    configured number of milliseconds; in every other case a record is
    returned. *)
Theorem lenient_errors_are_timeouts (s : Schedule) (comment delimiter T : gostring) :
  StrictMode (pconfig p) = false ->
  (forall e, snd (ProcessCommentWithValidation p s comment delimiter T) = Some e ->
             is_timeout e /\ comment <> [] /\ select_case s = timer_fired)
  /\ (comment <> [] -> select_case s = timer_fired ->
      ProcessCommentWithValidation p s comment delimiter T
      = (None, Some (fmt_Errorf "comment processing timeout after %d ms"
                       [ArgInt (ProcessingTimeout (pconfig p))] None)))
  /\ (comment = [] \/ select_case s = result_received ->
      exists r, ProcessCommentWithValidation p s comment delimiter T = (Some r, None)).
Proof.
  intros Hlenient.
  assert (Hok : comment = [] \/ select_case s = result_received ->
                exists r, ProcessCommentWithValidation p s comment delimiter T = (Some r, None)).
  { intros Hc. unfold ProcessCommentWithValidation.
    destruct (ProcessComment_outcomes p (select_case s) comment delimiter T)
      as [[r Hr]|(e & He & Hkind)].
    - rewrite Hr. destruct (validator p) as [v|]; [|eauto].
      rewrite Hlenient.
      destruct (EnableValidation (pconfig p)), (EnableSanitization (pconfig p)); eauto.
      + unfold ValidateAndSanitize. cbn [Sanitize].
        destruct (Validate v (range_validate s) _); eauto.
      + destruct (Validate v (range_validate s) _); eauto.
    - exfalso. destruct Hkind as [(_ & Hsel & Hne)|(_ & Hstrict)]; [|congruence].
      destruct Hc as [Hc|Hc]; congruence. }
  assert (Hlate : comment <> [] -> select_case s = timer_fired ->
                  ProcessCommentWithValidation p s comment delimiter T
                  = (None, Some (fmt_Errorf "comment processing timeout after %d ms"
                                   [ArgInt (ProcessingTimeout (pconfig p))] None))).
  { intros Hne Hsel. unfold ProcessCommentWithValidation, ProcessComment.
    destruct comment as [|c comment]; [contradiction|]. rewrite Hsel. reflexivity. }
  split; [|split; [exact Hlate|exact Hok]].
  intros e He. destruct comment as [|c comment].
  { destruct (Hok (or_introl eq_refl)) as [r Hr]. rewrite Hr in He. discriminate He. }
  destruct (select_case s) eqn:Hsel.
  { destruct (Hok (or_intror eq_refl)) as [r Hr]. rewrite Hr in He. discriminate He. }
  rewrite (Hlate ltac:(discriminate) eq_refl) in He. injection He as <-.
  split; [eexists; reflexivity|]. split; [discriminate|reflexivity].
Qed.

(** X27.  A record returned by [ProcessCommentForObject] is the record of
    [ProcessCommentWithValidation] on the same arguments with one metadata
    entry more or replaced: the key object_name with the object name.  On
    an empty comment that entry is the whole of the metadata and every
    other field is empty. *)
Theorem ProcessCommentForObject_object_name (s : Schedule)
  (comment delimiter T objectName : gostring) (r : CommentData) :
  ProcessCommentForObject p s comment delimiter T objectName = (Some r, None) ->
  Metadata r !! str "object_name" = Some objectName
  /\ (exists before,
        ProcessCommentWithValidation p s comment delimiter T = (Some before, None)
        /\ r = set_Metadata (<[str "object_name" := objectName]> (Metadata before)) before)
  /\ (comment = [] ->
      r = set_Metadata {[ str "object_name" := objectName ]} (CommentData_with_source [])).
Proof.
  unfold ProcessCommentForObject. intros H.
  destruct (ProcessCommentWithValidation p s comment delimiter T) as [[before|] [err|]] eqn:E;
    try discriminate H.
  injection H as <-. split; [apply lookup_insert_eq|]. split; [eauto|].
  intros ->. rewrite empty_text_not_annotated in E. injection E as <-. reflexivity.
Qed.

End ProcessorModes.


Lemma lenient_errors_are_timeouts_witness :
  StrictMode (pconfig permissive_processor) = false
  /\ (exists r, ProcessCommentWithValidation (L := sample_library) permissive_processor
                  prompt_schedule (str "users|all users") [] ObjectTypeTable = (Some r, None))
  /\ ProcessCommentWithValidation (L := sample_library) permissive_processor
       late_schedule (str "users|all users") [] ObjectTypeTable
     = (None, Some (fmt_Errorf "comment processing timeout after %d ms" [ArgInt 1000] None)).
Proof.
  split; [reflexivity|].
  destruct (lenient_errors_are_timeouts (L := sample_library) permissive_processor
              prompt_schedule (str "users|all users") [] ObjectTypeTable eq_refl)
    as (_ & _ & Hok).
  destruct (lenient_errors_are_timeouts (L := sample_library) permissive_processor
              late_schedule (str "users|all users") [] ObjectTypeTable eq_refl)
    as (_ & Hlate & _).
  split; [apply Hok; right; reflexivity|apply Hlate; [discriminate|reflexivity]].
Defined.

Lemma ProcessCommentForObject_object_name_witness :
  exists r,
    ProcessTableComment (L := sample_library) permissive_processor prompt_schedule
      (str "users|all users") [] (str "users") = (Some r, None)
    /\ LogicalName r = str "users"
    /\ Metadata r !! str "object_name" = Some (str "users")
    /\ Metadata r !! str "object_type" = Some ObjectTypeTable.
Proof.
  eexists. split; [vm_compute; reflexivity|]. split; [reflexivity|].
  split; [|reflexivity].
  eapply (ProcessCommentForObject_object_name (L := sample_library) permissive_processor
            prompt_schedule (str "users|all users") [] ObjectTypeTable (str "users")).
  vm_compute. reflexivity.
Defined.


(** ** The legacy parser: delimiters and escapes *)

Lemma splitWithEscape_loop_current delimiter s skip escaped current :
  LegacyParser.splitWithEscape_loop delimiter s skip escaped current
  = prepend_first (rev current)
      (LegacyParser.splitWithEscape_loop delimiter s skip escaped []).
Proof.
  revert skip escaped current.
  induction s as [|c s IH]; intros skip escaped current; simpl.
  - rewrite app_nil_r. reflexivity.
  - destruct skip as [|k]; [|apply IH].
    destruct escaped.
    + rewrite (IH O false (c :: current)), (IH O false [c]). simpl.
      destruct (LegacyParser.splitWithEscape_loop delimiter s 0 false []); simpl;
        [reflexivity|]. rewrite <- app_assoc. reflexivity.
    + destruct (_ && _); [apply IH|].
      destruct (match delimiter with [] => true | _ => _ end).
      * simpl. rewrite app_nil_r. reflexivity.
      * rewrite (IH O false (c :: current)), (IH O false [c]). simpl.
        destruct (LegacyParser.splitWithEscape_loop delimiter s 0 false []); simpl;
          [reflexivity|]. rewrite <- app_assoc. reflexivity.
Qed.

Lemma splitWithEscape_loop_skip delimiter x s escaped current :
  LegacyParser.splitWithEscape_loop delimiter (x ++ s) (length x) escaped current
  = LegacyParser.splitWithEscape_loop delimiter s O escaped current.
Proof. induction x as [|c x IH]; simpl; [reflexivity|exact IH]. Qed.

Lemma splitWithEscape_loop_start delimiter s :
  delimiter <> [] ->
  LegacyParser.splitWithEscape_loop delimiter s O false []
  = LegacyParser.splitWithEscape s delimiter.
Proof.
  intros Hd. unfold LegacyParser.splitWithEscape.
  destruct delimiter as [|d0 d']; [contradiction|]. destruct s; reflexivity.
Qed.

Lemma HasPrefix_app_self d b : strings.HasPrefix (d ++ b) d = true.
Proof.
  induction d as [|c d IH]; simpl; [destruct b; reflexivity|].
  rewrite Z.eqb_refl. exact IH.
Qed.

Lemma delimiter_free_tail c a rest d :
  delimiter_free (c :: a) rest d -> delimiter_free a rest d.
Proof. intros H pre x -> Hx. apply (H (c :: pre) x); [reflexivity|exact Hx]. Qed.

(** The loop over [a], which holds no delimiter and ends in no backslash:
    every rune goes to the builder. *)
Lemma splitWithEscape_loop_free d0 d' a rest current :
  delimiter_free a rest (d0 :: d') ->
  last a <> Some 0x5C ->
  rest <> [] ->
  LegacyParser.splitWithEscape_loop (d0 :: d') (a ++ rest) O false current
  = LegacyParser.splitWithEscape_loop (d0 :: d') rest O false (rev a ++ current).
Proof.
  intros Hfree Hlast Hrest. revert current.
  induction a as [|c a IH]; intros current; [reflexivity|].
  cbn [app LegacyParser.splitWithEscape_loop].
  pose proof (Hfree [] (c :: a) eq_refl ltac:(discriminate)) as Hc.
  change (strings.HasPrefix (c :: a ++ rest) (d0 :: d') = false) in Hc.
  assert (Hesc : (c =? 0x5C) && negb (is_empty_string (a ++ rest))
                 && strings.HasPrefix (a ++ rest) (d0 :: d') = false).
  { destruct a as [|c' a'].
    - simpl in Hlast. destruct (Z.eqb_spec c 0x5C) as [->|]; [contradiction Hlast; reflexivity|].
      reflexivity.
    - rewrite (Hfree [c] (c' :: a') eq_refl ltac:(discriminate)). apply andb_false_r. }
  rewrite Hesc.
  replace (strings.HasPrefix (c :: a ++ rest) (d0 :: d')) with false by (symmetry; exact Hc).
  rewrite IH.
  - simpl. rewrite <- app_assoc. reflexivity.
  - exact (delimiter_free_tail _ _ _ _ Hfree).
  - destruct a as [|c' a']; [discriminate|]. rewrite last_cons_cons in Hlast. exact Hlast.
Qed.

Lemma splitWithEscape_loop_escape delimiter rest current :
  rest <> [] -> strings.HasPrefix rest delimiter = true ->
  LegacyParser.splitWithEscape_loop delimiter (0x5C :: rest) O false current
  = LegacyParser.splitWithEscape_loop delimiter rest O true current.
Proof.
  intros Hne Hp. cbn [LegacyParser.splitWithEscape_loop]. rewrite Hp.
  destruct rest; [contradiction|]. reflexivity.
Qed.

Lemma splitWithEscape_loop_escaped delimiter c rest current :
  LegacyParser.splitWithEscape_loop delimiter (c :: rest) O true current
  = LegacyParser.splitWithEscape_loop delimiter rest O false (c :: current).
Proof. reflexivity. Qed.

Lemma splitWithEscape_loop_delimiter d0 d' b current :
  d0 <> 0x5C ->
  LegacyParser.splitWithEscape_loop (d0 :: d') (d0 :: d' ++ b) O false current
  = rev current :: LegacyParser.splitWithEscape_loop (d0 :: d') b O false [].
Proof.
  intros Hd0. cbn [LegacyParser.splitWithEscape_loop].
  rewrite (proj2 (Z.eqb_neq d0 0x5C) Hd0). cbn [andb].
  pose proof (HasPrefix_app_self (d0 :: d') b) as Hp.
  change (strings.HasPrefix ((d0 :: d') ++ b) (d0 :: d')) with
    (strings.HasPrefix (d0 :: d' ++ b) (d0 :: d')) in Hp.
  rewrite Hp. f_equal.
  change (length (d0 :: d') - 1)%nat with (length d' - 0)%nat. rewrite Nat.sub_0_r.
  apply splitWithEscape_loop_skip.
Qed.

(** X29.  Splitting at a delimiter whose first character is not a backslash.
    Let the text [a] hold no start of the delimiter and not end with a
    backslash.  Then [a], the delimiter and [b] split into [a] and the
    parts of [b]; and [a], a backslash, the delimiter and [b] keep the first
    character of the delimiter without the backslash: the parts are those
    of what follows that character, with [a] and the character in front of
    the first part. *)
Theorem splitWithEscape_delimiter_and_escape (a b : gostring) (d0 : rune) (d' : gostring) :
  d0 <> 0x5C ->
  last a <> Some 0x5C ->
  (delimiter_free a (d0 :: d' ++ b) (d0 :: d') ->
   LegacyParser.splitWithEscape (a ++ d0 :: d' ++ b) (d0 :: d')
   = a :: LegacyParser.splitWithEscape b (d0 :: d'))
  /\ (delimiter_free a (0x5C :: d0 :: d' ++ b) (d0 :: d') ->
      LegacyParser.splitWithEscape (a ++ 0x5C :: d0 :: d' ++ b) (d0 :: d')
      = prepend_first (a ++ [d0]) (LegacyParser.splitWithEscape (d' ++ b) (d0 :: d'))).
Proof.
  intros Hd0 Hlast. split; intros Hfree.
  - rewrite <- splitWithEscape_loop_start by discriminate.
    rewrite (splitWithEscape_loop_free d0 d' a _ [] Hfree Hlast) by discriminate.
    rewrite app_nil_r, (splitWithEscape_loop_delimiter d0 d' b _ Hd0), rev_involutive.
    rewrite splitWithEscape_loop_start by discriminate. reflexivity.
  - rewrite <- splitWithEscape_loop_start by discriminate.
    rewrite (splitWithEscape_loop_free d0 d' a _ [] Hfree Hlast) by discriminate.
    rewrite app_nil_r.
    rewrite splitWithEscape_loop_escape;
      [|discriminate|exact (HasPrefix_app_self (d0 :: d') b)].
    rewrite splitWithEscape_loop_escaped, splitWithEscape_loop_current.
    cbn [rev]. rewrite rev_involutive.
    rewrite splitWithEscape_loop_start by discriminate. reflexivity.
Qed.

Lemma delimiter_free_single a rest (c : rune) :
  ~ In c a -> delimiter_free a rest [c].
Proof.
  intros Hc pre x -> Hx. destruct x as [|x0 x]; [contradiction|]. simpl.
  destruct (Z.eqb_spec x0 c) as [->|]; [|reflexivity].
  exfalso. apply Hc. apply in_or_app. right. left. reflexivity.
Qed.

Lemma splitWithEscape_delimiter_and_escape_witness :
  LegacyParser.splitWithEscape (str "name|text") (str "|") = [str "name"; str "text"]
  /\ LegacyParser.splitWithEscape (str "a\::b::c") (str "::") = [str "a::b"; str "c"].
Proof.
  split.
  - destruct (splitWithEscape_delimiter_and_escape (str "name") (str "text") 0x7C [])
      as [H _]; [discriminate|vm_compute; discriminate|].
    refine (eq_trans (H _) _); [|reflexivity].
    apply delimiter_free_single. vm_compute. intuition discriminate.
  - destruct (splitWithEscape_delimiter_and_escape (str "a") (str "b::c") 0x3A [0x3A])
      as [_ H]; [discriminate|vm_compute; discriminate|].
    refine (eq_trans (H _) _); [|reflexivity].
    intros pre x Heq Hx. destruct pre as [|p0 pre].
    + simpl in Heq. subst x. reflexivity.
    + injection Heq as _ Heq. destruct pre; [|discriminate Heq].
      simpl in Heq. subst x. contradiction.
Defined.

Lemma string_eqb_true (a b : gostring) : string_eqb a b = true <-> a = b.
Proof. unfold string_eqb. apply bool_decide_eq_true. Qed.

Lemma string_eqb_false (a b : gostring) : string_eqb a b = false <-> a <> b.
Proof. unfold string_eqb. apply bool_decide_eq_false. Qed.

Ltac str_neq :=
  let H := fresh in intros H; vm_compute in H; discriminate H.

Lemma use_cases_distinct :
  str "production" <> str "development" /\ str "production" <> str "testing".
Proof. split; str_neq. Qed.

Lemma drivers_distinct :
  str "sqlite" <> str "mysql" /\ str "postgres" <> str "mysql" /\ str "sqlite" <> [].
Proof. repeat split; str_neq. Qed.

Lemma handling_modes :
  string_eqb (str "strict") (str "strict") = true
  /\ string_eqb (str "permissive") (str "strict") = false
  /\ string_eqb (str "permissive") (str "permissive") = true.
Proof. repeat split; vm_compute; reflexivity. Qed.

Lemma NewDriverConfiguration_fields driverName :
  exists processing,
    NewDriverConfiguration driverName
    = {| DriverEnhancedCommentConfiguration.DriverName := driverName;
         DriverEnhancedCommentConfiguration.EnableEnhancedComments := true;
         DriverEnhancedCommentConfiguration.ProcessingConfig := Some processing;
         DriverEnhancedCommentConfiguration.CompatibilityMode := true;
         DriverEnhancedCommentConfiguration.CustomDelimiter := str "|";
         DriverEnhancedCommentConfiguration.ErrorHandling := str "permissive" |}
    /\ StrictMode processing = false
    /\ ProcessingTimeout processing = 0
    /\ DefaultDelimiter processing = str "|"
    /\ (EnableSanitization processing = false <->
        driverName <> str "sqlite" /\ driverName <> str "mysql").
Proof.
  destruct drivers_distinct as (Hsm & Hpm & _).
  unfold NewDriverConfiguration.
  destruct (string_eqb driverName (str "sqlite")) eqn:Hs;
    [apply string_eqb_true in Hs|apply string_eqb_false in Hs].
  { eexists. split; [reflexivity|]. cbn -[str]. repeat split; try discriminate.
    intros [H _]. contradiction. }
  destruct (string_eqb driverName (str "postgres")) eqn:Hg;
    [apply string_eqb_true in Hg|apply string_eqb_false in Hg].
  { eexists. split; [reflexivity|]. cbn -[str]. repeat split; congruence. }
  destruct (string_eqb driverName (str "mysql")) eqn:Hm;
    [apply string_eqb_true in Hm|apply string_eqb_false in Hm].
  { eexists. split; [reflexivity|]. cbn -[str]. repeat split; try discriminate.
    intros [_ H]. contradiction. }
  eexists. split; [reflexivity|]. cbn -[str]. repeat split; congruence.
Qed.

Lemma recommended_fields driverName useCase :
  let config := GetRecommendedConfiguration driverName useCase in
  DriverEnhancedCommentConfiguration.DriverName config = driverName
  /\ DriverEnhancedCommentConfiguration.EnableEnhancedComments config = true
  /\ DriverEnhancedCommentConfiguration.CustomDelimiter config = str "|"
  /\ (DriverEnhancedCommentConfiguration.ErrorHandling config = str "strict"
      /\ strict_use_case useCase
      \/ DriverEnhancedCommentConfiguration.ErrorHandling config = str "permissive"
         /\ ~ strict_use_case useCase)
  /\ exists processing,
       DriverEnhancedCommentConfiguration.ProcessingConfig config = Some processing
       /\ StrictMode processing = false
       /\ ProcessingTimeout processing = 0
       /\ DefaultDelimiter processing = str "|"
       /\ (EnableSanitization processing = false <->
           strict_use_case useCase
           \/ (useCase <> str "production" /\ driverName <> str "sqlite"
               /\ driverName <> str "mysql")).
Proof.
  destruct use_cases_distinct as [Hpd Hpt].
  destruct (NewDriverConfiguration_fields driverName) as (p & Hnew & Hstrict & Htime & Hdel & Hsan).
  unfold GetRecommendedConfiguration, strict_use_case. rewrite Hnew. clear Hnew.
  destruct (string_eqb useCase (str "production")) eqn:Hp;
    [apply string_eqb_true in Hp|apply string_eqb_false in Hp].
  { cbn -[str string_eqb]. repeat split; try reflexivity.
    - right. split; [reflexivity|]. intros [H|H]; congruence.
    - eexists. split; [reflexivity|]. cbn -[str string_eqb].
      repeat split; try assumption; try discriminate.
      intros [[H|H]|(H & _)]; congruence. }
  destruct (string_eqb useCase (str "development")) eqn:Hd;
    [apply string_eqb_true in Hd|apply string_eqb_false in Hd].
  { cbn -[str string_eqb]. repeat split; try reflexivity.
    - left. split; [reflexivity|]. left. exact Hd.
    - eexists. split; [reflexivity|]. cbn -[str string_eqb].
      repeat split; try assumption.
      intros _. left. left. exact Hd. }
  destruct (string_eqb useCase (str "testing")) eqn:Ht;
    [apply string_eqb_true in Ht|apply string_eqb_false in Ht].
  { cbn -[str string_eqb]. repeat split; try reflexivity.
    - left. split; [reflexivity|]. right. exact Ht.
    - eexists. split; [reflexivity|]. cbn -[str string_eqb].
      repeat split; try assumption.
      intros _. left. right. exact Ht. }
  cbn -[str string_eqb]. repeat split; try reflexivity.
  - right. split; [reflexivity|]. intros [H|H]; congruence.
  - exists p. split; [reflexivity|]. repeat split; try assumption.
    + intros H. right. split; [exact Hp|]. apply Hsan, H.
    + intros [[H|H]|(_ & H)]; [congruence|congruence|]. apply Hsan, H.
Qed.

Lemma ValidateConfiguration_empty config processing :
  DriverEnhancedCommentConfiguration.ProcessingConfig config = Some processing ->
  DriverEnhancedCommentConfiguration.CustomDelimiter config = str "|" ->
  DriverEnhancedCommentConfiguration.ErrorHandling config = str "strict"
  \/ DriverEnhancedCommentConfiguration.ErrorHandling config = str "permissive" ->
  ValidateConfiguration config = [] <->
  DriverEnhancedCommentConfiguration.DriverName config <> []
  /\ ~ (DriverEnhancedCommentConfiguration.DriverName config = str "sqlite"
        /\ StrictMode processing = true)
  /\ ~ (DriverEnhancedCommentConfiguration.DriverName config = str "mysql"
        /\ EnableSanitization processing = false).
Proof.
  destruct drivers_distinct as (Hsm & _ & Hs0).
  destruct handling_modes as (Hss & Hps & Hpp).
  intros Hp Hd Hh. unfold ValidateConfiguration. rewrite Hp, Hd.
  assert (negb (string_eqb (DriverEnhancedCommentConfiguration.ErrorHandling config)
                  (str "strict"))
          && negb (string_eqb (DriverEnhancedCommentConfiguration.ErrorHandling config)
                     (str "permissive"))
          && negb (string_eqb (DriverEnhancedCommentConfiguration.ErrorHandling config)
                     (str "silent")) = false) as ->.
  { destruct Hh as [-> | ->]; [rewrite Hss|rewrite Hps, Hpp]; reflexivity. }
  change (is_empty_string (str "|")) with false. cbv iota.
  destruct (DriverEnhancedCommentConfiguration.DriverName config) as [|c0 name] eqn:Hname.
  { change (string_eqb [] (str "sqlite")) with false.
    change (string_eqb [] (str "mysql")) with false.
    cbn -[str]. split; [discriminate|]. intros [H _]. contradiction. }
  cbn [is_empty_string].
  destruct (string_eqb (c0 :: name) (str "sqlite")) eqn:Hs;
    [apply string_eqb_true in Hs|apply string_eqb_false in Hs].
  { destruct (StrictMode processing); cbn -[str].
    - split; [discriminate|]. intros (_ & H & _). exfalso. apply H. split; [exact Hs|reflexivity].
    - split; [|reflexivity]. intros _. split; [discriminate|]. split.
      + intros [_ H]. discriminate.
      + intros [H _]. congruence. }
  destruct (string_eqb (c0 :: name) (str "mysql")) eqn:Hm;
    [apply string_eqb_true in Hm|apply string_eqb_false in Hm].
  { destruct (EnableSanitization processing); cbn -[str].
    - split; [|reflexivity]. intros _. split; [discriminate|]. split.
      + intros [H _]. congruence.
      + intros [_ H]. discriminate.
    - split; [discriminate|]. intros (_ & _ & H). exfalso. apply H. split; [exact Hm|reflexivity]. }
  split; [|reflexivity]. intros _. split; [discriminate|]. split; intros [H _]; congruence.
Qed.

Section RecommendedConfiguration.

Context {L : GoLibrary}.

(** X30.  [ValidateConfiguration] finds no issue in the configuration that
    [GetRecommendedConfiguration] returns exactly when the driver name is
    not empty and is not mysql with the use case development or testing,
    which turn the sanitization off that the mysql check asks for.
    [ApplyConfiguration] on it returns an adapter that shares the
    [ProcessingConfig] of the configuration, with strict mode exactly for
    development and testing and with a processing timeout of 0, which no
    driver configuration sets.  After that call [ValidateConfiguration]
    also reports sqlite with development or testing, for the strict mode
    that was written into the shared [ProcessingConfig]. *)
Theorem recommended_configuration_issues (driverName useCase : gostring) :
  let config := GetRecommendedConfiguration driverName useCase in
  (ValidateConfiguration config = [] <->
   driverName <> [] /\ ~ (driverName = str "mysql" /\ strict_use_case useCase))
  /\ exists applied adapter,
       ApplyConfiguration config = Some (applied, Some adapter)
       /\ DriverEnhancedCommentConfiguration.ProcessingConfig applied
          = Some (EnhancedCommentDriverAdapter.config adapter)
       /\ pconfig (EnhancedCommentDriverAdapter.processor adapter)
          = EnhancedCommentDriverAdapter.config adapter
       /\ (StrictMode (EnhancedCommentDriverAdapter.config adapter) = true
           <-> strict_use_case useCase)
       /\ ProcessingTimeout (EnhancedCommentDriverAdapter.config adapter) = 0
       /\ (ValidateConfiguration applied = [] <->
           driverName <> []
           /\ ~ ((driverName = str "sqlite" \/ driverName = str "mysql")
                 /\ strict_use_case useCase)).
Proof.
  intros config.
  destruct drivers_distinct as (Hsm & _ & _).
  destruct use_cases_distinct as [Hpd Hpt].
  destruct handling_modes as (Hss & Hps & Hpp).
  destruct (recommended_fields driverName useCase)
    as (Hname & Hen & Hdel & Hhand & p & Hp & Hstrict & Htime & Hpdel & Hsan).
  fold config in Hname, Hen, Hdel, Hhand, Hp.
  assert (Hmode : DriverEnhancedCommentConfiguration.ErrorHandling config = str "strict"
                  \/ DriverEnhancedCommentConfiguration.ErrorHandling config = str "permissive")
    by (destruct Hhand as [[H _]|[H _]]; [left|right]; exact H).
  split.
  - rewrite (ValidateConfiguration_empty config p Hp Hdel Hmode), Hname, Hstrict, Hsan.
    split.
    + intros (H0 & _ & Hm). split; [exact H0|]. intros [Hmy Hu]. apply Hm.
      split; [exact Hmy|]. left. exact Hu.
    + intros (H0 & Hm). split; [exact H0|]. split; [intros [_ H]; discriminate|].
      intros [Hmy [Hu|(_ & _ & Hn)]]; [|contradiction]. apply Hm. split; assumption.
  - clearbody config. destruct config as [dn en pc cm cd eh].
    cbn [DriverEnhancedCommentConfiguration.DriverName
         DriverEnhancedCommentConfiguration.EnableEnhancedComments
         DriverEnhancedCommentConfiguration.ProcessingConfig
         DriverEnhancedCommentConfiguration.CustomDelimiter
         DriverEnhancedCommentConfiguration.ErrorHandling] in *.
    subst dn en cd pc. unfold ApplyConfiguration.
    cbn [DriverEnhancedCommentConfiguration.DriverName
         DriverEnhancedCommentConfiguration.EnableEnhancedComments
         DriverEnhancedCommentConfiguration.ProcessingConfig
         DriverEnhancedCommentConfiguration.CustomDelimiter
         DriverEnhancedCommentConfiguration.ErrorHandling negb].
    change (is_empty_string (str "|")) with false. cbn [negb].
    destruct Hhand as [[-> Hu]|[-> Hu]].
    + rewrite Hss. cbn -[str ValidateConfiguration]. eexists _, _. split; [reflexivity|].
      cbn -[str ValidateConfiguration]. split; [reflexivity|]. split; [reflexivity|].
      split; [split; [intros _; exact Hu|reflexivity]|]. split; [exact Htime|].
      rewrite ValidateConfiguration_empty; [|reflexivity|reflexivity|left; reflexivity].
      cbn -[str]. rewrite Hsan. split.
      * intros (H0 & Hs & Hm). split; [exact H0|]. intros [[Hd|Hd] _].
        -- apply Hs. split; [exact Hd|reflexivity].
        -- apply Hm. split; [exact Hd|]. left. exact Hu.
      * intros (H0 & Hn). split; [exact H0|]. split.
        -- intros [Hd _]. apply Hn. split; [left; exact Hd|exact Hu].
        -- intros [Hd _]. apply Hn. split; [right; exact Hd|exact Hu].
    + rewrite Hps, Hpp. cbn -[str ValidateConfiguration]. eexists _, _. split; [reflexivity|].
      cbn -[str ValidateConfiguration]. split; [reflexivity|]. split; [reflexivity|].
      split; [split; [discriminate|intros H; contradiction]|]. split; [exact Htime|].
      rewrite ValidateConfiguration_empty; [|reflexivity|reflexivity|right; reflexivity].
      cbn -[str]. rewrite Hsan. split.
      * intros (H0 & _). split; [exact H0|]. intros [_ H]. contradiction.
      * intros (H0 & _). split; [exact H0|]. split; [intros [_ H]; discriminate|].
        intros [Hd [H|(_ & _ & H)]]; contradiction.
Qed.

End RecommendedConfiguration.
